(** * ftp_to_telegram: the transcode-and-validate stage

    A shallow embedding of [format_fps_value] and [convert_250_to_mp4]
    from [ftp_to_telegram/ftp_to_telegram.py], together with the extension
    filter of the polling loop.

    Python values are modelled as follows.
    - [float] is IEEE binary64: Rocq's primitive floats, so every arithmetic
      operation and comparison below rounds exactly as CPython does.
    - [int] is [Z]; [None]-or-value is [option].
    - [str] is [string]; paths are taken to be ASCII, so [str.lower] only
      touches the letters A to Z.
    - the decoded output of ffprobe is the list of its code points.
    - a raised exception is the left summand of a result.
    - the file system is a finite map from paths to file contents. *)

From Stdlib Require Import ZArith List Ascii String Floats Bool Lia.
From Stdlib Require Import Strings.Byte DecimalString.
From stdpp Require Import base option gmap strings sorting.

(* Decimal literals such as 0.05 denote the nearest binary64, as in Python. *)
Set Warnings "-inexact-float".

(** * Exceptions *)

Inductive exn : Type :=
| ValueError
| OverflowError.

Definition exc (A : Type) : Type := (exn + A)%type.

Definition exc_bind {A B : Type} (c : exc A) (k : A -> exc B) : exc B :=
  match c with
  | inl e => inl e
  | inr a => k a
  end.

Declare Scope exc_scope.
Delimit Scope exc_scope with exc.
Notation "'let*' x ':=' c 'in' k" := (exc_bind c (fun x => k))
  (at level 10, x name, c at level 100, k at level 200) : exc_scope.

(** * Python's numeric primitives on binary64 *)

Module Py.

(** Quotient of [n] by [d > 0] rounded to the nearest integer, ties to the
    even one. CPython rounds this way in [round], in [int -> float]
    conversions and in fixed-point formatting. *)
Definition div_half_even (n d : Z) : Z :=
  let q := (n / d)%Z in
  let r := (n mod d)%Z in
  match (2 * r ?= d)%Z with
  | Lt => q
  | Gt => (q + 1)%Z
  | Eq => if Z.even q then q else (q + 1)%Z
  end.

(** The magnitude of a finite float times [k], rounded half-even to an
    integer: the float is [m * 2^e] exactly. *)
Definition scaled_magnitude (k : Z) (m : positive) (e : Z) : Z :=
  if (0 <=? e)%Z then (Z.pos m * 2 ^ e * k)%Z
  else div_half_even (Z.pos m * k) (2 ^ (- e)).

(** [round(x)] with one argument: the nearest [int], ties to even;
    [ValueError] on NaN and [OverflowError] on an infinity. *)
Definition round (x : float) : exc Z :=
  match Prim2SF x with
  | S754_nan => inl ValueError
  | S754_infinity _ => inl OverflowError
  | S754_zero _ => inr 0%Z
  | S754_finite s m e =>
      let n := scaled_magnitude 1 m e in
      inr (if s then (- n)%Z else n)
  end.

(** The first magnitude that no longer converts: halfway between the
    largest finite double and [2^1024]. *)
Definition float_overflow_bound : Z := (2 ^ 1024 - 2 ^ 970)%Z.

(** [float(n)] and the implicit conversion of an [int] operand in mixed
    arithmetic: correctly rounded, [OverflowError] when out of range. *)
Definition float_of_int (n : Z) : exc float :=
  if (Z.abs n <? float_overflow_bound)%Z
  then inr (SF2Prim (binary_normalize prec emax n 0 false))
  else inl OverflowError.

(** Truth value of a float: everything but the two zeros (NaN is true). *)
Definition truthy (x : float) : bool := negb (x =? 0)%float.

(** [str(n)] for an [int]. *)
Definition str_of_int (n : Z) : string := NilZero.string_of_int (Z.to_int n).

Definition digit (d : Z) : ascii := ascii_of_nat (48 + Z.to_nat d).

(** The text of [n / 1000] with exactly three decimals, for [0 <= n]. *)
Definition fixed3 (n : Z) : string :=
  str_of_int (n / 1000) +:+ "." +:+
  String (digit (n / 100 mod 10))
    (String (digit (n / 10 mod 10)) (String (digit (n mod 10)) EmptyString)).

Definition sign_prefix (s : bool) : string := if s then "-" else "".

(** [f"{x:.3f}"]: the exact value rounded half-even to three decimals;
    the sign bit is printed even when the digits are all zero. *)
Definition format_3f (x : float) : string :=
  match Prim2SF x with
  | S754_nan => "nan"
  | S754_infinity s => sign_prefix s +:+ "inf"
  | S754_zero s => sign_prefix s +:+ fixed3 0
  | S754_finite s m e => sign_prefix s +:+ fixed3 (scaled_magnitude 1000 m e)
  end.

(** ** [repr] of a float

    [str(x)] and [f"{x}"] print the shortest decimal digit string that
    reads back as [x], choosing the one closest to [x]; the digits are
    laid out in fixed notation unless the decimal point would fall more
    than 16 places right or more than 3 places left of the first digit. *)

(** Smallest [j >= j0] with [xd <= xn * 10^j]. *)
Fixpoint scale_up (fuel : nat) (xn xd j : Z) : Z :=
  match fuel with
  | O => j
  | S fuel' =>
      if (xd <=? xn * 10 ^ j)%Z then j else scale_up fuel' xn xd (j + 1)
  end.

(** The [k] with [10^(k-1) <= xn/xd < 10^k]. *)
Definition decimal_exponent (xn xd : Z) : Z :=
  if (xd <=? xn)%Z
  then Z.of_nat (String.length (str_of_int (xn / xd)))
  else (1 - scale_up 400 xn xd 1)%Z.

(** The [n]-digit decimal that reads back as the float, if there is one.
    The float is [xn/xd], and exactly the reals between [ln/xd] and
    [hn/xd] round to it (the two ends included when [incl]). The result
    is the count [c] of units [10^(k-n)]. *)
Definition pick_digits (incl : bool) (ln xn hn xd k n : Z) : option Z :=
  let p := (10 ^ Z.max (k - n) 0)%Z in
  let q := (10 ^ Z.max (n - k) 0)%Z in
  let c := ((xn * q) / (xd * p))%Z in
  let inside v :=
    let t := (v * p * xd)%Z in
    if incl then (ln * q <=? t)%Z && (t <=? hn * q)%Z
    else (ln * q <? t)%Z && (t <? hn * q)%Z in
  let dist v := Z.abs (v * p * xd - xn * q) in
  match inside c, inside (c + 1)%Z with
  | true, true =>
      Some match (dist c ?= dist (c + 1))%Z with
           | Lt => c
           | Gt => (c + 1)%Z
           | Eq => if Z.even c then c else (c + 1)%Z
           end
  | true, false => Some c
  | false, true => Some (c + 1)%Z
  | false, false => None
  end.

(** Try 1, 2, ... digits; 17 always suffice for a binary64. *)
Fixpoint shortest_digits (fuel : nat) (incl : bool) (ln xn hn xd k n : Z)
  : Z * Z :=
  match fuel with
  | O => (((xn * 10 ^ Z.max (n - k) 0) / (xd * 10 ^ Z.max (k - n) 0))%Z, n)
  | S fuel' =>
      match pick_digits incl ln xn hn xd k n with
      | Some c => (c, n)
      | None => shortest_digits fuel' incl ln xn hn xd k (n + 1)
      end
  end.

Fixpoint strip_zeros_rev (l : list ascii) : list ascii :=
  match l with
  | c :: l' => if Ascii.eqb c "0" then strip_zeros_rev l' else l
  | [] => []
  end.

Definition strip_trailing_zeros (s : string) : string :=
  string_of_list_ascii (rev (strip_zeros_rev (rev (list_ascii_of_string s)))).

Fixpoint zeros (n : nat) : string :=
  match n with
  | O => ""
  | S n' => String "0" (zeros n')
  end.

(** Lay out the digits [ds] of the value [0.ds * 10^decpt]. *)
Definition layout_repr (ds : string) (decpt : Z) : string :=
  let nd := Z.of_nat (String.length ds) in
  if (decpt <=? -4)%Z || (16 <? decpt)%Z then
    let e := (decpt - 1)%Z in
    let mant :=
      match ds with
      | String d EmptyString => String d EmptyString
      | String d rest => String d ("." +:+ rest)
      | EmptyString => EmptyString
      end in
    let es := str_of_int (Z.abs e) in
    mant +:+ "e" +:+ (if (e <? 0)%Z then "-" else "+") +:+
    (if (Z.abs e <? 10)%Z then "0" +:+ es else es)
  else if (decpt <=? 0)%Z then "0." +:+ zeros (Z.to_nat (- decpt)) +:+ ds
  else if (nd <=? decpt)%Z then ds +:+ zeros (Z.to_nat (decpt - nd)) +:+ ".0"
  else substring 0 (Z.to_nat decpt) ds +:+ "." +:+
       substring (Z.to_nat decpt) (Z.to_nat (nd - decpt)) ds.

Definition repr_finite (m : positive) (e : Z) : string :=
  (* value and rounding interval in units of 2^(e-2) *)
  let narrow := (Z.pos m =? 2 ^ 52)%Z && (-1074 <? e)%Z in
  let x4 := (4 * Z.pos m)%Z in
  let l4 := (x4 - (if narrow then 1 else 2))%Z in
  let h4 := (x4 + 2)%Z in
  let e2 := (e - 2)%Z in
  let up := (2 ^ Z.max e2 0)%Z in
  let xd := (2 ^ Z.max (- e2) 0)%Z in
  let k := decimal_exponent (x4 * up) xd in
  let '(c, n) :=
    shortest_digits 17 (Z.even (Z.pos m)) (l4 * up) (x4 * up) (h4 * up) xd k 1 in
  let ds := str_of_int c in
  layout_repr (strip_trailing_zeros ds) (k - n + Z.of_nat (String.length ds)).

Definition repr_float (x : float) : string :=
  match Prim2SF x with
  | S754_nan => "nan"
  | S754_infinity s => sign_prefix s +:+ "inf"
  | S754_zero s => sign_prefix s +:+ "0.0"
  | S754_finite s m e => sign_prefix s +:+ repr_finite m e
  end.

End Py.

(** * [format_fps_value] (lines 28-33) *)

Definition format_fps_value (fps : option float) : exc string :=
  match fps with
  | None => inr "25"
  | Some f =>
      (let* r := Py.round f in
       let* rf := Py.float_of_int r in
       if (abs (f - rf) <? 0.001)%float
       then (let* r' := Py.round f in inr (Py.str_of_int r'))
       else inr (Py.format_3f f))%exc
  end.


(** * Strings and paths *)

Definition lower_ascii (c : ascii) : ascii :=
  let n := nat_of_ascii c in
  if (65 <=? n)%nat && (n <=? 90)%nat then ascii_of_nat (n + 32) else c.

(** [str.lower] on ASCII text. *)
Fixpoint lower (s : string) : string :=
  match s with
  | EmptyString => EmptyString
  | String c s' => String (lower_ascii c) (lower s')
  end.

(** [s.endswith(suffix)]. *)
Definition endswith (s suffix : string) : bool :=
  let n := String.length s in
  let k := String.length suffix in
  (k <=? n)%nat && String.eqb (substring (n - k) k s) suffix.

(** [s.endswith(tuple)]: any of the suffixes. *)
Definition endswith_any (s : string) (suffixes : list string) : bool :=
  existsb (endswith s) suffixes.

(** Line 24. *)
Definition ALLOWED_EXTS : list string := [".250"; ".265"].

(** The filter of the polling loop (line 332): the files that are
    downloaded and handed to [convert_250_to_mp4]. *)
Definition accepted (fname : string) : bool :=
  existsb (fun ext => endswith (lower fname) ext) ALLOWED_EXTS.

(** The extensions line 157 takes for a bare HEVC elementary stream. *)
Definition RAW_HEVC_EXTS : list string := [".265"; ".h265"; ".hevc"].

(** * The two encoder command lines *)

(** [cmd_recode], lines 155-171. *)
Definition cmd_recode (src_path dst_path fps_str : string) (has_audio : bool)
  : list string :=
  ["ffmpeg"; "-y"; "-fflags"; "+genpts"]
  ++ (if endswith_any (lower src_path) RAW_HEVC_EXTS && negb has_audio
      then ["-f"; "hevc"; "-framerate"; fps_str] else [])
  ++ ["-i"; src_path]
  ++ ["-c:v"; "libx264"; "-preset"; "fast"; "-crf"; "23"; "-pix_fmt"; "yuv420p";
      "-r"; fps_str; "-filter:v"; "fps=" +:+ fps_str; "-fps_mode"; "cfr"]
  ++ (if has_audio then ["-c:a"; "aac"; "-b:a"; "128k"] else ["-an"])
  ++ ["-avoid_negative_ts"; "make_zero"; "-movflags"; "+faststart"; dst_path].

(** [cmd_fix], lines 222-227. *)
Definition cmd_fix (dst_path : string) (multiplier : float)
    (fps_str tmp_fixed : string) : list string :=
  ["ffmpeg"; "-y"; "-i"; dst_path;
   "-filter:v"; "setpts=PTS*" +:+ Py.repr_float multiplier;
   "-r"; fps_str; "-c:v"; "libx264"; "-preset"; "fast"; "-crf"; "23";
   "-pix_fmt"; "yuv420p"; "-movflags"; "+faststart"; tmp_fixed].

(** * The outside world

    ffprobe, ffmpeg and the rename primitive are not part of the script.
    They are parameters of the model:
    - the four nested probe helpers catch every exception and hand back
      [None] (or [False]); each is represented by the value it returns for a
      path in a given file system, and probing changes nothing;
    - one ffmpeg run yields an exit status and decides what is at its
      output path (the last argument) afterwards; nothing else is touched.
      A [subprocess.run] that raises instead of returning (ffmpeg not
      installed, output that cannot be decoded), which lines 174 and 229
      do not catch, is left out: what is stated of a run is stated of a
      run that returns;
    - [os.replace] either moves the file or raises, which line 237 catches. *)

Record Tools : Type := {
  probe_fps : string -> gmap string (list byte) -> option float;
  probe_has_audio : string -> gmap string (list byte) -> bool;
  probe_frame_count : string -> gmap string (list byte) -> option Z;
  probe_duration : string -> gmap string (list byte) -> option float;
  ffmpeg : list string -> gmap string (list byte) -> Z * option (list byte);
  replace_ok : string -> string -> gmap string (list byte) -> bool
}.

Inductive event : Type :=
| Ran (argv : list string) (returncode : Z)
| Replaced (src dst : string)
| ReplaceFailed (src dst : string).

(** The file system, and the encoder runs and renames made so far. A file
    is known by the path string the script uses for it; paths are not
    normalised, so two spellings of one file are two keys. *)
Record World : Type := {
  fs : gmap string (list byte);
  trace : list event
}.

(** [os.path.exists]. *)
Definition path_exists (w : World) (path : string) : bool :=
  bool_decide (is_Some (fs w !! path)).

(** [subprocess.run(argv, ...)] for an ffmpeg command line. *)
Definition run_ffmpeg (T : Tools) (argv : list string) (w : World) : Z * World :=
  let out := List.last argv "" in
  let '(rc, o) := ffmpeg T argv (fs w) in
  (rc, {| fs := match o with
                | Some c => <[out := c]> (fs w)
                | None => delete out (fs w)
                end;
          trace := trace w ++ [Ran argv rc] |}).

(** [os.replace(src, dst)]; [false] stands for a raised [OSError]. *)
Definition os_replace (T : Tools) (src dst : string) (w : World) : bool * World :=
  match fs w !! src with
  | Some c =>
      if replace_ok T src dst (fs w)
      then (true, {| fs := delete src (<[dst := c]> (fs w));
                     trace := trace w ++ [Replaced src dst] |})
      else (false, {| fs := fs w; trace := trace w ++ [ReplaceFailed src dst] |})
  | None => (false, {| fs := fs w; trace := trace w ++ [ReplaceFailed src dst] |})
  end.

(** * Frame-rate resolution (lines 125-133) *)

Definition resolve_fps (TARGET_FPS : option Z) (detected_fps : option float)
  : exc (string * float) :=
  let automatic :=
    match detected_fps with
    | Some d => if Py.truthy d then d else 25.0%float
    | None => 25.0%float
    end in
  match TARGET_FPS with
  | Some t =>
      if negb (t =? 0)%Z && (0 <? t)%Z
      then (let* v := Py.float_of_int t in inr ("konfiguriert", v))%exc
      else inr ("automatisch", automatic)
  | None => inr ("automatisch", automatic)
  end.

(** * Duration validation (lines 212-219) *)

Inductive verdict : Type :=
| Skipped                                   (* the [else] of line 241 *)
| NotPositive (expected_dur : float)        (* line 215 is false *)
| Checked (expected_dur multiplier : float) (needs_fix : bool).

(** Line 212. *)
Definition fps_for_duration (preferred_fps : float) : option float :=
  if Py.truthy preferred_fps && (0 <? preferred_fps)%float
  then Some preferred_fps else None.

(** Line 219. *)
Definition needs_correction (multiplier : float) : bool :=
  (0.05 <? abs (multiplier - 1.0))%float.

Definition check_duration (frames : option Z) (out_duration rate : option float)
  : exc verdict :=
  match frames, out_duration, rate with
  | Some n, Some d, Some r =>
      if negb (n =? 0)%Z && Py.truthy d && Py.truthy r then
        (let* nf := Py.float_of_int n in
         let expected_dur := (nf / r)%float in
         if (0 <? expected_dur)%float then
           let multiplier := if (0 <? d)%float then (expected_dur / d)%float
                             else 1.0%float in
           inr (Checked expected_dur multiplier (needs_correction multiplier))
         else inr (NotPositive expected_dur))%exc
      else inr Skipped
  | _, _, _ => inr Skipped
  end.

(** * The corrective second pass (lines 220-240) *)

Definition tmp_fixed (dst_path : string) : string := dst_path +:+ ".fixed.mp4".

Definition fix_timestamps (T : Tools) (dst_path : string)
    (multiplier rate : float) (w : World) : exc World :=
  (let* fps_str := format_fps_value (Some rate) in
   let '(rc, w2) :=
     run_ffmpeg T (cmd_fix dst_path multiplier fps_str (tmp_fixed dst_path)) w in
   if (rc =? 0)%Z && path_exists w2 (tmp_fixed dst_path)
   then inr (snd (os_replace T (tmp_fixed dst_path) dst_path w2))
   else inr w2)%exc.

(** * [convert_250_to_mp4] (lines 96-244)

    [TARGET_FPS] is the module global set once by [main]. The result is the
    returned pair [(ok, has_audio)], or the exception that escapes. *)

Definition convert_250_to_mp4 (T : Tools) (TARGET_FPS : option Z)
    (src_path dst_path : string) (w : World) : exc (bool * bool) * World :=
  let detected_fps := probe_fps T src_path (fs w) in
  match resolve_fps TARGET_FPS detected_fps with
  | inl e => (inl e, w)
  | inr (fps_source, preferred_fps) =>
      match format_fps_value (Some preferred_fps) with
      | inl e => (inl e, w)
      | inr fps_str =>
          let has_audio := probe_has_audio T src_path (fs w) in
          let '(rc, w1) :=
            run_ffmpeg T (cmd_recode src_path dst_path fps_str has_audio) w in
          if negb ((rc =? 0)%Z && path_exists w1 dst_path)
          then (inr (false, has_audio), w1)
          else
            let frames := probe_frame_count T src_path (fs w1) in
            let out_duration := probe_duration T dst_path (fs w1) in
            match check_duration frames out_duration
                    (fps_for_duration preferred_fps) with
            | inl e => (inl e, w1)
            | inr (Checked _ multiplier true) =>
                (* here [fps_for_duration] is [preferred_fps] itself *)
                match fix_timestamps T dst_path multiplier preferred_fps w1 with
                | inl e => (inl e, w1)
                | inr w3 => (inr (true, has_audio), w3)
                end
            | inr _ => (inr (true, has_audio), w1)
            end
      end
  end.

(** * Vocabulary of the statements *)

(** ** Shapes of rendered numbers *)

Definition is_digit (c : ascii) : bool :=
  (48 <=? nat_of_ascii c)%nat && (nat_of_ascii c <=? 57)%nat.

(** A non-empty run of decimal digits. *)
Definition digits_only (l : list ascii) : bool :=
  negb (Nat.eqb (List.length l) 0) && forallb is_digit l.

(** An optional minus sign and digits: no point, no exponent. *)
Definition plain_integer (l : list ascii) : bool :=
  match l with
  | "-"%char :: l' => digits_only l'
  | _ => digits_only l
  end.

(** A plain integer, a point, and exactly three digits. *)
Definition three_decimals (s : string) : bool :=
  match rev (list_ascii_of_string s) with
  | d3 :: d2 :: d1 :: "."%char :: front =>
      is_digit d1 && is_digit d2 && is_digit d3 && plain_integer (rev front)
  | _ => false
  end.

(** ** Encoder command lines *)

Fixpoint starts_with (needle hay : list string) : bool :=
  match needle, hay with
  | [], _ => true
  | a :: needle', b :: hay' => String.eqb a b && starts_with needle' hay'
  | _ :: _, [] => false
  end.

(** [needle] occurs as consecutive arguments of [hay]. *)
Fixpoint contains (needle hay : list string) : bool :=
  starts_with needle hay ||
  match hay with
  | [] => false
  | _ :: hay' => contains needle hay'
  end.

(** The input framing options of line 158. *)
Definition framing_hint (fps_str : string) : list string :=
  ["-f"; "hevc"; "-framerate"; fps_str].

Definition is_run (e : event) : bool :=
  match e with
  | Ran _ _ => true
  | _ => false
  end.

(** How many times the encoder has been started. *)
Definition encoder_runs (w : World) : nat :=
  List.length (List.filter is_run (trace w)).

(** The first pass as [convert_250_to_mp4] runs it (line 174): the exit
    status, and the world it leaves. *)
Definition first_pass (T : Tools) (src_path dst_path fps_str : string)
    (w : World) : Z * World :=
  run_ffmpeg T
    (cmd_recode src_path dst_path fps_str (probe_has_audio T src_path (fs w))) w.

(** The same tools, with another frame-count probe. *)
Definition with_frame_count (T : Tools)
    (p : string -> gmap string (list byte) -> option Z) : Tools :=
  {| probe_fps := probe_fps T;
     probe_has_audio := probe_has_audio T;
     probe_frame_count := p;
     probe_duration := probe_duration T;
     ffmpeg := ffmpeg T;
     replace_ok := replace_ok T |}.

(** ** The resolver as the design document words it

    [resolve(configuredRate, detectedRate)]: a configured rate that is
    present and positive wins; else a detected rate that is present and
    non-zero; else 25. *)

Inductive RateSource : Type := Configured | Detected | Fallback.

Inductive RateValue : Type :=
| IntegerRate (n : Z)
| MeasuredRate (r : float).

Definition resolve_spec (configuredRate : option Z) (detectedRate : option float)
  : RateSource * RateValue :=
  match configuredRate with
  | Some c =>
      if (0 <? c)%Z then (Configured, IntegerRate c)
      else match detectedRate with
           | Some d => if (d =? 0)%float then (Fallback, IntegerRate 25)
                       else (Detected, MeasuredRate d)
           | None => (Fallback, IntegerRate 25)
           end
  | None =>
      match detectedRate with
      | Some d => if (d =? 0)%float then (Fallback, IntegerRate 25)
                  else (Detected, MeasuredRate d)
      | None => (Fallback, IntegerRate 25)
      end
  end.

(** The log label the script attaches to each source (lines 125, 129). *)
Definition fps_source_label (s : RateSource) : string :=
  match s with
  | Configured => "konfiguriert"
  | Detected | Fallback => "automatisch"
  end.

(** The rate as the [float] the script carries in [preferred_fps]. *)
Definition rate_as_float (v : RateValue) : exc float :=
  match v with
  | IntegerRate n => Py.float_of_int n
  | MeasuredRate r => inr r
  end.

(** ** Concrete runs *)

Module Scenario.

Definition footage : list byte := [x00; x00; x01].
Definition encoded : list byte := [x66; x74; x79; x70].
Definition retimed : list byte := [x66; x74; x79; x70; x01].

(** Tools whose probes give fixed answers. [first] is what the encoder
    does on a first pass and [second] on a corrective pass: the exit
    status and the file left at the output path. *)
Definition tools (detected : option float) (audio : bool)
    (frames : option Z) (duration : option float)
    (first second : Z * option (list byte)) (rename : bool) : Tools :=
  {| probe_fps := fun _ _ => detected;
     probe_has_audio := fun _ _ => audio;
     probe_frame_count := fun _ _ => frames;
     probe_duration := fun _ _ => duration;
     ffmpeg := fun argv _ =>
       if endswith (List.last argv "") ".fixed.mp4" then second else first;
     replace_ok := fun _ _ _ => rename |}.

Definition start (src : string) : World :=
  {| fs := {[ src := footage ]}; trace := [] |}.

End Scenario.

(** * The rest of the script

    The helpers around the conversion: configuration lookup, the two FTP
    listings, the four probe helpers nested in [convert_250_to_mp4], the
    Telegram upload, and the body of the polling loop. *)

(** ** [get_env] (lines 36-41)

    [os.environ] is a finite map; [sys.exit(2)] is the left summand. *)
Definition get_env (environ : gmap string string) (name : string)
    (required : bool) (default : option string) : Z + option string :=
  let val := match environ !! name with
             | Some v => Some v
             | None => default
             end in
  if required && match val with
                 | None => true
                 | Some v => String.eqb v ""
                 end
  then inl 2%Z
  else inr val.

(** ** The FTP listings (lines 54-88)

    [ftp_dir path] is what [ftp.cwd(path)] followed by [ftp.nlst()] yields:
    the names, or [None] when either call raises. A name with characters
    outside ASCII is held as the bytes of its UTF-8 form; comparing two
    such names byte by byte is comparing them code point by code point. *)

(** [sorted] and [list.sort] on strings: ascending by code point. *)
Definition sorted (l : list string) : list string := merge_sort String.le l.

(** Lines 54-67. [isdigit] is [str.isdigit]: which characters count as
    digits is decided by the Unicode tables of the interpreter (the
    superscript two and the fullwidth digits do, besides 0 to 9), so the
    test is a parameter of the listing. *)
Definition list_day_directories (isdigit : string -> bool)
    (ftp_dir : string -> option (list string)) : list string :=
  match ftp_dir "/" with
  | None => []
  | Some entries => sorted (List.filter isdigit entries)
  end.

(** A name written with the digits 0 to 9 only, as a date YYYYMMDD is. *)
Definition decimal_digits (s : string) : bool :=
  digits_only (list_ascii_of_string s).

Definition record_path (day : string) : string := "/" +:+ day +:+ "/record/".

Definition list_files_in_record (ftp_dir : string -> option (list string))
    (day : string) : list string :=
  match ftp_dir (record_path day) with
  | None => []
  | Some files => sorted files
  end.

(** The number a run of decimal digits denotes. *)
Definition digit_value (c : ascii) : Z := Z.of_nat (nat_of_ascii c) - 48.

Fixpoint digits_number (acc : Z) (s : string) : Z :=
  match s with
  | EmptyString => acc
  | String c s' => digits_number (10 * acc + digit_value c) s'
  end.

Definition day_number (day : string) : Z := digits_number 0 day.

(** ** The probe helpers (lines 97-121, 138-148, 183-206)

    Each runs ffprobe and reads its standard output, which
    [subprocess.run(..., text=True)] hands over decoded: a Python [str],
    here the list of its code points, so that [str.strip] can be followed
    on every character. [None] for the run means that [subprocess.run]
    raised. Python's [float(text)] and [int(text)] are parameters, [None]
    standing for [ValueError]. *)

Module Probe.

(** A decoded [str]: its code points. *)
Definition text : Type := list N.

(** The text of an ASCII literal. *)
Definition codes (s : string) : text :=
  map N_of_ascii (list_ascii_of_string s).

(** [str.isspace] on one character, which is also what [str.strip()]
    removes: U+0009 to U+000D, U+001C to U+0020, U+0085, U+00A0, U+1680,
    U+2000 to U+200A, U+2028, U+2029, U+202F, U+205F and U+3000. *)
Definition isspace (c : N) : bool :=
  ((9 <=? c) && (c <=? 13) || (28 <=? c) && (c <=? 32)
   || (c =? 133) || (c =? 160) || (c =? 5760)
   || (8192 <=? c) && (c <=? 8202)
   || (c =? 8232) || (c =? 8233) || (c =? 8239) || (c =? 8287)
   || (c =? 12288))%N.

Fixpoint lstrip (l : text) : text :=
  match l with
  | c :: l' => if isspace c then lstrip l' else l
  | [] => []
  end.

(** [str.strip()]. *)
Definition strip (s : text) : text := rev (lstrip (rev (lstrip s))).

(** The separator of a frame rate written as a fraction. *)
Definition slash : N := 47%N.

(** [sep in s] for a one-character [sep]. *)
Definition has_char (sep : N) (s : text) : bool := existsb (N.eqb sep) s.

(** [s.split(sep)] for a one-character separator. *)
Fixpoint split (sep : N) (s : text) : list text :=
  match s with
  | [] => [[]]
  | c :: s' =>
      if N.eqb c sep then [] :: split sep s'
      else match split sep s' with
           | part :: parts => (c :: part) :: parts
           | [] => [[c]]
           end
  end.

Definition cmd_fps (path : string) : list string :=
  ["ffprobe"; "-v"; "error"; "-select_streams"; "v:0";
   "-show_entries"; "stream=avg_frame_rate";
   "-of"; "default=nokey=1:noprint_wrappers=1"; path].

Definition cmd_has_audio (path : string) : list string :=
  ["ffprobe"; "-v"; "error"; "-select_streams"; "a";
   "-show_entries"; "stream=index";
   "-of"; "default=nokey=1:noprint_wrappers=1"; path].

Definition cmd_frame_count (path : string) : list string :=
  ["ffprobe"; "-v"; "error"; "-count_frames"; "-select_streams"; "v:0";
   "-show_entries"; "stream=nb_read_frames";
   "-of"; "default=nokey=1:noprint_wrappers=1"; path].

Definition cmd_duration (path : string) : list string :=
  ["ffprobe"; "-v"; "error"; "-show_entries"; "format=duration";
   "-of"; "default=nokey=1:noprint_wrappers=1"; path].

Section Helpers.

Variable py_float : text -> option float.
Variable py_int : text -> option Z.
(** One ffprobe run: the standard output, or [None] when the run raises. *)
Variable ffprobe : list string -> gmap string (list byte) -> option text.

(** Lines 97-121. *)
Definition probe_fps (path : string) (files : gmap string (list byte))
  : option float :=
  match ffprobe (cmd_fps path) files with
  | None => None
  | Some stdout =>
      let out := strip stdout in
      if bool_decide (out = []) then None
      else if has_char slash out then
        match split slash out with
        | [num; den] =>
            match py_float den with
            | None => None
            | Some d =>
                if negb (d =? 0)%float
                then match py_float num with
                     | Some n => Some (n / d)%float
                     | None => None
                     end
                else None
            end
        | _ => None
        end
      else py_float out
  end.

(** Lines 138-148. *)
Definition probe_has_audio (path : string) (files : gmap string (list byte))
  : bool :=
  match ffprobe (cmd_has_audio path) files with
  | None => false
  | Some stdout => negb (bool_decide (strip stdout = []))
  end.

(** Lines 183-195. *)
Definition probe_frame_count (path : string) (files : gmap string (list byte))
  : option Z :=
  match ffprobe (cmd_frame_count path) files with
  | None => None
  | Some stdout =>
      let out := strip stdout in
      if bool_decide (out = []) || bool_decide (out = codes "N/A")
      then None else py_int out
  end.

(** Lines 197-206. *)
Definition probe_duration (path : string) (files : gmap string (list byte))
  : option float :=
  match ffprobe (cmd_duration path) files with
  | None => None
  | Some stdout =>
      let out := strip stdout in
      if bool_decide (out = []) then None else py_float out
  end.

(** The tools of a conversion whose probes are these helpers. *)
Definition tools
    (ffmpeg : list string -> gmap string (list byte) -> Z * option (list byte))
    (replace_ok : string -> string -> gmap string (list byte) -> bool) : Tools :=
  Build_Tools probe_fps probe_has_audio probe_frame_count probe_duration
    ffmpeg replace_ok.

End Helpers.

End Probe.

(** ** [os.path] on POSIX *)

Module Path.

(** [os.path.join(a, b)]. *)
Definition join (a b : string) : string :=
  if String.prefix "/" b then b
  else if String.eqb a "" || endswith a "/" then a +:+ b
  else a +:+ "/" +:+ b.

(** [s.rfind(c)], with -1 for no occurrence. *)
Fixpoint rfind_from (c : ascii) (s : string) (i found : Z) : Z :=
  match s with
  | EmptyString => found
  | String a s' => rfind_from c s' (i + 1) (if Ascii.eqb a c then i else found)
  end.

Definition rfind (c : ascii) (s : string) : Z := rfind_from c s 0 (-1).

(** [os.path.splitext(p)]: the extension starts at the last dot of the
    last component, unless only dots precede it there. *)
Definition splitext (p : string) : string * string :=
  let sepIndex := rfind "/" p in
  let dotIndex := rfind "." p in
  if (sepIndex <? dotIndex)%Z
     && existsb (fun c => negb (Ascii.eqb c "."))
          (list_ascii_of_string
             (substring (Z.to_nat (sepIndex + 1))
                (Z.to_nat (dotIndex - sepIndex - 1)) p))
  then (substring 0 (Z.to_nat dotIndex) p,
        substring (Z.to_nat dotIndex) (String.length p - Z.to_nat dotIndex) p)
  else (p, EmptyString).

End Path.

(** ** [send_file_telegram] (lines 247-282)

    [post] is [requests.post]: the status code of the reply, or [None] when
    the call raises. [raise_for_status] raises for 400 to 599. *)

Record Request : Type := {
  url : string;
  data : list (string * string);
  field : string;
  payload : list byte
}.

(** The request built by lines 248-270, for a file that can be opened. *)
Definition telegram_request (bot_token chat_id file_path : string)
    (caption : option string) (content : list byte) : Request :=
  let is_mp4 := endswith (lower file_path) ".mp4" in
  let with_caption :=
    match caption with
    | Some c => if String.eqb c "" then [] else [("caption", c)]
    | None => []
    end in
  {| url := "https://api.telegram.org/bot" +:+ bot_token +:+
            (if is_mp4 then "/sendVideo" else "/sendDocument");
     data := if is_mp4
             then [("chat_id", chat_id); ("supports_streaming", "true")]
                  ++ with_caption
             else [("chat_id", chat_id)] ++ with_caption;
     field := if is_mp4 then "video" else "document";
     payload := content |}.

Definition send_file_telegram (post : Request -> option Z)
    (bot_token chat_id file_path : string) (caption : option string)
    (files : gmap string (list byte)) : bool :=
  match files !! file_path with
  | None => false
  | Some content =>
      match post (telegram_request bot_token chat_id file_path caption content) with
      | None => false
      | Some status_code => negb ((400 <=? status_code)%Z && (status_code <? 600)%Z)
      end
  end.

(** ** The body of the polling loop (lines 323-388) *)

Inductive main_exn : Type :=
| UnboundLocalError
| Escaped (e : exn).

Inductive action : Type :=
| Fetched (day fname : string) (complete : bool)
| Converted (src dst : string) (ok : bool)
| Sent (path : string) (delivered : bool)
| DeleteCalled (day fname : string).

(** What [main] reads once from the environment, and its working
    directory for the cycle. *)
Record Settings : Type := {
  bot_token : string;
  chat_id : string;
  TARGET_FPS : option Z;
  delete_after : bool;
  workdir : string
}.

(** The services of one cycle. [retr day fname] is [download_file] run in
    the record directory of [day]: whether it completed, and what it left
    at the destination ([None] when the file could not be created). *)
Record Services : Type := {
  ftp_dir : string -> option (list string);
  retr : string -> string -> bool * option (list byte);
  media : Tools;
  post : Request -> option Z
}.

(** The variables of [main] that live across iterations, the local file
    system, and a journal of what was done. [remote_key] is [None] while
    the name is unbound. *)
Record Loop : Type := {
  remote_key : option string;
  processed : gset string;
  world : World;
  journal : list action
}.

(** Lines 331-334: the inner [for] only rebinds [remote_key]. *)
Definition scan_files (day : string) (files : list string)
    (key : option string) : option string :=
  fold_left
    (fun key fname =>
       if accepted fname then Some (day +:+ "/record/" +:+ fname) else key)
    files key.

Definition local_src (S : Settings) (fname : string) : string :=
  Path.join (workdir S) fname.

Definition local_mp4 (S : Settings) (fname : string) : string :=
  Path.join (workdir S) (fst (Path.splitext fname) +:+ ".mp4").

(** Lines 344-349: the download. *)
Definition download (V : Services) (S : Settings) (day fname : string)
    (st : Loop) : bool * Loop :=
  let '(complete, dest) := retr V day fname in
  (complete,
   {| remote_key := remote_key st;
      processed := processed st;
      world := {| fs := match dest with
                        | Some c => <[local_src S fname := c]> (fs (world st))
                        | None => fs (world st)
                        end;
                  trace := trace (world st) |};
      journal := journal st ++ [Fetched day fname complete] |}).

(** Lines 358-381, after a completed download. The first component is the
    exception that ends the loop, if any. *)
Definition convert_and_send (V : Services) (S : Settings) (day fname key : string)
    (st : Loop) : option main_exn * Loop :=
  match convert_250_to_mp4 (media V) (TARGET_FPS S)
          (local_src S fname) (local_mp4 S fname) (world st) with
  | (inl e, w) =>
      (Some (Escaped e),
       {| remote_key := remote_key st; processed := processed st;
          world := w; journal := journal st |})
  | (inr (ok, _), w) =>
      let converted :=
        journal st ++ [Converted (local_src S fname) (local_mp4 S fname) ok] in
      if negb ok
      then (None, {| remote_key := remote_key st; processed := processed st;
                     world := w; journal := converted |})
      else
        if send_file_telegram (post V) (bot_token S) (chat_id S)
             (local_mp4 S fname) (Some "") (fs w)
        then (None, {| remote_key := remote_key st;
                       processed := {[ key ]} ∪ processed st;
                       world := w;
                       journal := converted ++ [Sent (local_mp4 S fname) true]
                                  ++ (if delete_after S
                                      then [DeleteCalled day fname] else []) |})
        else (None, {| remote_key := remote_key st; processed := processed st;
                       world := w;
                       journal := converted ++ [Sent (local_mp4 S fname) false] |})
  end.

(** Lines 327-381: one iteration of [for day in day_dirs]. After the inner
    loop [fname] is the last name of the listing. *)
Definition process_day (V : Services) (S : Settings) (day : string)
    (st : Loop) : option main_exn * Loop :=
  let files := list_files_in_record (ftp_dir V) day in
  match files with
  | [] => (None, st)
  | _ :: _ =>
      match scan_files day files (remote_key st) with
      | None => (Some UnboundLocalError, st)
      | Some key =>
          let st1 := {| remote_key := Some key; processed := processed st;
                        world := world st; journal := journal st |} in
          if bool_decide (key ∈ processed st) then (None, st1)
          else
            let fname := List.last files "" in
            let '(complete, st2) := download V S day fname st1 in
            if negb complete then (None, st2)
            else convert_and_send V S day fname key st2
      end
  end.

(** Lines 327-381: the whole [for]. An exception ends it. *)
Fixpoint process_days (V : Services) (S : Settings) (days : list string)
    (st : Loop) : option main_exn * Loop :=
  match days with
  | [] => (None, st)
  | day :: days' =>
      match process_day V S day st with
      | (Some e, st') => (Some e, st')
      | (None, st') => process_days V S days' st'
      end
  end.

Definition is_fetch (a : action) : bool :=
  match a with
  | Fetched _ _ _ => true
  | _ => false
  end.

(** How many downloads the journal records. *)
Definition fetches (st : Loop) : nat := List.length (List.filter is_fetch (journal st)).

(** A key as line 334 builds it, for a name that passes the filter. *)
Definition key_of_accepted (key : string) : Prop :=
  exists day fname, key = day +:+ "/record/" +:+ fname /\ accepted fname = true.

(** A name that is one entry of a directory: not empty, without a slash,
    and neither of the two dot entries. *)
Definition has_slash (name : string) : bool :=
  existsb (Ascii.eqb "/") (list_ascii_of_string name).

Definition plain_name (name : string) : bool :=
  negb (String.eqb name "") && negb (has_slash name)
  && negb (String.eqb name ".") && negb (String.eqb name "..").

(** The path of an entry of [dir], as [os.path.join] builds it. *)
Definition entry_of (dir path : string) : Prop :=
  exists name, plain_name name = true /\ path = Path.join dir name.

(** The paths an event hands to the encoder as its output or to
    [os.replace]. *)
Definition touched (e : event) : list string :=
  match e with
  | Ran argv _ => [List.last argv ""]
  | Replaced src dst => [src; dst]
  | ReplaceFailed src dst => [src; dst]
  end.

(** A stretch of the journal in which every call of [ftp.delete] (lines
    376-380) is allowed by the setting and comes straight after the
    completed download, the successful conversion and the delivered upload
    of that very file of that day. *)
Definition deletions_justified (S : Settings) (later : list action) : Prop :=
  forall before day fname after,
    later = before ++ DeleteCalled day fname :: after ->
    delete_after S = true /\
    exists earlier,
      before = earlier ++ [Fetched day fname true;
                           Converted (local_src S fname) (local_mp4 S fname) true;
                           Sent (local_mp4 S fname) true].

(** ** The configuration [main] reads at start-up (lines 286-300)

    [py_int] is Python's [int] on a string, [None] for [ValueError]. The
    values of the environment are taken to be ASCII, as paths are. *)

Record Config : Type := {
  ftp_host : option string;
  ftp_user : option string;
  ftp_pass : option string;
  ftp_port : option string;
  cfg_bot_token : option string;
  cfg_chat_id : option string;
  cfg_target_fps : option Z;
  cfg_delete_after : bool
}.

(** The names looked up with [required=True], in the order of the calls. *)
Definition required_names : list string :=
  ["FTP_HOST"; "FTP_USER"; "FTP_PASS"; "BOT_TOKEN"; "CHAT_ID"].

(** Lines 292-299. *)
Definition read_target_fps (py_int : string -> option Z)
    (environ : gmap string string) : option Z :=
  match environ !! "TARGET_FPS" with
  | None => None
  | Some target_fps_raw =>
      if String.eqb target_fps_raw "" then None else py_int target_fps_raw
  end.

(** Line 300. *)
Definition read_delete_after (environ : gmap string string) : bool :=
  let v := lower (default "false" (environ !! "DELETE_AFTER_SUCCESS")) in
  existsb (String.eqb v) ["1"; "true"; "yes"].

(** Lines 286-300; the left summand is the status of [sys.exit]. *)
Definition read_config (py_int : string -> option Z)
    (environ : gmap string string) : Z + Config :=
  match get_env environ "FTP_HOST" true None with
  | inl code => inl code
  | inr host =>
  match get_env environ "FTP_USER" true None with
  | inl code => inl code
  | inr user =>
  match get_env environ "FTP_PASS" true None with
  | inl code => inl code
  | inr pass =>
  match get_env environ "BOT_TOKEN" true None with
  | inl code => inl code
  | inr token =>
  match get_env environ "CHAT_ID" true None with
  | inl code => inl code
  | inr chat =>
      inr {| ftp_host := host; ftp_user := user; ftp_pass := pass;
             ftp_port := environ !! "FTP_PORT";
             cfg_bot_token := token; cfg_chat_id := chat;
             cfg_target_fps := read_target_fps py_int environ;
             cfg_delete_after := read_delete_after environ |}
  end end end end end.

(** * Proof automation *)

(** Settle the comparisons between literal arguments by evaluation, then
    split on the ones that involve a path or the rate text. *)
Ltac settle_literal_tests :=
  repeat match goal with
         | |- context [String.eqb ?a ?b] =>
             let v := eval vm_compute in (String.eqb a b) in
             match v with
             | true => change (String.eqb a b) with true
             | false => change (String.eqb a b) with false
             end
         end;
  cbn [andb orb];
  rewrite ?andb_false_r, ?orb_false_r; cbn [andb orb].

Ltac split_string_tests :=
  repeat match goal with
         | |- context [String.eqb ?a ?b] =>
             destruct (String.eqb_spec a b); cbn [andb orb]
         end.

(** * The model on known values

    Each line is what CPython prints or returns for the same input. *)

Example round_ties_to_even :
  Py.round 0.5 = inr 0%Z /\ Py.round 1.5 = inr 2%Z /\
  Py.round 2.5 = inr 2%Z /\ Py.round (-0.5) = inr 0%Z.
Proof. vm_compute. repeat split; reflexivity. Qed.

Example float_of_int_rounds :
  Py.float_of_int (2 ^ 53 + 1) = inr 9007199254740992%float /\
  Py.float_of_int (Py.float_overflow_bound - 1) = inr 0x1.fffffffffffffp+1023%float /\
  Py.float_of_int Py.float_overflow_bound = inl OverflowError.
Proof. vm_compute. repeat split; reflexivity. Qed.

Example format_3f_values :
  Py.format_3f 0.0625 = "0.062" /\ Py.format_3f 1234.5678 = "1234.568" /\
  Py.format_3f (-0.0001) = "-0.000" /\ Py.format_3f 0.0015 = "0.002".
Proof. vm_compute. repeat split; reflexivity. Qed.

Example repr_float_values :
  Py.repr_float 30 = "30.0" /\ Py.repr_float 1.05 = "1.05" /\
  Py.repr_float 1e16 = "1e+16" /\ Py.repr_float 1e-5 = "1e-05" /\
  Py.repr_float 0.0001 = "0.0001" /\ Py.repr_float 5e-324 = "5e-324" /\
  Py.repr_float (750 / 25 / 36) = "0.8333333333333334" /\
  Py.repr_float (0.1 + 0.2) = "0.30000000000000004".
Proof. vm_compute. repeat split; reflexivity. Qed.

Example format_fps_value_edge_cases :
  format_fps_value None = inr "25" /\
  format_fps_value (Some nan) = inl ValueError /\
  format_fps_value (Some infinity) = inl OverflowError /\
  format_fps_value (Some (-25)%float) = inr "-25".
Proof. vm_compute. repeat split; reflexivity. Qed.

Example resolve_fps_values :
  resolve_fps (Some 30%Z) (Some 25.0%float) = inr ("konfiguriert", 30.0%float) /\
  resolve_fps (Some 0%Z) (Some 29.97%float) = inr ("automatisch", 29.97%float) /\
  resolve_fps (Some (-5)%Z) None = inr ("automatisch", 25.0%float) /\
  resolve_fps None (Some 0.0%float) = inr ("automatisch", 25.0%float) /\
  resolve_fps None (Some (-0.0)%float) = inr ("automatisch", 25.0%float).
Proof. vm_compute. repeat split; reflexivity. Qed.

(** A source with audio and a detected rate of 30: the detected rate is
    used, audio is encoded to AAC, and no input framing is given. *)
Example run_with_audio_at_30 :
  let T := Scenario.tools (Some 30.0%float) true None None
             (0%Z, Some Scenario.encoded) (0%Z, None) true in
  convert_250_to_mp4 T None "cam/rec.265" "cam/rec.mp4" (Scenario.start "cam/rec.265")
  = (inr (true, true),
     {| fs := {[ "cam/rec.265" := Scenario.footage; "cam/rec.mp4" := Scenario.encoded ]};
        trace :=
          [Ran ["ffmpeg"; "-y"; "-fflags"; "+genpts"; "-i"; "cam/rec.265";
                "-c:v"; "libx264"; "-preset"; "fast"; "-crf"; "23";
                "-pix_fmt"; "yuv420p"; "-r"; "30"; "-filter:v"; "fps=30";
                "-fps_mode"; "cfr"; "-c:a"; "aac"; "-b:a"; "128k";
                "-avoid_negative_ts"; "make_zero"; "-movflags"; "+faststart";
                "cam/rec.mp4"] 0] |}).
Proof. vm_compute. reflexivity. Qed.

(** A bare stream without audio whose rate cannot be probed: 25 is
    assumed, the input is framed at 25 and audio is left out. *)
Example run_bare_stream_at_fallback :
  let T := Scenario.tools None false None None
             (0%Z, Some Scenario.encoded) (0%Z, None) true in
  resolve_fps None None = inr ("automatisch", 25.0%float) /\
  trace (snd (convert_250_to_mp4 T None "cam/rec.265" "cam/rec.mp4"
                (Scenario.start "cam/rec.265")))
  = [Ran ["ffmpeg"; "-y"; "-fflags"; "+genpts"; "-f"; "hevc"; "-framerate"; "25";
          "-i"; "cam/rec.265"; "-c:v"; "libx264"; "-preset"; "fast"; "-crf"; "23";
          "-pix_fmt"; "yuv420p"; "-r"; "25"; "-filter:v"; "fps=25";
          "-fps_mode"; "cfr"; "-an";
          "-avoid_negative_ts"; "make_zero"; "-movflags"; "+faststart";
          "cam/rec.mp4"] 0].
Proof. vm_compute. split; reflexivity. Qed.

(** 750 frames at 25 fps against 36.0 s: the corrected file replaces the
    first-pass output and the temporary name is free again. *)
Example run_with_correction :
  let T := Scenario.tools None false (Some 750%Z) (Some 36.0%float)
             (0%Z, Some Scenario.encoded) (0%Z, Some Scenario.retimed) true in
  convert_250_to_mp4 T None "cam/rec.265" "cam/rec.mp4" (Scenario.start "cam/rec.265")
  = (inr (true, false),
     {| fs := {[ "cam/rec.265" := Scenario.footage; "cam/rec.mp4" := Scenario.retimed ]};
        trace :=
          [Ran (cmd_recode "cam/rec.265" "cam/rec.mp4" "25" false) 0;
           Ran ["ffmpeg"; "-y"; "-i"; "cam/rec.mp4";
                "-filter:v"; "setpts=PTS*0.8333333333333334"; "-r"; "25";
                "-c:v"; "libx264"; "-preset"; "fast"; "-crf"; "23";
                "-pix_fmt"; "yuv420p"; "-movflags"; "+faststart";
                "cam/rec.mp4.fixed.mp4"] 0;
           Replaced "cam/rec.mp4.fixed.mp4" "cam/rec.mp4"] |}).
Proof. vm_compute. reflexivity. Qed.

(** * Facts about the numeric primitives *)

Section PyFacts.

Lemma digits2_pos_bound (m : positive) :
  (Z.pos m < 2 ^ Z.pos (digits2_pos m))%Z.
Proof.
  induction m as [m IH | m IH |]; cbn [digits2_pos].
  - rewrite Pos2Z.inj_succ, Z.pow_succ_r by lia. lia.
  - rewrite Pos2Z.inj_succ, Z.pow_succ_r by lia. lia.
  - reflexivity.
Qed.

(** What validity of a binary64 says about mantissa and exponent. *)
Lemma valid_finite_bounds (s : bool) (m : positive) (e : Z) :
  valid_binary (S754_finite s m e) = true ->
  (Z.pos m < 2 ^ 53 /\ e <= 971)%Z.
Proof.
  cbn [valid_binary]. unfold bounded, canonical_mantissa, fexp, SpecFloat.emin.
  intros H. apply andb_true_iff in H as [Hc He].
  apply Z.eqb_eq in Hc. apply Z.leb_le in He.
  change prec with 53%Z in *. change emax with 1024%Z in *.
  split; [| lia].
  pose proof (digits2_pos_bound m) as Hm.
  assert (Hd : (Z.pos (digits2_pos m) <= 53)%Z) by lia.
  eapply Z.lt_le_trans; [exact Hm |].
  apply Z.pow_le_mono_r; lia.
Qed.

Lemma div_half_even_bounds (n d : Z) :
  (0 <= n)%Z -> (0 < d)%Z ->
  (0 <= Py.div_half_even n d <= n / d + 1)%Z.
Proof.
  intros Hn Hd. unfold Py.div_half_even.
  assert (0 <= n / d)%Z by (apply Z.div_pos; lia).
  destruct (2 * (n mod d) ?= d)%Z; [destruct (Z.even (n / d)) | |]; lia.
Qed.

Lemma scaled_magnitude_nonneg (k : Z) (m : positive) (e : Z) :
  (0 <= k)%Z -> (0 <= Py.scaled_magnitude k m e)%Z.
Proof.
  intros Hk. unfold Py.scaled_magnitude.
  destruct (0 <=? e)%Z eqn:He.
  - apply Z.leb_le in He.
    assert (0 < 2 ^ e)%Z by (apply Z.pow_pos_nonneg; lia). nia.
  - apply Z.leb_gt in He.
    apply div_half_even_bounds; [nia |].
    apply Z.pow_pos_nonneg; lia.
Qed.

(** The integer nearest to a finite double converts back to a double. *)
Lemma rounded_magnitude_in_range (m : positive) (e : Z) :
  (Z.pos m < 2 ^ 53)%Z -> (e <= 971)%Z ->
  (Py.scaled_magnitude 1 m e < Py.float_overflow_bound)%Z.
Proof.
  intros Hm He. unfold Py.scaled_magnitude, Py.float_overflow_bound.
  assert (HP : (0 < 2 ^ 970)%Z) by (apply Z.pow_pos_nonneg; lia).
  assert (H1024 : (2 ^ 1024 = 2 ^ 54 * 2 ^ 970)%Z)
    by (rewrite <- Z.pow_add_r by lia; reflexivity).
  rewrite H1024.
  destruct (0 <=? e)%Z eqn:Hs.
  - apply Z.leb_le in Hs.
    assert (Hp : (2 ^ e <= 2 ^ 971)%Z) by (apply Z.pow_le_mono_r; lia).
    assert (H971 : (2 ^ 971 = 2 * 2 ^ 970)%Z)
      by (rewrite <- (Z.pow_succ_r 2 970) by lia; reflexivity).
    rewrite H971 in Hp.
    assert (0 < 2 ^ e)%Z by (apply Z.pow_pos_nonneg; lia).
    set (P := (2 ^ 970)%Z) in *. set (x := (2 ^ e)%Z) in *.
    change (2 ^ 53)%Z with 9007199254740992%Z in Hm.
    change (2 ^ 54)%Z with 18014398509481984%Z.
    nia.
  - apply Z.leb_gt in Hs.
    assert (Hd : (2 <= 2 ^ (- e))%Z).
    { change 2%Z with (2 ^ 1)%Z at 1. apply Z.pow_le_mono_r; lia. }
    pose proof (div_half_even_bounds (Z.pos m * 1) (2 ^ (- e))) as Hb.
    assert (Hq : (Z.pos m * 1 / 2 ^ (- e) <= Z.pos m / 2)%Z).
    { rewrite Z.mul_1_r. apply Z.div_le_compat_l; lia. }
    assert (Z.pos m / 2 + 1 <= Z.pos m)%Z.
    { pose proof (Pos2Z.is_pos m).
      pose proof (Z.div_mod (Z.pos m) 2 ltac:(lia)).
      pose proof (Z.mod_pos_bound (Z.pos m) 2 ltac:(lia)). lia. }
    set (P := (2 ^ 970)%Z) in *.
    change (2 ^ 53)%Z with 9007199254740992%Z in Hm.
    change (2 ^ 54)%Z with 18014398509481984%Z.
    nia.
Qed.

End PyFacts.

(** * Rendering of numbers *)

Section Rendering.

Lemma chars_append (a b : string) :
  list_ascii_of_string (a +:+ b) =
  list_ascii_of_string a ++ list_ascii_of_string b.
Proof.
  induction a as [| c a IH]; [reflexivity |].
  cbn [list_ascii_of_string app]. change (String c a +:+ b) with (String c (a +:+ b)).
  cbn [list_ascii_of_string]. now rewrite IH.
Qed.

Lemma uint_digits (d : Decimal.uint) :
  forallb is_digit (list_ascii_of_string (NilEmpty.string_of_uint d)) = true.
Proof. induction d; cbn; auto. Qed.

Lemma uint_text_digits_only (d : Decimal.uint) :
  digits_only (list_ascii_of_string (NilZero.string_of_uint d)) = true.
Proof.
  unfold digits_only. destruct d; try reflexivity;
    unfold NilZero.string_of_uint; cbn [NilEmpty.string_of_uint];
    cbn [list_ascii_of_string List.length Nat.eqb negb andb forallb];
    rewrite uint_digits; reflexivity.
Qed.

Lemma plain_integer_of_digits (l : list ascii) :
  digits_only l = true -> plain_integer l = true.
Proof.
  destruct l as [| c l]; [discriminate |].
  unfold plain_integer, digits_only. cbn [forallb List.length Nat.eqb negb andb].
  destruct c as [[] [] [] [] [] [] [] []]; cbn; intros H; try exact H; discriminate.
Qed.

(** [str] of an [int] has no decimal point and no exponent. *)
Lemma str_of_int_plain (n : Z) :
  plain_integer (list_ascii_of_string (Py.str_of_int n)) = true.
Proof.
  unfold Py.str_of_int. destruct (Z.to_int n) as [d | d]; cbn [NilZero.string_of_int].
  - apply plain_integer_of_digits, uint_text_digits_only.
  - cbn [list_ascii_of_string plain_integer]. apply uint_text_digits_only.
Qed.

Lemma str_of_nonneg_digits (n : Z) :
  (0 <= n)%Z -> digits_only (list_ascii_of_string (Py.str_of_int n)) = true.
Proof.
  intros Hn. unfold Py.str_of_int.
  destruct n as [| p | p]; [reflexivity | | lia].
  cbn [Z.to_int NilZero.string_of_int]. apply uint_text_digits_only.
Qed.

Lemma digit_is_digit (d : Z) : (0 <= d < 10)%Z -> is_digit (Py.digit d) = true.
Proof.
  intros Hd.
  assert (H : d = 0%Z \/ d = 1%Z \/ d = 2%Z \/ d = 3%Z \/ d = 4%Z \/ d = 5%Z
              \/ d = 6%Z \/ d = 7%Z \/ d = 8%Z \/ d = 9%Z) by lia.
  repeat (destruct H as [-> | H]; [reflexivity |]). now subst.
Qed.

Lemma fixed3_shape (s : bool) (n : Z) :
  (0 <= n)%Z -> three_decimals (Py.sign_prefix s +:+ Py.fixed3 n) = true.
Proof.
  intros Hn. unfold three_decimals, Py.fixed3.
  rewrite !chars_append. cbn [list_ascii_of_string].
  rewrite app_assoc, rev_app_distr. cbn [rev app].
  rewrite rev_involutive.
  assert (Hq : (0 <= n / 1000)%Z) by (apply Z.div_pos; lia).
  rewrite !digit_is_digit by (apply Z.mod_pos_bound; lia).
  cbn [andb].
  destruct s; cbn [Py.sign_prefix list_ascii_of_string app plain_integer].
  - now apply str_of_nonneg_digits.
  - now apply plain_integer_of_digits, str_of_nonneg_digits.
Qed.

(** A finite double is a zero or [m * 2^e]. *)
Lemma finite_cases (x : float) :
  is_finite x = true ->
  match Prim2SF x with
  | S754_zero _ | S754_finite _ _ _ => True
  | S754_nan | S754_infinity _ => False
  end.
Proof.
  unfold is_finite, is_nan, is_infinity.
  rewrite !FloatAxioms.eqb_spec, abs_spec.
  change (Prim2SF infinity) with (S754_infinity false).
  destruct (Prim2SF x) as [[] | [] | | s m e]; cbn; try discriminate; trivial.
Qed.

(** Three decimals, whatever the finite value. *)
Lemma format_3f_shape (x : float) :
  is_finite x = true -> three_decimals (Py.format_3f x) = true.
Proof.
  intros Hfin. apply finite_cases in Hfin. unfold Py.format_3f.
  destruct (Prim2SF x) as [s | s | | s m e]; try contradiction.
  - now apply fixed3_shape.
  - apply fixed3_shape, scaled_magnitude_nonneg. lia.
Qed.

(** [round] is defined on every finite double, and its result converts
    back to a double. *)
Lemma round_finite (x : float) :
  is_finite x = true ->
  exists r rf, Py.round x = inr r /\ Py.float_of_int r = inr rf.
Proof.
  intros Hfin. apply finite_cases in Hfin.
  unfold Py.round. pose proof (Prim2SF_valid x) as Hv.
  destruct (Prim2SF x) as [s | s | | s m e]; try contradiction.
  - exists 0%Z. eexists. split; reflexivity.
  - apply valid_finite_bounds in Hv as [Hm He].
    pose proof (rounded_magnitude_in_range m e Hm He) as Hlt.
    pose proof (scaled_magnitude_nonneg 1 m e ltac:(lia)) as Hge.
    eexists. unfold Py.float_of_int.
    assert (Ha : (Z.abs (if s then - Py.scaled_magnitude 1 m e
                         else Py.scaled_magnitude 1 m e)
                  <? Py.float_overflow_bound)%Z = true).
    { apply Z.ltb_lt. destruct s; lia. }
    rewrite Ha. eexists. split; reflexivity.
Qed.

End Rendering.

(** C9 (as amended). On every finite rate [format_fps_value] returns: the
    nearest integer, printed plainly, when the binary64 distance to it is
    strictly below [1e-3], and the value with exactly three decimals
    otherwise. So 25.0 gives "25", 29.97 gives "29.970" and 23.9995 gives
    "24", while 23.999, whose distance is not below [1e-3], gives
    "23.999". *)
Theorem format_fps_value_rendering (fps : float) (Hfin : is_finite fps = true) :
  (exists r rf,
      Py.round fps = inr r /\ Py.float_of_int r = inr rf /\
      format_fps_value (Some fps) =
        inr (if (abs (fps - rf) <? 0.001)%float
             then Py.str_of_int r else Py.format_3f fps) /\
      plain_integer (list_ascii_of_string (Py.str_of_int r)) = true /\
      three_decimals (Py.format_3f fps) = true)
  /\ format_fps_value (Some 25.0%float) = inr "25"
  /\ format_fps_value (Some 29.97%float) = inr "29.970"
  /\ format_fps_value (Some 23.9995%float) = inr "24"
  /\ format_fps_value (Some 23.999%float) = inr "23.999".
Proof.
  split; [| repeat split; vm_compute; reflexivity].
  destruct (round_finite fps Hfin) as (r & rf & Hr & Hrf).
  exists r, rf. repeat split; auto using str_of_int_plain, format_3f_shape.
  unfold format_fps_value. rewrite Hr. cbn [exc_bind]. rewrite Hrf. cbn [exc_bind].
  now destruct (abs (fps - rf) <? 0.001)%float.
Qed.

Lemma format_fps_value_rendering_witness :
  is_finite 29.97%float = true /\
  format_fps_value (Some 29.97%float) = inr "29.970".
Proof.
  split; [vm_compute; reflexivity |].
  exact (proj1 (proj2 (proj2 (format_fps_value_rendering 29.97%float eq_refl)))).
Defined.

(** C9 as stated fails: 23.999 is not rendered as "24". *)
Lemma format_fps_value_23_999 :
  format_fps_value (Some 23.999%float) <> inr "24".
Proof. vm_compute. discriminate. Qed.

(** * The first-pass command line *)

(** C1 (as amended). The first-pass command carries the input framing
    options ["-f"; "hevc"; "-framerate"; fps] exactly when the lower-cased
    source path ends in .265, .h265 or .hevc and the probe found no audio.
    Every other source gets none: one with audio, and one whose extension
    is anything else, .250 included. *)
Theorem cmd_recode_framing_hint (src_path dst_path fps_str : string) (has_audio : bool) :
  contains (framing_hint fps_str) (cmd_recode src_path dst_path fps_str has_audio)
  = endswith_any (lower src_path) RAW_HEVC_EXTS && negb has_audio.
Proof.
  unfold cmd_recode, framing_hint.
  destruct (endswith_any (lower src_path) RAW_HEVC_EXTS), has_audio;
    cbn [andb negb app];
    cbv -[String.eqb andb orb]; settle_literal_tests; split_string_tests;
    try reflexivity; congruence.
Qed.

(** * Running the encoder and renaming *)

Section ToolFacts.

Variable T : Tools.

Lemma length_append (a b : string) :
  String.length (a +:+ b) = (String.length a + String.length b)%nat.
Proof.
  induction a as [| c a IH]; [reflexivity |].
  change (String c a +:+ b) with (String c (a +:+ b)).
  cbn [String.length]. now rewrite IH.
Qed.

(** The temporary sibling is never the output path itself. *)
Lemma tmp_fixed_fresh (dst_path : string) : tmp_fixed dst_path <> dst_path.
Proof.
  intros H. apply (f_equal String.length) in H.
  unfold tmp_fixed in H. rewrite length_append in H. cbn in H. lia.
Qed.

Lemma cmd_recode_output (src_path dst_path fps_str : string) (has_audio : bool) :
  List.last (cmd_recode src_path dst_path fps_str has_audio) "" = dst_path.
Proof.
  unfold cmd_recode.
  destruct (endswith_any (lower src_path) RAW_HEVC_EXTS && negb has_audio), has_audio;
    reflexivity.
Qed.

Lemma cmd_fix_output (dst_path : string) (m : float) (fps_str tmp : string) :
  List.last (cmd_fix dst_path m fps_str tmp) "" = tmp.
Proof. reflexivity. Qed.

Lemma run_ffmpeg_trace (argv : list string) (w : World) :
  trace (snd (run_ffmpeg T argv w)) = trace w ++ [Ran argv (fst (run_ffmpeg T argv w))].
Proof. unfold run_ffmpeg. now destruct (ffmpeg T argv (fs w)). Qed.

(** A run touches its output path only. *)
Lemma run_ffmpeg_elsewhere (argv : list string) (w : World) (path : string) :
  path <> List.last argv "" ->
  fs (snd (run_ffmpeg T argv w)) !! path = fs w !! path.
Proof.
  intros Hne. unfold run_ffmpeg.
  destruct (ffmpeg T argv (fs w)) as [rc [c |]]; cbn [snd fs].
  - now rewrite lookup_insert_ne.
  - now rewrite lookup_delete_ne.
Qed.

Lemma os_replace_trace (src dst : string) (w : World) :
  trace (snd (os_replace T src dst w)) =
  trace w ++ [if fst (os_replace T src dst w) then Replaced src dst
              else ReplaceFailed src dst].
Proof.
  unfold os_replace. destruct (fs w !! src); [| reflexivity].
  now destruct (replace_ok T src dst (fs w)).
Qed.

(** A rename that raises changes no file. *)
Lemma os_replace_failed (src dst : string) (w : World) :
  fst (os_replace T src dst w) = false -> fs (snd (os_replace T src dst w)) = fs w.
Proof.
  unfold os_replace. destruct (fs w !! src); [| reflexivity].
  now destruct (replace_ok T src dst (fs w)).
Qed.

(** A rename that succeeds moves the bytes and frees the old name. *)
Lemma os_replace_moved (src dst : string) (w : World) :
  src <> dst ->
  fst (os_replace T src dst w) = true ->
  fs (snd (os_replace T src dst w)) !! src = None /\
  fs (snd (os_replace T src dst w)) !! dst = fs w !! src.
Proof.
  intros Hne. unfold os_replace. destruct (fs w !! src) as [c |] eqn:Hc; [| discriminate].
  destruct (replace_ok T src dst (fs w)); [| discriminate]. intros _. cbn [snd fs].
  split.
  - apply lookup_delete_eq.
  - rewrite lookup_delete_ne by congruence. apply lookup_insert_eq.
Qed.

Lemma os_replace_succeeds_iff (src dst : string) (w : World) :
  fst (os_replace T src dst w) = path_exists w src && replace_ok T src dst (fs w).
Proof.
  unfold os_replace, path_exists. destruct (fs w !! src) as [c |] eqn:Hc.
  - rewrite bool_decide_eq_true_2 by eauto.
    now destruct (replace_ok T src dst (fs w)).
  - rewrite bool_decide_eq_false_2; [reflexivity |]. now intros [? ?].
Qed.

Lemma encoder_runs_after_run (argv : list string) (w : World) :
  encoder_runs (snd (run_ffmpeg T argv w)) = S (encoder_runs w).
Proof.
  unfold encoder_runs. rewrite run_ffmpeg_trace, List.filter_app, length_app.
  cbn. lia.
Qed.

Lemma encoder_runs_after_replace (src dst : string) (w : World) :
  encoder_runs (snd (os_replace T src dst w)) = encoder_runs w.
Proof.
  unfold encoder_runs. rewrite os_replace_trace, List.filter_app, length_app.
  destruct (fst (os_replace T src dst w)); cbn; lia.
Qed.

End ToolFacts.

(** * The corrective second pass *)

Section SecondPass.

Variables (T : Tools) (dst_path : string) (multiplier rate : float).
Variables (fps_str : string) (w : World).
Hypothesis Hformat : format_fps_value (Some rate) = inr fps_str.

Lemma fix_timestamps_unfold :
  fix_timestamps T dst_path multiplier rate w =
  inr (let r := run_ffmpeg T
                  (cmd_fix dst_path multiplier fps_str (tmp_fixed dst_path)) w in
       if (fst r =? 0)%Z && path_exists (snd r) (tmp_fixed dst_path)
       then snd (os_replace T (tmp_fixed dst_path) dst_path (snd r))
       else snd r).
Proof.
  unfold fix_timestamps. rewrite Hformat. cbn [exc_bind].
  destruct (run_ffmpeg T _ w) as [rc w2]. cbn [fst snd].
  now destruct ((rc =? 0)%Z && path_exists w2 (tmp_fixed dst_path)).
Qed.

(** The second pass starts the encoder exactly once. *)
Lemma fix_timestamps_runs (w' : World) :
  fix_timestamps T dst_path multiplier rate w = inr w' ->
  encoder_runs w' = S (encoder_runs w).
Proof.
  rewrite fix_timestamps_unfold. intros [= <-]. cbv zeta.
  destruct (_ && _); [rewrite encoder_runs_after_replace |];
    apply encoder_runs_after_run.
Qed.

(** Its command line is [cmd_fix] with the given multiplier. *)
Lemma fix_timestamps_command (w' : World) :
  fix_timestamps T dst_path multiplier rate w = inr w' ->
  exists rc,
    In (Ran (cmd_fix dst_path multiplier fps_str (tmp_fixed dst_path)) rc) (trace w').
Proof.
  rewrite fix_timestamps_unfold. intros [= <-]. cbv zeta.
  eexists. destruct (_ && _);
    [rewrite os_replace_trace, run_ffmpeg_trace | rewrite run_ffmpeg_trace];
    rewrite !in_app_iff; cbn [In]; eauto.
Qed.

Lemma fix_timestamps_extends_trace (w' : World) :
  fix_timestamps T dst_path multiplier rate w = inr w' ->
  exists later, trace w' = trace w ++ later.
Proof.
  rewrite fix_timestamps_unfold. intros [= <-]. cbv zeta.
  destruct (_ && _);
    [rewrite os_replace_trace, run_ffmpeg_trace, <- app_assoc | rewrite run_ffmpeg_trace];
    eauto.
Qed.


End SecondPass.

(** C4 (as amended). The correction stage always returns, and it deletes
    nothing itself: the temporary sibling is gone afterwards exactly when
    the second pass exited zero, left a file there and the rename went
    through, in which case the output path holds that file. On a failed
    second pass or a failed rename the temporary path keeps whatever the
    second pass left at it. *)
Theorem fix_timestamps_temporary (T : Tools) (dst_path : string)
    (multiplier rate : float) (fps_str : string) (w : World)
    (Hformat : format_fps_value (Some rate) = inr fps_str) :
  let r := run_ffmpeg T (cmd_fix dst_path multiplier fps_str (tmp_fixed dst_path)) w in
  let replaced :=
    (fst r =? 0)%Z && path_exists (snd r) (tmp_fixed dst_path)
    && replace_ok T (tmp_fixed dst_path) dst_path (fs (snd r)) in
  exists w',
    fix_timestamps T dst_path multiplier rate w = inr w' /\
    fs w' !! tmp_fixed dst_path =
      (if replaced then None else fs (snd r) !! tmp_fixed dst_path) /\
    fs w' !! dst_path =
      (if replaced then fs (snd r) !! tmp_fixed dst_path else fs w !! dst_path).
Proof.
  intros r replaced. eexists.
  split; [exact (fix_timestamps_unfold T dst_path multiplier rate fps_str w Hformat) |].
  fold r. cbv zeta. subst replaced.
  assert (Hrun : fs (snd r) !! dst_path = fs w !! dst_path).
  { apply run_ffmpeg_elsewhere. rewrite cmd_fix_output.
    intros H. now apply (tmp_fixed_fresh dst_path). }
  destruct ((fst r =? 0)%Z && path_exists (snd r) (tmp_fixed dst_path)) eqn:Hgo;
    cbn [andb]; [| now split].
  apply andb_true_iff in Hgo as [_ Hex].
  pose proof (os_replace_succeeds_iff T (tmp_fixed dst_path) dst_path (snd r)) as Hiff.
  rewrite Hex in Hiff. cbn [andb] in Hiff. rewrite <- Hiff.
  destruct (fst (os_replace T (tmp_fixed dst_path) dst_path (snd r))) eqn:Hmv.
  - now apply os_replace_moved; [apply tmp_fixed_fresh |].
  - rewrite os_replace_failed by exact Hmv. now split.
Qed.

Lemma fix_timestamps_temporary_witness :
  format_fps_value (Some 25.0%float) = inr "25" /\
  exists w',
    fix_timestamps (Scenario.tools None false (Some 750%Z) (Some 36.0%float)
                      (0%Z, Some Scenario.encoded) (0%Z, Some Scenario.retimed) true)
      "cam/rec.mp4" (30.0 / 36.0)%float 25.0%float
      {| fs := {[ "cam/rec.mp4" := Scenario.encoded ]}; trace := [] |} = inr w' /\
    fs w' !! "cam/rec.mp4.fixed.mp4" = None /\
    fs w' !! "cam/rec.mp4" = Some Scenario.retimed.
Proof.
  split; [vm_compute; reflexivity |].
  exact (fix_timestamps_temporary
           (Scenario.tools None false (Some 750%Z) (Some 36.0%float)
              (0%Z, Some Scenario.encoded) (0%Z, Some Scenario.retimed) true)
           "cam/rec.mp4" (30.0 / 36.0)%float 25.0%float "25"
           {| fs := {[ "cam/rec.mp4" := Scenario.encoded ]}; trace := [] |}
           eq_refl).
Defined.

(** C4 as stated fails: a second pass that exits non-zero after writing part
    of its output leaves that file at the temporary path. *)
Lemma failed_fix_leaves_temporary :
  let T := Scenario.tools None false (Some 750%Z) (Some 36.0%float)
             (0%Z, Some Scenario.encoded) (1%Z, Some [x66; x74]) true in
  let done := convert_250_to_mp4 T None "cam/rec.265" "cam/rec.mp4"
                (Scenario.start "cam/rec.265") in
  fst done = inr (true, false) /\
  fs (snd done) !! tmp_fixed "cam/rec.mp4" = Some [x66; x74].
Proof. vm_compute. split; reflexivity. Qed.

(** * Duration validation *)

Section Validation.

Lemma check_duration_skipped (frames : option Z) (out_duration rate : option float) :
  frames = None \/ out_duration = None \/ rate = None ->
  check_duration frames out_duration rate = inr Skipped.
Proof.
  intros [-> | [-> | ->]]; [reflexivity | |].
  - now destruct frames.
  - now destruct frames, out_duration.
Qed.

(** A frame count of zero is as good as none. *)
Lemma check_duration_zero_frames (out_duration rate : option float) :
  check_duration (Some 0%Z) out_duration rate = inr Skipped.
Proof. now destruct out_duration, rate. Qed.



(** Line 212 drops every rate that is not above zero: zero, a negative
    rate, and NaN. *)
Lemma nonpositive_rate_dropped (r : float) :
  (0 <? r)%float = false -> fps_for_duration r = None.
Proof.
  intros Hnot. unfold fps_for_duration. now rewrite Hnot, andb_false_r.
Qed.

(** The flag of a verdict is the tolerance test on its multiplier. *)
Lemma check_duration_flag (frames : option Z) (out_duration rate : option float)
    (e m : float) (b : bool) :
  check_duration frames out_duration rate = inr (Checked e m b) ->
  b = needs_correction m.
Proof.
  unfold check_duration.
  destruct frames as [n |], out_duration as [d |], rate as [r |]; try discriminate.
  destruct (negb (n =? 0)%Z && Py.truthy d && Py.truthy r); [| discriminate].
  destruct (Py.float_of_int n) as [x | nf]; [discriminate |]. cbn [exc_bind].
  destruct (0 <? nf / r)%float; [| discriminate].
  now intros [= _ <- <-].
Qed.

End Validation.

(** * The whole conversion *)

Section Conversion.

Variables (T : Tools) (TARGET_FPS : option Z) (src_path dst_path : string).
Variable w : World.
Variables (fps_source : string) (preferred_fps : float) (fps_str : string).

Hypothesis Hresolve :
  resolve_fps TARGET_FPS (probe_fps T src_path (fs w)) = inr (fps_source, preferred_fps).
Hypothesis Hformat : format_fps_value (Some preferred_fps) = inr fps_str.

Local Abbreviation has_audio := (probe_has_audio T src_path (fs w)).
Local Abbreviation r1 := (first_pass T src_path dst_path fps_str w).
Local Abbreviation w1 := (snd (first_pass T src_path dst_path fps_str w)).

Lemma convert_unfold :
  convert_250_to_mp4 T TARGET_FPS src_path dst_path w =
  if negb ((fst r1 =? 0)%Z && path_exists w1 dst_path)
  then (inr (false, has_audio), w1)
  else
    match check_duration (probe_frame_count T src_path (fs w1))
            (probe_duration T dst_path (fs w1))
            (fps_for_duration preferred_fps) with
    | inl e => (inl e, w1)
    | inr (Checked _ multiplier true) =>
        match fix_timestamps T dst_path multiplier preferred_fps w1 with
        | inl e => (inl e, w1)
        | inr w3 => (inr (true, has_audio), w3)
        end
    | inr _ => (inr (true, has_audio), w1)
    end.
Proof.
  unfold convert_250_to_mp4. rewrite Hresolve, Hformat. unfold first_pass.
  now destruct (run_ffmpeg T _ w) as [rc w'].
Qed.

(** The first thing the conversion runs is [cmd_recode] at the formatted
    resolved rate and with the probed audio flag. *)
Lemma convert_runs_cmd_recode :
  exists later,
    trace (snd (convert_250_to_mp4 T TARGET_FPS src_path dst_path w)) =
    trace w ++ Ran (cmd_recode src_path dst_path fps_str has_audio) (fst r1) :: later.
Proof.
  rewrite convert_unfold.
  assert (H1 : trace w1 =
               trace w ++ [Ran (cmd_recode src_path dst_path fps_str has_audio) (fst r1)])
    by apply run_ffmpeg_trace.
  destruct (negb _); [eauto |].
  destruct (check_duration _ _ _) as [e | [| e | e m []]]; eauto.
  destruct (fix_timestamps T dst_path m preferred_fps w1) as [e' | w3] eqn:Hfix; eauto.
  destruct (fix_timestamps_extends_trace T dst_path m preferred_fps fps_str w1
              Hformat w3 Hfix) as [later Hlater].
  exists later. cbn [snd]. now rewrite Hlater, H1, <- app_assoc.
Qed.



End Conversion.







(** C7. After an accepted first pass, if the frame count or the output
    duration could not be probed, or the resolved rate is not above zero
    (zero, negative or NaN), validation is skipped: no multiplier is
    computed, the encoder is not started again, and the conversion returns
    [True] with the world exactly as the first pass left it. *)
Theorem missing_evidence_skips_validation (T : Tools) (TARGET_FPS : option Z)
    (src_path dst_path : string) (w : World)
    (fps_source : string) (preferred_fps : float) (fps_str : string)
    (Hresolve : resolve_fps TARGET_FPS (probe_fps T src_path (fs w))
                = inr (fps_source, preferred_fps))
    (Hformat : format_fps_value (Some preferred_fps) = inr fps_str)
    (Hok : (fst (first_pass T src_path dst_path fps_str w) =? 0)%Z
           && path_exists (snd (first_pass T src_path dst_path fps_str w)) dst_path
           = true)
    (Hmissing :
       probe_frame_count T src_path
         (fs (snd (first_pass T src_path dst_path fps_str w))) = None \/
       probe_duration T dst_path
         (fs (snd (first_pass T src_path dst_path fps_str w))) = None \/
       (0 <? preferred_fps)%float = false) :
  let w1 := snd (first_pass T src_path dst_path fps_str w) in
  check_duration (probe_frame_count T src_path (fs w1))
    (probe_duration T dst_path (fs w1)) (fps_for_duration preferred_fps)
  = inr Skipped /\
  convert_250_to_mp4 T TARGET_FPS src_path dst_path w
  = (inr (true, probe_has_audio T src_path (fs w)), w1) /\
  encoder_runs w1 = S (encoder_runs w).
Proof.
  intros w1.
  assert (Hskip : check_duration (probe_frame_count T src_path (fs w1))
                    (probe_duration T dst_path (fs w1))
                    (fps_for_duration preferred_fps) = inr Skipped).
  { apply check_duration_skipped. fold w1 in Hmissing.
    destruct Hmissing as [H | [H | H]]; auto using nonpositive_rate_dropped. }
  split; [exact Hskip | split].
  - rewrite (convert_unfold T TARGET_FPS src_path dst_path w
               fps_source preferred_fps fps_str Hresolve Hformat).
    cbv zeta. rewrite Hok. fold w1. now rewrite Hskip.
  - apply encoder_runs_after_run.
Qed.

Lemma missing_evidence_skips_validation_witness :
  (let T := Scenario.tools (Some (-30.0)%float) true (Some 750%Z) (Some 36.0%float)
              (0%Z, Some Scenario.encoded) (0%Z, Some Scenario.retimed) true in
   let w1 := snd (first_pass T "cam/rec.265" "cam/rec.mp4" "-30"
                    (Scenario.start "cam/rec.265")) in
   check_duration (Some 750%Z) (Some 36.0%float) (fps_for_duration (-30.0)%float)
   = inr Skipped /\
   convert_250_to_mp4 T None "cam/rec.265" "cam/rec.mp4" (Scenario.start "cam/rec.265")
   = (inr (true, true), w1) /\
   encoder_runs w1 = 1%nat) /\
  (let T := Scenario.tools (Some 30.0%float) true None (Some 36.0%float)
              (0%Z, Some Scenario.encoded) (0%Z, Some Scenario.retimed) true in
   let w1 := snd (first_pass T "cam/rec.265" "cam/rec.mp4" "30"
                    (Scenario.start "cam/rec.265")) in
   check_duration None (Some 36.0%float) (fps_for_duration 30.0%float) = inr Skipped /\
   convert_250_to_mp4 T None "cam/rec.265" "cam/rec.mp4" (Scenario.start "cam/rec.265")
   = (inr (true, true), w1) /\
   encoder_runs w1 = 1%nat) /\
  (let T := Scenario.tools (Some 30.0%float) true (Some 750%Z) None
              (0%Z, Some Scenario.encoded) (0%Z, Some Scenario.retimed) true in
   let w1 := snd (first_pass T "cam/rec.265" "cam/rec.mp4" "30"
                    (Scenario.start "cam/rec.265")) in
   check_duration (Some 750%Z) None (fps_for_duration 30.0%float) = inr Skipped /\
   convert_250_to_mp4 T None "cam/rec.265" "cam/rec.mp4" (Scenario.start "cam/rec.265")
   = (inr (true, true), w1) /\
   encoder_runs w1 = 1%nat).
Proof.
  split; [| split].
  - intros T w1.
    exact (missing_evidence_skips_validation T None "cam/rec.265" "cam/rec.mp4"
             (Scenario.start "cam/rec.265") "automatisch" (-30.0)%float "-30"
             eq_refl eq_refl eq_refl (or_intror (or_intror eq_refl))).
  - intros T w1.
    exact (missing_evidence_skips_validation T None "cam/rec.265" "cam/rec.mp4"
             (Scenario.start "cam/rec.265") "automatisch" 30.0%float "30"
             eq_refl eq_refl eq_refl (or_introl eq_refl)).
  - intros T w1.
    exact (missing_evidence_skips_validation T None "cam/rec.265" "cam/rec.mp4"
             (Scenario.start "cam/rec.265") "automatisch" 30.0%float "30"
             eq_refl eq_refl eq_refl (or_intror (or_introl eq_refl))).
Defined.

(** C10. A probed frame count of zero is treated exactly as a missing one:
    validation answers [Skipped] for it whatever the other inputs are, and a
    conversion whose frame-count probe says 0 runs, step for step, as the
    same conversion with no frame count at all. *)
Theorem zero_frames_as_absent (T : Tools) (TARGET_FPS : option Z)
    (src_path dst_path : string) (w : World)
    (Hzero : forall files, probe_frame_count T src_path files = Some 0%Z) :
  (forall out_duration rate,
      check_duration (Some 0%Z) out_duration rate = inr Skipped /\
      check_duration None out_duration rate = inr Skipped) /\
  convert_250_to_mp4 T TARGET_FPS src_path dst_path w =
  convert_250_to_mp4 (with_frame_count T (fun _ _ => None))
    TARGET_FPS src_path dst_path w.
Proof.
  split.
  - intros d r. split; [apply check_duration_zero_frames | reflexivity].
  - unfold convert_250_to_mp4. cbn [with_frame_count probe_fps probe_has_audio
      probe_frame_count probe_duration].
    destruct (resolve_fps _ _) as [e | [lbl pf]]; [reflexivity |].
    destruct (format_fps_value _) as [e | s]; [reflexivity |].
    change (run_ffmpeg (with_frame_count T (fun _ _ => None)))
      with (run_ffmpeg T).
    destruct (run_ffmpeg T _ w) as [rc w1].
    destruct (negb _); [reflexivity |].
    rewrite Hzero, check_duration_zero_frames.
    now rewrite check_duration_skipped by auto.
Qed.

Lemma zero_frames_as_absent_witness :
  let T := Scenario.tools None false (Some 0%Z) (Some 36.0%float)
             (0%Z, Some Scenario.encoded) (0%Z, Some Scenario.retimed) true in
  (forall out_duration rate,
      check_duration (Some 0%Z) out_duration rate = inr Skipped /\
      check_duration None out_duration rate = inr Skipped) /\
  convert_250_to_mp4 T None "cam/rec.265" "cam/rec.mp4" (Scenario.start "cam/rec.265") =
  convert_250_to_mp4 (with_frame_count T (fun _ _ => None))
    None "cam/rec.265" "cam/rec.mp4" (Scenario.start "cam/rec.265").
Proof.
  intros T.
  exact (zero_frames_as_absent T None "cam/rec.265" "cam/rec.mp4"
           (Scenario.start "cam/rec.265") (fun _ => eq_refl)).
Defined.


(** C3 (as amended). For a validated job the corrective pass is started
    exactly when the binary64 value [abs(multiplier - 1.0)] exceeds the
    binary64 constant 0.05: the conversion starts the encoder twice in that
    case, the second time on [cmd_fix] with that multiplier, and once
    otherwise. The double 1.051 triggers the pass and 1.04 does not; the
    double 1.05 triggers it as well, its computed deviation being
    0.050000000000000044. *)
Theorem correction_trigger (T : Tools) (TARGET_FPS : option Z)
    (src_path dst_path : string) (w : World)
    (fps_source : string) (preferred_fps : float) (fps_str : string)
    (expected_dur multiplier : float) (flag : bool)
    (Hresolve : resolve_fps TARGET_FPS (probe_fps T src_path (fs w))
                = inr (fps_source, preferred_fps))
    (Hformat : format_fps_value (Some preferred_fps) = inr fps_str)
    (Hok : (fst (first_pass T src_path dst_path fps_str w) =? 0)%Z
           && path_exists (snd (first_pass T src_path dst_path fps_str w)) dst_path
           = true)
    (Hchecked :
       let w1 := snd (first_pass T src_path dst_path fps_str w) in
       check_duration (probe_frame_count T src_path (fs w1))
         (probe_duration T dst_path (fs w1)) (fps_for_duration preferred_fps)
       = inr (Checked expected_dur multiplier flag)) :
  let done := convert_250_to_mp4 T TARGET_FPS src_path dst_path w in
  let triggered := (0.05 <? abs (multiplier - 1.0))%float in
  (fst done = inr (true, probe_has_audio T src_path (fs w)) /\
   encoder_runs (snd done) = ((if triggered then 2 else 1) + encoder_runs w)%nat /\
   (triggered = true ->
    exists rc, In (Ran (cmd_fix dst_path multiplier fps_str (tmp_fixed dst_path)) rc)
                 (trace (snd done)))) /\
  needs_correction 1.051 = true /\
  needs_correction 1.04 = false /\
  needs_correction 1.05 = true /\
  (1.05 - 1.0 = 0.050000000000000044)%float.
Proof.
  intros done triggered.
  split; [| vm_compute; repeat split; reflexivity].
  subst done.
  rewrite (convert_unfold T TARGET_FPS src_path dst_path w
             fps_source preferred_fps fps_str Hresolve Hformat).
  cbv zeta in *. rewrite Hok. cbn [negb]. rewrite Hchecked.
  pose proof (check_duration_flag _ _ _ _ _ _ Hchecked) as Hflag.
  unfold needs_correction in Hflag. fold triggered in Hflag. subst flag.
  set (w1 := snd (first_pass T src_path dst_path fps_str w)).
  assert (Hw1 : encoder_runs w1 = S (encoder_runs w)) by apply encoder_runs_after_run.
  destruct triggered.
  - destruct (fix_timestamps T dst_path multiplier preferred_fps w1) as [x | w3] eqn:Hfix.
    { rewrite (fix_timestamps_unfold T dst_path multiplier preferred_fps fps_str w1 Hformat)
        in Hfix. discriminate. }
    cbn [fst snd]. split; [reflexivity | split].
    + rewrite (fix_timestamps_runs T dst_path multiplier preferred_fps fps_str w1
                 Hformat w3 Hfix). lia.
    + intros _.
      exact (fix_timestamps_command T dst_path multiplier preferred_fps fps_str w1
               Hformat w3 Hfix).
  - cbn [fst snd]. split; [reflexivity | split]; [lia | discriminate].
Qed.

Lemma correction_trigger_witness :
  let T := Scenario.tools None false (Some 750%Z) (Some 36.0%float)
             (0%Z, Some Scenario.encoded) (0%Z, Some Scenario.retimed) true in
  let done := convert_250_to_mp4 T None "cam/rec.265" "cam/rec.mp4"
                (Scenario.start "cam/rec.265") in
  fst done = inr (true, false) /\ encoder_runs (snd done) = 2%nat.
Proof.
  intros T done.
  pose proof (correction_trigger T None "cam/rec.265" "cam/rec.mp4"
                (Scenario.start "cam/rec.265") "automatisch" 25.0%float "25"
                30.0%float (30.0 / 36.0)%float true
                eq_refl eq_refl eq_refl eq_refl) as [(H1 & H2 & _) _].
  split; [exact H1 | exact H2].
Defined.

(** C3 as stated fails: a multiplier equal to the double 1.05 is not
    within tolerance. 105 frames at 25 fps against a measured 4.0 s give
    exactly that multiplier, and the corrective pass is requested. *)
Lemma multiplier_1_05_is_corrected :
  check_duration (Some 105%Z) (Some 4.0%float) (fps_for_duration 25.0%float)
  = inr (Checked 4.2%float 1.05%float true).
Proof. vm_compute. reflexivity. Qed.




(** C5 (as amended). The script resolves the rate in the stated order:
    a configured rate that is present and positive, else a detected rate
    that is present and non-zero, else 25. It carries the chosen value as a
    double, so a configured rate [c] becomes [float(c)], which raises
    [OverflowError] from [2^1024 - 2^970] on; and it labels the first
    source "konfiguriert" and the two others alike "automatisch". *)
Theorem resolve_fps_refines_spec (TARGET_FPS : option Z) (detected_fps : option float) :
  resolve_fps TARGET_FPS detected_fps =
  (let* v := rate_as_float (snd (resolve_spec TARGET_FPS detected_fps)) in
   inr (fps_source_label (fst (resolve_spec TARGET_FPS detected_fps)), v))%exc.
Proof.
  unfold resolve_fps, resolve_spec, Py.truthy.
  destruct TARGET_FPS as [c |].
  - destruct (Z.ltb_spec 0 c) as [Hpos | Hle].
    + assert (Hnz : (c =? 0)%Z = false) by (apply Z.eqb_neq; lia).
      rewrite Hnz. cbn [negb andb fst snd rate_as_float fps_source_label].
      now destruct (Py.float_of_int c).
    + rewrite andb_false_r.
      destruct detected_fps as [d |]; [destruct (d =? 0)%float |]; reflexivity.
  - destruct detected_fps as [d |]; [destruct (d =? 0)%float |]; reflexivity.
Qed.

(** C5 as stated fails: a configured rate of [2^1024] is present and
    positive, yet no plan comes back. *)
Lemma huge_configured_rate_raises :
  resolve_spec (Some (2 ^ 1024)%Z) None = (Configured, IntegerRate (2 ^ 1024)) /\
  resolve_fps (Some (2 ^ 1024)%Z) None = inl OverflowError.
Proof. split; vm_compute; reflexivity. Qed.

(** C1 as stated fails: a .250 file passes the extension filter, and with
    no audio its first-pass command has no input framing options. *)
Lemma accepted_250_runs_without_hint :
  let T := Scenario.tools None false None None (0%Z, Some Scenario.encoded)
             (0%Z, None) true in
  let done := convert_250_to_mp4 T None "cam/rec.250" "cam/rec.mp4"
                (Scenario.start "cam/rec.250") in
  accepted "rec.250" = true /\
  trace (snd done) = [Ran (cmd_recode "cam/rec.250" "cam/rec.mp4" "25" false) 0] /\
  contains (framing_hint "25") (cmd_recode "cam/rec.250" "cam/rec.mp4" "25" false)
  = false.
Proof. vm_compute. repeat split; reflexivity. Qed.

(** * More about the conversion *)

Section NonFinite.

(** A double that is not finite is a NaN or an infinity. *)
Lemma nonfinite_cases (x : float) :
  is_finite x = false ->
  match Prim2SF x with
  | S754_nan | S754_infinity _ => True
  | S754_zero _ | S754_finite _ _ _ => False
  end.
Proof.
  unfold is_finite, is_nan, is_infinity.
  rewrite !FloatAxioms.eqb_spec, abs_spec.
  change (Prim2SF infinity) with (S754_infinity false).
  destruct (Prim2SF x) as [[] | [] | | [] m e]; cbn; trivial; try discriminate.
  - rewrite Z.compare_refl, Pos.compare_cont_refl. discriminate.
  - rewrite Z.compare_refl, Pos.compare_cont_refl. discriminate.
Qed.

(** NaN and the infinities are true values. *)
Lemma nonfinite_truthy (x : float) : is_finite x = false -> Py.truthy x = true.
Proof.
  intros H. apply nonfinite_cases in H. unfold Py.truthy.
  rewrite FloatAxioms.eqb_spec. change (Prim2SF 0) with (S754_zero false).
  destruct (Prim2SF x) as [s | [] | | s m e]; try contradiction; reflexivity.
Qed.

Lemma format_fps_value_nonfinite (x : float) :
  is_finite x = false -> exists e, format_fps_value (Some x) = inl e.
Proof.
  intros H. apply nonfinite_cases in H. unfold format_fps_value, Py.round.
  destruct (Prim2SF x) as [s | s | | s m e]; try contradiction; cbn; eauto.
Qed.

End NonFinite.

(** X1. [format_fps_value] returns a string exactly for the finite
    doubles; on a NaN or an infinity it raises. *)
Theorem format_fps_value_defined_iff (fps : float) :
  (exists s, format_fps_value (Some fps) = inr s) <-> is_finite fps = true.
Proof.
  split.
  - intros [s Hs]. destruct (is_finite fps) eqn:Hfin; [reflexivity |].
    destruct (format_fps_value_nonfinite fps Hfin) as [e He]. congruence.
  - intros Hfin. destruct (round_finite fps Hfin) as (r & rf & Hr & Hrf).
    unfold format_fps_value. rewrite Hr. cbn [exc_bind]. rewrite Hrf. cbn [exc_bind].
    destruct (abs (fps - rf) <? 0.001)%float; eauto.
Qed.

(** X2. With no positive configured rate, a detected rate that is a NaN or
    an infinity makes the conversion raise before the encoder is started:
    the world is untouched. *)
Theorem nonfinite_detected_rate_escapes (T : Tools) (TARGET_FPS : option Z)
    (src_path dst_path : string) (w : World) (detected : float)
    (Hconfigured : forall t, TARGET_FPS = Some t -> (t <= 0)%Z)
    (Hdetected : probe_fps T src_path (fs w) = Some detected)
    (Hnonfinite : is_finite detected = false) :
  exists e, convert_250_to_mp4 T TARGET_FPS src_path dst_path w = (inl e, w).
Proof.
  destruct (format_fps_value_nonfinite detected Hnonfinite) as [e He].
  exists e. unfold convert_250_to_mp4, resolve_fps. rewrite Hdetected.
  rewrite (nonfinite_truthy detected Hnonfinite).
  destruct TARGET_FPS as [t |].
  - specialize (Hconfigured t eq_refl).
    assert (Ht : (0 <? t)%Z = false) by (apply Z.ltb_ge; lia).
    rewrite Ht, andb_false_r. now rewrite He.
  - now rewrite He.
Qed.

Lemma nonfinite_detected_rate_escapes_witness :
  let T := Scenario.tools (Some nan) false None None
             (0%Z, Some Scenario.encoded) (0%Z, None) true in
  exists e, convert_250_to_mp4 T (Some 0%Z) "cam/rec.265" "cam/rec.mp4"
              (Scenario.start "cam/rec.265")
            = (inl e, Scenario.start "cam/rec.265").
Proof.
  intros T.
  refine (nonfinite_detected_rate_escapes T (Some 0%Z) "cam/rec.265" "cam/rec.mp4"
            (Scenario.start "cam/rec.265") nan _ eq_refl eq_refl).
  intros t [= <-]. lia.
Defined.

Section Footprint.

Variable T : Tools.

Lemma os_replace_elsewhere (src dst path : string) (w : World) :
  path <> src -> path <> dst ->
  fs (snd (os_replace T src dst w)) !! path = fs w !! path.
Proof.
  intros Hs Hd. unfold os_replace. destruct (fs w !! src); [| reflexivity].
  destruct (replace_ok T src dst (fs w)); [| reflexivity]. cbn [snd fs].
  rewrite lookup_delete_ne by congruence. now rewrite lookup_insert_ne by congruence.
Qed.

Lemma os_replace_runs (src dst : string) (w : World) :
  exists e, trace (snd (os_replace T src dst w)) = trace w ++ [e] /\ is_run e = false.
Proof.
  rewrite os_replace_trace. eexists. split; [reflexivity |].
  now destruct (fst (os_replace T src dst w)).
Qed.

(** The second pass changes nothing but the output path and its temporary
    sibling. *)
Lemma fix_timestamps_elsewhere (dst_path : string) (m rate : float)
    (w w' : World) (path : string) :
  fix_timestamps T dst_path m rate w = inr w' ->
  path <> dst_path -> path <> tmp_fixed dst_path ->
  fs w' !! path = fs w !! path.
Proof.
  unfold fix_timestamps. destruct (format_fps_value (Some rate)) as [e | s];
    [discriminate |]. cbn [exc_bind].
  pose proof (run_ffmpeg_elsewhere T (cmd_fix dst_path m s (tmp_fixed dst_path)) w path)
    as Hrun.
  rewrite cmd_fix_output in Hrun.
  destruct (run_ffmpeg T _ w) as [rc w2]. cbn [snd] in Hrun.
  intros Hfix Hd Ht. specialize (Hrun Ht).
  destruct (_ && _); injection Hfix as <-; [| exact Hrun].
  now rewrite os_replace_elsewhere.
Qed.

Lemma fix_timestamps_at_most_one_run (dst_path : string) (m rate : float)
    (w w' : World) :
  fix_timestamps T dst_path m rate w = inr w' ->
  encoder_runs w' = S (encoder_runs w).
Proof.
  unfold fix_timestamps. destruct (format_fps_value (Some rate)) as [e | s] eqn:Hs;
    [discriminate |]. cbn [exc_bind]. intros H.
  apply (fix_timestamps_runs T dst_path m rate s w Hs).
  unfold fix_timestamps. rewrite Hs. exact H.
Qed.

(** A file at the output path survives the second pass, as it was or
    replaced. *)
Lemma fix_timestamps_output_exists (dst_path : string) (m rate : float)
    (w w' : World) :
  fix_timestamps T dst_path m rate w = inr w' ->
  is_Some (fs w !! dst_path) -> is_Some (fs w' !! dst_path).
Proof.
  unfold fix_timestamps. destruct (format_fps_value (Some rate)) as [e | s];
    [discriminate |]. cbn [exc_bind].
  pose proof (run_ffmpeg_elsewhere T (cmd_fix dst_path m s (tmp_fixed dst_path)) w
                dst_path) as Hrun.
  rewrite cmd_fix_output in Hrun.
  specialize (Hrun (fun H => tmp_fixed_fresh dst_path (eq_sym H))).
  destruct (run_ffmpeg T _ w) as [rc w2]. cbn [snd] in Hrun.
  destruct ((rc =? 0)%Z && path_exists w2 (tmp_fixed dst_path)) eqn:Hgo;
    intros [= <-] Hex; [| now rewrite Hrun].
  apply andb_true_iff in Hgo as [_ Htmp]. apply bool_decide_eq_true_1 in Htmp.
  destruct (fst (os_replace T (tmp_fixed dst_path) dst_path w2)) eqn:Hmv.
  - destruct (os_replace_moved T (tmp_fixed dst_path) dst_path w2
                (tmp_fixed_fresh dst_path) Hmv) as [_ ->]. exact Htmp.
  - rewrite os_replace_failed by exact Hmv. now rewrite Hrun.
Qed.

(** The whole conversion changes nothing but the output path and its
    temporary sibling. *)
Lemma convert_elsewhere (TARGET_FPS : option Z) (src_path dst_path : string)
    (w : World) (path : string) :
  path <> dst_path -> path <> tmp_fixed dst_path ->
  fs (snd (convert_250_to_mp4 T TARGET_FPS src_path dst_path w)) !! path
  = fs w !! path.
Proof.
  intros Hdst Htmp.
  unfold convert_250_to_mp4.
  destruct (resolve_fps _ _) as [e | [lbl pf]]; [reflexivity |].
  destruct (format_fps_value _) as [e | s]; [reflexivity |].
  pose proof (run_ffmpeg_elsewhere T
                (cmd_recode src_path dst_path s (probe_has_audio T src_path (fs w)))
                w path) as Hrun.
  rewrite cmd_recode_output in Hrun. specialize (Hrun Hdst).
  destruct (run_ffmpeg T _ w) as [rc w1]. cbn [snd] in Hrun.
  destruct (negb _); [exact Hrun |].
  destruct (check_duration _ _ _) as [e | [| e | e m []]]; try exact Hrun.
  destruct (fix_timestamps T dst_path m pf w1) as [e' | w3] eqn:Hfix; [exact Hrun |].
  cbn [snd]. rewrite <- Hrun.
  exact (fix_timestamps_elsewhere dst_path m pf w1 w3 path Hfix Hdst Htmp).
Qed.

End Footprint.

(** X3. Whatever the tools do and however the conversion ends, it changes
    no file other than the output path and its temporary sibling
    [dst_path + '.fixed.mp4']; in particular the source is never deleted or
    renamed. *)
Theorem convert_footprint (T : Tools) (TARGET_FPS : option Z)
    (src_path dst_path : string) (w : World) (path : string)
    (Hdst : path <> dst_path) (Htmp : path <> tmp_fixed dst_path) :
  fs (snd (convert_250_to_mp4 T TARGET_FPS src_path dst_path w)) !! path
  = fs w !! path.
Proof. exact (convert_elsewhere T TARGET_FPS src_path dst_path w path Hdst Htmp). Qed.

Lemma convert_footprint_witness :
  let T := Scenario.tools None false (Some 750%Z) (Some 36.0%float)
             (0%Z, Some Scenario.encoded) (0%Z, Some Scenario.retimed) true in
  fs (snd (convert_250_to_mp4 T None "cam/rec.265" "cam/rec.mp4"
             (Scenario.start "cam/rec.265"))) !! "cam/rec.265"
  = Some Scenario.footage.
Proof.
  intros T.
  exact (convert_footprint T None "cam/rec.265" "cam/rec.mp4"
           (Scenario.start "cam/rec.265") "cam/rec.265"
           ltac:(discriminate) ltac:(discriminate)).
Defined.

(** X4. When the conversion returns [True] there is a file at the output
    path, so the caller always has something to send. *)
Theorem success_leaves_output (T : Tools) (TARGET_FPS : option Z)
    (src_path dst_path : string) (w w' : World) (has_audio : bool)
    (Hdone : convert_250_to_mp4 T TARGET_FPS src_path dst_path w
             = (inr (true, has_audio), w')) :
  is_Some (fs w' !! dst_path).
Proof.
  revert Hdone. unfold convert_250_to_mp4.
  destruct (resolve_fps _ _) as [e | [lbl pf]]; [discriminate |].
  destruct (format_fps_value _) as [e | s] eqn:Hs; [discriminate |].
  destruct (run_ffmpeg T _ w) as [rc w1].
  destruct ((rc =? 0)%Z && path_exists w1 dst_path) eqn:Hok; cbn [negb];
    [| discriminate].
  apply andb_true_iff in Hok as [_ Hex]. unfold path_exists in Hex.
  apply bool_decide_eq_true_1 in Hex.
  destruct (check_duration _ _ _) as [e | [| e | e m []]]; try discriminate;
    try (intros [= _ <-]; exact Hex).
  destruct (fix_timestamps T dst_path m pf w1) as [e' | w3] eqn:Hfix; [discriminate |].
  intros [= _ <-].
  exact (fix_timestamps_output_exists T dst_path m pf w1 w3 Hfix Hex).
Qed.

Lemma success_leaves_output_witness :
  let T := Scenario.tools None false (Some 750%Z) (Some 36.0%float)
             (0%Z, Some Scenario.encoded) (0%Z, Some Scenario.retimed) true in
  is_Some (fs (snd (convert_250_to_mp4 T None "cam/rec.265" "cam/rec.mp4"
                      (Scenario.start "cam/rec.265"))) !! "cam/rec.mp4").
Proof.
  intros T.
  refine (success_leaves_output T None "cam/rec.265" "cam/rec.mp4"
            (Scenario.start "cam/rec.265") _ false _).
  vm_compute. reflexivity.
Defined.

(** X5. One conversion starts the encoder at most twice: never when it
    raises while resolving the rate, once for the first pass, and at most
    once more for a correction. A conversion that returns [False] has
    started it exactly once. *)
Theorem encoder_started_at_most_twice (T : Tools) (TARGET_FPS : option Z)
    (src_path dst_path : string) (w : World) :
  let done := convert_250_to_mp4 T TARGET_FPS src_path dst_path w in
  (encoder_runs w <= encoder_runs (snd done) <= 2 + encoder_runs w)%nat /\
  (forall has_audio, fst done = inr (false, has_audio) ->
                     encoder_runs (snd done) = S (encoder_runs w)).
Proof.
  cbv zeta. unfold convert_250_to_mp4.
  destruct (resolve_fps _ _) as [e | [lbl pf]]; [cbn [fst snd]; split; [lia | discriminate] |].
  destruct (format_fps_value _) as [e | s]; [cbn [fst snd]; split; [lia | discriminate] |].
  pose proof (encoder_runs_after_run T
                (cmd_recode src_path dst_path s (probe_has_audio T src_path (fs w))) w)
    as Hrun.
  destruct (run_ffmpeg T _ w) as [rc w1]. cbn [snd] in Hrun.
  destruct (negb _); [cbn [fst snd]; split; [lia | intros; exact Hrun] |].
  destruct (check_duration _ _ _) as [e | [| e | e m []]];
    try (cbn [fst snd]; split; [lia | discriminate]).
  destruct (fix_timestamps T dst_path m pf w1) as [e' | w3] eqn:Hfix;
    [cbn [fst snd]; split; [lia | discriminate] |].
  pose proof (fix_timestamps_at_most_one_run T dst_path m pf w1 w3 Hfix).
  cbn [fst snd]. split; [lia | discriminate].
Qed.

(** X6. A correction is requested only on positive evidence: the frame
    count is non-zero, the expected duration and the measured duration are
    both positive, and the multiplier is their quotient. A zero, negative or
    NaN duration never leads to a second pass. *)
Theorem correction_needs_positive_duration (frames : option Z)
    (out_duration rate : option float) (expected_dur multiplier : float)
    (Hchecked : check_duration frames out_duration rate
                = inr (Checked expected_dur multiplier true)) :
  exists n d r,
    frames = Some n /\ n <> 0%Z /\ out_duration = Some d /\ rate = Some r /\
    (0 <? d)%float = true /\ (0 <? expected_dur)%float = true /\
    multiplier = (expected_dur / d)%float.
Proof.
  revert Hchecked. unfold check_duration.
  destruct frames as [n |], out_duration as [d |], rate as [r |]; try discriminate.
  destruct (Z.eqb_spec n 0) as [-> | Hn]; cbn [negb andb]; [discriminate |].
  destruct (Py.truthy d && Py.truthy r); [| discriminate].
  destruct (Py.float_of_int n) as [x | nf]; [discriminate |]. cbn [exc_bind].
  destruct (0 <? nf / r)%float eqn:Hexp; [| discriminate].
  destruct (0 <? d)%float eqn:Hd.
  - intros [= <- <- _]. exists n, d, r. repeat split; auto.
  - intros H. now inversion H.
Qed.

Lemma correction_needs_positive_duration_witness :
  exists n d r,
    Some 750%Z = Some n /\ n <> 0%Z /\ Some 36.0%float = Some d /\
    fps_for_duration 25.0%float = Some r /\
    (0 <? d)%float = true /\ (0 <? 30.0)%float = true /\
    (30.0 / 36.0)%float = (30.0 / d)%float.
Proof.
  exact (correction_needs_positive_duration (Some 750%Z) (Some 36.0%float)
           (fps_for_duration 25.0%float) 30.0%float (30.0 / 36.0)%float eq_refl).
Defined.

(** * The probe helpers *)

Section Stripping.

Lemma lstrip_nil_iff (l : Probe.text) :
  Probe.lstrip l = [] <-> forallb Probe.isspace l = true.
Proof.
  induction l as [| c l IH]; cbn [Probe.lstrip forallb]; [tauto |].
  destruct (Probe.isspace c); cbn [andb]; [exact IH |].
  split; discriminate.
Qed.

Lemma forallb_rev {A} (f : A -> bool) (l : list A) :
  forallb f (rev l) = forallb f l.
Proof.
  induction l as [| a l IH]; [reflexivity |].
  cbn [rev forallb]. rewrite forallb_app, IH. cbn [forallb].
  rewrite andb_true_r. apply andb_comm.
Qed.

Lemma forallb_false_witness {A} (f : A -> bool) (l : list A) :
  forallb f l = false -> exists a, In a l /\ f a = false.
Proof.
  induction l as [| a l IH]; cbn [forallb]; [discriminate |].
  destruct (f a) eqn:Ha; cbn [andb].
  - intros H. destruct (IH H) as (b & Hin & Hb). exists b. split; [now right | exact Hb].
  - intros _. exists a. split; [now left | exact Ha].
Qed.

Lemma lstrip_spaces_nil (l : Probe.text) :
  forallb Probe.isspace (Probe.lstrip l) = true -> Probe.lstrip l = [].
Proof.
  induction l as [| c l IH]; cbn [Probe.lstrip]; [reflexivity |].
  destruct (Probe.isspace c) eqn:Hc; [exact IH |].
  cbn [forallb]. rewrite Hc. discriminate.
Qed.

(** Stripping leaves nothing exactly when there is only white space. *)
Lemma strip_empty_iff (s : Probe.text) :
  Probe.strip s = [] <-> forallb Probe.isspace s = true.
Proof.
  unfold Probe.strip. split.
  - intros H. apply (f_equal (@rev N)) in H. rewrite rev_involutive in H.
    cbn [rev] in H. apply lstrip_nil_iff in H. rewrite forallb_rev in H.
    apply lstrip_spaces_nil in H. now apply lstrip_nil_iff.
  - intros H. apply lstrip_nil_iff in H. now rewrite H.
Qed.

Lemma split_nonempty (sep : N) (s : Probe.text) : Probe.split sep s <> [].
Proof.
  destruct s as [| c s]; cbn [Probe.split]; [discriminate |].
  destruct (N.eqb c sep); [discriminate |].
  destruct (Probe.split sep s); discriminate.
Qed.

Lemma split_single (sep : N) (s b : Probe.text) :
  Probe.split sep s = [b] -> s = b /\ Probe.has_char sep b = false.
Proof.
  revert b. induction s as [| c s IH]; intros b; cbn [Probe.split].
  - intros [= <-]. split; reflexivity.
  - destruct (N.eqb c sep) eqn:Hc.
    + intros [= _ Hnil]. now apply split_nonempty in Hnil.
    + destruct (Probe.split sep s) as [| part parts] eqn:Hs.
      * now apply split_nonempty in Hs.
      * intros [= <- ->]. destruct (IH part eq_refl) as [-> Hno].
        split; [reflexivity |]. unfold Probe.has_char in *.
        cbn [existsb]. rewrite N.eqb_sym, Hc. exact Hno.
Qed.

(** Two parts mean exactly one separator. *)
Lemma split_pair (sep : N) (s a b : Probe.text) :
  Probe.split sep s = [a; b] ->
  s = a ++ sep :: b /\
  Probe.has_char sep a = false /\ Probe.has_char sep b = false.
Proof.
  revert a. induction s as [| c s IH]; intros a; cbn [Probe.split]; [discriminate |].
  destruct (N.eqb_spec c sep) as [-> | Hc].
  - intros [= <- Hs]. apply split_single in Hs as [-> Hno].
    repeat split; auto.
  - destruct (Probe.split sep s) as [| part parts] eqn:Hs; [discriminate |].
    intros [= <- ->]. destruct (IH part eq_refl) as (-> & Ha & Hb).
    repeat split; auto. unfold Probe.has_char in *.
    cbn [existsb]. rewrite Ha, orb_false_r.
    apply N.eqb_neq. congruence.
Qed.

End Stripping.

(** X7. [probe_fps] yields a rate only from output that, once stripped,
    is a single number [x], or one fraction [num/den] with exactly one
    slash whose denominator parses to something other than zero: then the
    rate is [float(num) / float(den)]. A zero denominator such as "0/0"
    never yields a rate. *)
Theorem probe_fps_sound (py_float : Probe.text -> option float)
    (ffprobe : list string -> gmap string (list byte) -> option Probe.text)
    (path : string) (files : gmap string (list byte)) (rate : float)
    (Hrate : Probe.probe_fps py_float ffprobe path files = Some rate) :
  exists stdout,
    ffprobe (Probe.cmd_fps path) files = Some stdout /\
    Probe.strip stdout <> [] /\
    ((Probe.has_char Probe.slash (Probe.strip stdout) = false /\
      py_float (Probe.strip stdout) = Some rate) \/
     (exists num den n d,
         Probe.strip stdout = num ++ Probe.slash :: den /\
         Probe.has_char Probe.slash num = false /\
         Probe.has_char Probe.slash den = false /\
         py_float num = Some n /\ py_float den = Some d /\
         (d =? 0)%float = false /\ rate = (n / d)%float)).
Proof.
  revert Hrate. unfold Probe.probe_fps.
  destruct (ffprobe (Probe.cmd_fps path) files) as [stdout |]; [| discriminate].
  intros H. exists stdout. split; [reflexivity |].
  destruct (decide (Probe.strip stdout = [])) as [Hempty | Hne].
  { rewrite bool_decide_eq_true_2 in H by exact Hempty. discriminate. }
  rewrite bool_decide_eq_false_2 in H by exact Hne.
  split; [exact Hne |].
  destruct (Probe.has_char Probe.slash (Probe.strip stdout)) eqn:Hslash;
    [right | left; auto].
  destruct (Probe.split Probe.slash (Probe.strip stdout)) as [| num [| den [|]]]
    eqn:Hsplit; try discriminate.
  apply split_pair in Hsplit as (Hout & Hnum & Hden).
  destruct (py_float den) as [d |] eqn:Hd; [| discriminate].
  destruct (d =? 0)%float eqn:Hz; cbn [negb] in H; [discriminate |].
  destruct (py_float num) as [n |] eqn:Hn; [| discriminate].
  injection H as <-. exists num, den, n, d. repeat split; auto.
Qed.

Lemma probe_fps_sound_witness :
  let py_float := fun s : Probe.text =>
    if bool_decide (s = Probe.codes "30000") then Some 30000%float
    else if bool_decide (s = Probe.codes "1001") then Some 1001%float else None in
  let ffprobe := fun (argv : list string) (_ : gmap string (list byte)) =>
    Some (32%N :: Probe.codes "30000/1001" ++ [10%N]) in
  Probe.probe_fps py_float ffprobe "cam/rec.265" ∅ = Some (30000 / 1001)%float /\
  exists stdout,
    ffprobe (Probe.cmd_fps "cam/rec.265") ∅ = Some stdout /\
    Probe.strip stdout <> [] /\
    ((Probe.has_char Probe.slash (Probe.strip stdout) = false /\
      py_float (Probe.strip stdout) = Some (30000 / 1001)%float) \/
     (exists num den n d,
         Probe.strip stdout = num ++ Probe.slash :: den /\
         Probe.has_char Probe.slash num = false /\
         Probe.has_char Probe.slash den = false /\
         py_float num = Some n /\ py_float den = Some d /\
         (d =? 0)%float = false /\ (30000 / 1001)%float = (n / d)%float)).
Proof.
  intros py_float ffprobe. split; [vm_compute; reflexivity |].
  exact (probe_fps_sound py_float ffprobe "cam/rec.265" ∅ (30000 / 1001)%float eq_refl).
Defined.

(** X8. [probe_has_audio] answers [True] exactly when ffprobe ran and
    printed at least one character that [str.strip] does not remove, that
    is one that is none of the Unicode white-space characters. *)
Theorem probe_has_audio_iff
    (ffprobe : list string -> gmap string (list byte) -> option Probe.text)
    (path : string) (files : gmap string (list byte)) :
  Probe.probe_has_audio ffprobe path files = true <->
  exists stdout c,
    ffprobe (Probe.cmd_has_audio path) files = Some stdout /\
    In c stdout /\ Probe.isspace c = false.
Proof.
  unfold Probe.probe_has_audio.
  destruct (ffprobe (Probe.cmd_has_audio path) files) as [stdout |].
  - rewrite negb_true_iff, bool_decide_eq_false. split.
    + intros H.
      destruct (forallb Probe.isspace stdout) eqn:Hall.
      * apply strip_empty_iff in Hall. contradiction.
      * apply forallb_false_witness in Hall as (c & Hin & Hc).
        exists stdout, c. repeat split; auto.
    + intros (out & c & [= <-] & Hin & Hc) Hempty.
      apply strip_empty_iff in Hempty. rewrite forallb_forall in Hempty.
      rewrite (Hempty c Hin) in Hc. discriminate.
  - split; [discriminate |]. intros (out & c & H & _). discriminate.
Qed.

(** Output made of a no-break space, an em space and a line feed is no
    audio stream; a stream index is one. *)
Example probe_has_audio_unicode_space :
  Probe.probe_has_audio (fun _ _ => Some [160; 8195; 10]%N) "cam/rec.265" ∅ = false /\
  Probe.probe_has_audio (fun _ _ => Some (Probe.codes "1" ++ [10%N])) "cam/rec.265" ∅
  = true.
Proof. split; reflexivity. Qed.

Section Silent.

Variable py_float : Probe.text -> option float.
Variable py_int : Probe.text -> option Z.
Variable ffprobe : list string -> gmap string (list byte) -> option Probe.text.

(** ffprobe cannot be run, or prints nothing but white space. *)
Hypothesis Hsilent : forall argv files,
  match ffprobe argv files with
  | Some stdout => Probe.strip stdout = []
  | None => True
  end.

Lemma silent_probe_fps path files : Probe.probe_fps py_float ffprobe path files = None.
Proof.
  unfold Probe.probe_fps. pose proof (Hsilent (Probe.cmd_fps path) files) as H.
  destruct (ffprobe _ _); [| reflexivity]. now rewrite H.
Qed.

Lemma silent_probe_has_audio path files :
  Probe.probe_has_audio ffprobe path files = false.
Proof.
  unfold Probe.probe_has_audio. pose proof (Hsilent (Probe.cmd_has_audio path) files) as H.
  destruct (ffprobe _ _); [| reflexivity]. now rewrite H.
Qed.

Lemma silent_probe_frame_count path files :
  Probe.probe_frame_count py_int ffprobe path files = None.
Proof.
  unfold Probe.probe_frame_count.
  pose proof (Hsilent (Probe.cmd_frame_count path) files) as H.
  destruct (ffprobe _ _); [| reflexivity]. now rewrite H.
Qed.

End Silent.

(** X9. If ffprobe cannot be run at all, or never prints anything but
    white space, and no positive rate is configured, the conversion still
    goes ahead: one first pass at 25 fps with audio left out, no validation
    and no second pass; it succeeds exactly when that pass exits zero and
    leaves a file. *)
Theorem conversion_without_ffprobe
    (py_float : Probe.text -> option float) (py_int : Probe.text -> option Z)
    (ffprobe : list string -> gmap string (list byte) -> option Probe.text)
    (ffmpeg : list string -> gmap string (list byte) -> Z * option (list byte))
    (replace_ok : string -> string -> gmap string (list byte) -> bool)
    (TARGET_FPS : option Z) (src_path dst_path : string) (w : World)
    (Hsilent : forall argv files,
        match ffprobe argv files with
        | Some stdout => Probe.strip stdout = []
        | None => True
        end)
    (Hconfigured : forall t, TARGET_FPS = Some t -> (t <= 0)%Z) :
  let T := Probe.tools py_float py_int ffprobe ffmpeg replace_ok in
  let r := run_ffmpeg T (cmd_recode src_path dst_path "25" false) w in
  convert_250_to_mp4 T TARGET_FPS src_path dst_path w
  = (inr ((fst r =? 0)%Z && path_exists (snd r) dst_path, false), snd r).
Proof.
  intros T r. subst r T. unfold convert_250_to_mp4, resolve_fps.
  cbn [Probe.tools probe_fps probe_has_audio probe_frame_count probe_duration].
  rewrite (silent_probe_fps py_float ffprobe Hsilent).
  rewrite (silent_probe_has_audio ffprobe Hsilent).
  assert (Hres : match TARGET_FPS with
                 | Some t =>
                     if negb (t =? 0)%Z && (0 <? t)%Z
                     then (let* v := Py.float_of_int t in inr ("konfiguriert", v))%exc
                     else inr ("automatisch", 25.0%float)
                 | None => inr ("automatisch", 25.0%float)
                 end = inr ("automatisch", 25.0%float)).
  { destruct TARGET_FPS as [t |]; [| reflexivity].
    specialize (Hconfigured t eq_refl).
    assert (Ht : (0 <? t)%Z = false) by (apply Z.ltb_ge; lia).
    now rewrite Ht, andb_false_r. }
  rewrite Hres.
  change (format_fps_value (Some 25.0%float)) with (@inr exn string "25").
  cbv beta iota.
  destruct (run_ffmpeg _ _ w) as [rc w1]. cbn [fst snd].
  destruct ((rc =? 0)%Z && path_exists w1 dst_path); cbn [negb]; [| reflexivity].
  now rewrite (silent_probe_frame_count py_int ffprobe Hsilent).
Qed.

Lemma conversion_without_ffprobe_witness :
  let ffmpeg := fun (_ : list string) (_ : gmap string (list byte)) =>
    (0%Z, Some Scenario.encoded) in
  let T := Probe.tools (fun _ => None) (fun _ => None)
             (fun _ _ => Some [160; 10]%N) ffmpeg (fun _ _ _ => true) in
  convert_250_to_mp4 T None "cam/rec.265" "cam/rec.mp4" (Scenario.start "cam/rec.265")
  = (inr (true, false),
     snd (run_ffmpeg T (cmd_recode "cam/rec.265" "cam/rec.mp4" "25" false)
            (Scenario.start "cam/rec.265"))).
Proof.
  intros ffmpeg T.
  exact (conversion_without_ffprobe (fun _ => None) (fun _ => None)
           (fun _ _ => Some [160; 10]%N)
           ffmpeg (fun _ _ _ => true) None "cam/rec.265" "cam/rec.mp4"
           (Scenario.start "cam/rec.265") (fun _ _ => eq_refl) ltac:(discriminate)).
Defined.

(** * The FTP listings *)

Section DayNames.

Lemma digits_number_acc (s : string) (acc : Z) :
  digits_number acc s = (acc * 10 ^ Z.of_nat (String.length s) + digits_number 0 s)%Z.
Proof.
  revert acc. induction s as [| c s IH]; intros acc; cbn [digits_number String.length].
  - cbn. lia.
  - rewrite (IH (10 * acc + digit_value c)%Z), (IH (10 * 0 + digit_value c)%Z).
    rewrite Nat2Z.inj_succ, Z.pow_succ_r by lia. lia.
Qed.

Lemma digit_value_range (c : ascii) :
  is_digit c = true -> (0 <= digit_value c <= 9)%Z.
Proof.
  unfold is_digit, digit_value. intros H. apply andb_true_iff in H as [H1 H2].
  apply Nat.leb_le in H1, H2. lia.
Qed.

Lemma digits_number_range (s : string) :
  forallb is_digit (list_ascii_of_string s) = true ->
  (0 <= digits_number 0 s < 10 ^ Z.of_nat (String.length s))%Z.
Proof.
  induction s as [| c s IH]; cbn [list_ascii_of_string forallb digits_number String.length].
  - intros _. cbn. lia.
  - intros H. apply andb_true_iff in H as [Hc Hs].
    specialize (IH Hs). apply digit_value_range in Hc.
    rewrite digits_number_acc, Nat2Z.inj_succ, Z.pow_succ_r by lia.
    assert (0 < 10 ^ Z.of_nat (String.length s))%Z by (apply Z.pow_pos_nonneg; lia).
    nia.
Qed.

Lemma ascii_compare_digit_value (c d : ascii) :
  Ascii.compare c d = (digit_value c ?= digit_value d)%Z.
Proof.
  unfold Ascii.compare, digit_value, nat_of_ascii.
  rewrite !N_nat_Z, <- N2Z.inj_compare.
  destruct (Z.compare_spec (Z.of_N (N_of_ascii c)) (Z.of_N (N_of_ascii d)));
    symmetry;
    [apply Z.compare_eq_iff | apply Z.compare_lt_iff | apply Z.compare_gt_iff]; lia.
Qed.

(** On runs of digits of one length, the order of the texts is the order
    of the numbers. *)
Lemma same_length_order (a b : string) :
  forallb is_digit (list_ascii_of_string a) = true ->
  forallb is_digit (list_ascii_of_string b) = true ->
  String.length a = String.length b ->
  String.leb a b = true -> (digits_number 0 a <= digits_number 0 b)%Z.
Proof.
  revert b. induction a as [| c a IH]; intros [| d b];
    cbn [String.length list_ascii_of_string forallb digits_number];
    intros Ha Hb Hlen Hle; try discriminate; try reflexivity.
  apply andb_true_iff in Ha as [Hc Ha]. apply andb_true_iff in Hb as [Hd Hb].
  injection Hlen as Hlen.
  rewrite (digits_number_acc a (10 * 0 + digit_value c)).
  rewrite (digits_number_acc b (10 * 0 + digit_value d)).
  rewrite <- Hlen.
  pose proof (digits_number_range a Ha) as Ra.
  pose proof (digits_number_range b Hb) as Rb. rewrite <- Hlen in Rb.
  unfold String.leb in Hle. cbn [String.compare] in Hle.
  rewrite ascii_compare_digit_value in Hle.
  assert (HP : (0 < 10 ^ Z.of_nat (String.length a))%Z)
    by (apply Z.pow_pos_nonneg; lia).
  set (P := (10 ^ Z.of_nat (String.length a))%Z) in *.
  destruct (Z.compare_spec (digit_value c) (digit_value d)) as [E | E | E].
  - rewrite E.
    assert (digits_number 0 a <= digits_number 0 b)%Z by (apply IH; auto).
    lia.
  - assert ((digit_value c + 1) * P <= digit_value d * P)%Z
      by (apply Z.mul_le_mono_nonneg_r; lia).
    lia.
  - discriminate.
Qed.

Lemma decimal_digits_all (s : string) :
  decimal_digits s = true -> forallb is_digit (list_ascii_of_string s) = true.
Proof. unfold decimal_digits, digits_only. intros H. now apply andb_true_iff in H. Qed.

Lemma sorted_content (l : list string) (x : string) : In x (sorted l) <-> In x l.
Proof.
  unfold sorted. rewrite <- !list_elem_of_In. now rewrite merge_sort_Permutation.
Qed.

Lemma sorted_strongly (l : list string) : StronglySorted String.le (sorted l).
Proof. apply StronglySorted_merge_sort; apply _. Qed.

Lemma last_in {A} (l : list A) (d : A) : l <> [] -> In (List.last l d) l.
Proof.
  induction l as [| a [| b l] IH]; [congruence | intros _; now left |].
  intros _. right. apply IH. discriminate.
Qed.

(** The last name of a sorted listing is the greatest. *)
Lemma sorted_last_greatest (l : list string) (x : string) :
  In x (sorted l) -> String.le x (List.last (sorted l) "").
Proof.
  pose proof (sorted_strongly l) as Hs. induction Hs as [| a l' Hs IH Hall].
  - contradiction.
  - intros [<- | Hin].
    + destruct l' as [| b l'']; [cbn; reflexivity |].
      change (List.last (a :: b :: l'') "") with (List.last (b :: l'') "").
      rewrite Forall_forall in Hall. apply Hall.
      rewrite list_elem_of_In. apply last_in. discriminate.
    + destruct l' as [| b l'']; [contradiction |].
      change (List.last (a :: b :: l'') "") with (List.last (b :: l'') "").
      now apply IH.
Qed.

End DayNames.

(** X10. [list_day_directories] returns the names of the root listing
    that [str.isdigit] accepts, each as often as it was listed and nothing
    else, in ascending code-point order. When the accepted names are all
    written with the digits 0 to 9 and have the same length, as dates
    YYYYMMDD have, that order is the order of the numbers: the days come
    out chronologically. *)
Theorem day_directories_chronological (isdigit : string -> bool)
    (ftp_dir : string -> option (list string)) (entries : list string)
    (Hlisting : ftp_dir "/" = Some entries) :
  list_day_directories isdigit ftp_dir ≡ₚ List.filter isdigit entries /\
  StronglySorted String.le (list_day_directories isdigit ftp_dir) /\
  (forall n : nat,
      (forall e, In e entries -> isdigit e = true ->
                 decimal_digits e = true /\ String.length e = n) ->
      StronglySorted Z.le (map day_number (list_day_directories isdigit ftp_dir))).
Proof.
  unfold list_day_directories. rewrite Hlisting.
  split; [apply merge_sort_Permutation | split; [apply sorted_strongly |]].
  intros n Hdates.
  assert (Hin : forall d, In d (sorted (List.filter isdigit entries)) ->
                          decimal_digits d = true /\ String.length d = n).
  { intros d Hd. apply sorted_content, filter_In in Hd as [Hd1 Hd2]. auto. }
  pose proof (sorted_strongly (List.filter isdigit entries)) as Hs.
  induction Hs as [| a l Hs IH Hall]; [constructor |].
  cbn [map]. constructor.
  - apply IH. intros d Hd. apply Hin. now right.
  - rewrite Forall_forall in Hall. apply Forall_forall. intros z Hz.
    apply list_elem_of_In, in_map_iff in Hz as (b & <- & Hb).
    destruct (Hin a (or_introl eq_refl)) as [Ha1 Ha2].
    destruct (Hin b (or_intror Hb)) as [Hb1 Hb2].
    apply same_length_order; auto using decimal_digits_all; [congruence |].
    specialize (Hall b). rewrite list_elem_of_In in Hall. specialize (Hall Hb).
    unfold String.le in Hall. now apply Is_true_true.
Qed.

Lemma day_directories_chronological_witness :
  let ftp_dir := fun path : string =>
    if String.eqb path "/" then Some ["20240302"; "lost+found"; "20231224"; "20240115"]
    else None in
  list_day_directories decimal_digits ftp_dir = ["20231224"; "20240115"; "20240302"] /\
  StronglySorted Z.le (map day_number (list_day_directories decimal_digits ftp_dir)).
Proof.
  intros ftp_dir. split; [vm_compute; reflexivity |].
  refine (proj2 (proj2 (day_directories_chronological decimal_digits ftp_dir
            ["20240302"; "lost+found"; "20231224"; "20240115"] eq_refl)) 8 _).
  intros e [<- | [<- | [<- | [<- | []]]]]; vm_compute; split; congruence.
Defined.

(** Names of different lengths are not ordered as numbers. *)
Example day_directories_mixed_lengths :
  list_day_directories decimal_digits (fun _ => Some ["9"; "10"; "ab"]) = ["10"; "9"].
Proof. vm_compute. reflexivity. Qed.

(** Nor is a name that [str.isdigit] accepts for a digit outside 0 to 9:
    with a superscript two for its last character, 2024011² is kept and
    sorted after 20240116. *)
Example day_directories_superscript_digit :
  let superscript := "2024011" +:+ String (ascii_of_nat 194) (String (ascii_of_nat 178) "") in
  let isdigit := fun s => decimal_digits s || String.eqb s superscript in
  list_day_directories isdigit (fun _ => Some [superscript; "20240116"; "tmp"])
  = ["20240116"; superscript].
Proof. vm_compute. reflexivity. Qed.

(** * The polling loop *)

Section Scanning.

Variable day : string.

Lemma scan_files_from (files : list string) (key : option string) :
  scan_files day files key =
  match scan_files day files None with
  | Some k => Some k
  | None => key
  end.
Proof.
  unfold scan_files. revert key. induction files as [| f files IH]; intros key;
    cbn [fold_left]; [reflexivity |].
  rewrite IH. rewrite (IH (if accepted f then _ else None)).
  destruct (fold_left _ files None); [reflexivity |].
  now destruct (accepted f).
Qed.

(** Scanning the same listing again rebinds nothing new. *)
Lemma scan_files_idempotent (files : list string) (key : option string) :
  scan_files day files (scan_files day files key) = scan_files day files key.
Proof.
  rewrite (scan_files_from files (scan_files day files key)).
  rewrite (scan_files_from files key).
  now destruct (scan_files day files None).
Qed.

Lemma scan_files_none_accepted (files : list string) (key : option string) :
  (forall f, In f files -> accepted f = false) -> scan_files day files key = key.
Proof.
  unfold scan_files. revert key. induction files as [| f files IH]; intros key Hno;
    cbn [fold_left]; [reflexivity |].
  rewrite (Hno f (or_introl eq_refl)). apply IH. intros g Hg. apply Hno. now right.
Qed.

Lemma scan_files_key_shape (files : list string) (key : option string) (k : string) :
  (forall k0, key = Some k0 -> key_of_accepted k0) ->
  scan_files day files key = Some k -> key_of_accepted k.
Proof.
  unfold scan_files. revert key. induction files as [| f files IH]; intros key Hkey;
    cbn [fold_left]; [auto |].
  apply IH. destruct (accepted f) eqn:Hf; [| exact Hkey].
  intros k0 [= <-]. now exists day, f.
Qed.

End Scanning.

Section PollingLoop.

Variables (V : Services) (S : Settings).

Lemma download_journal (day fname : string) (st : Loop) :
  journal (snd (download V S day fname st)) =
  journal st ++ [Fetched day fname (fst (download V S day fname st))] /\
  processed (snd (download V S day fname st)) = processed st /\
  remote_key (snd (download V S day fname st)) = remote_key st.
Proof. unfold download. now destruct (retr V day fname). Qed.

(** Converting and sending never downloads, never forgets a key and never
    rebinds [remote_key]; the only key it can add is the one it was given. *)
Lemma convert_and_send_effect (day fname key : string) (st : Loop) :
  let st' := snd (convert_and_send V S day fname key st) in
  (exists later, journal st' = journal st ++ later /\ List.filter is_fetch later = []) /\
  remote_key st' = remote_key st /\
  (processed st' = processed st \/
   (fst (convert_and_send V S day fname key st) = None /\
    processed st' = {[ key ]} ∪ processed st)).
Proof.
  cbv zeta. unfold convert_and_send.
  destruct (convert_250_to_mp4 _ _ _ _ _) as [[e | [ok ha]] w]; cbn [snd fst].
  - repeat split; auto. exists []. now rewrite app_nil_r.
  - destruct ok; cbn [negb].
    + destruct (send_file_telegram _ _ _ _ _ _); cbn [snd fst journal remote_key processed].
      * repeat split; auto. eexists. rewrite <- app_assoc. split; [reflexivity |].
        now destruct (delete_after S).
      * repeat split; auto. eexists. rewrite <- app_assoc. split; reflexivity.
    + cbn [snd fst journal remote_key processed]. repeat split; auto.
      eexists. split; reflexivity.
Qed.

(** What one day can do to the journal, the key set and [remote_key]. *)
Lemma process_day_effect (day : string) (st : Loop) :
  let files := list_files_in_record (ftp_dir V) day in
  let st' := snd (process_day V S day st) in
  (exists later,
      journal st' = journal st ++ later /\
      (List.filter is_fetch later = [] \/
       exists complete rest,
         later = Fetched day (List.last files "") complete :: rest /\
         List.filter is_fetch rest = [])) /\
  (processed st' = processed st \/
   exists key, scan_files day files (remote_key st) = Some key /\
               remote_key st' = Some key /\
               fst (process_day V S day st) = None /\
               processed st' = {[ key ]} ∪ processed st) /\
  (remote_key st' = remote_key st \/
   remote_key st' = scan_files day files (remote_key st)).
Proof.
  cbv zeta. unfold process_day.
  destruct (list_files_in_record (ftp_dir V) day) as [| f0 files] eqn:Hfiles.
  { cbn [snd]. repeat split; auto. exists []. rewrite app_nil_r. auto. }
  destruct (scan_files day (f0 :: files) (remote_key st)) as [key |] eqn:Hscan.
  2: { cbn [snd]. repeat split; auto. exists []. rewrite app_nil_r. auto. }
  destruct (bool_decide (key ∈ processed st)).
  { cbn [snd journal processed remote_key]. repeat split; auto.
    exists []. rewrite app_nil_r. auto. }
  set (st1 := {| remote_key := Some key; processed := processed st;
                 world := world st; journal := journal st |}).
  destruct (download_journal day (List.last (f0 :: files) "") st1) as (Hj & Hp & Hk).
  destruct (download V S day (List.last (f0 :: files) "") st1) as [complete st2].
  cbn [fst snd] in Hj, Hp, Hk.
  destruct complete; cbn [negb].
  - destruct (convert_and_send_effect day (List.last (f0 :: files) "") key st2)
      as ((later & Hl & Hnf) & Hrk & Hpr).
    cbv zeta in *. rewrite Hk in Hrk. rewrite Hp in Hpr. rewrite Hj in Hl.
    split; [| split].
    + eexists. rewrite Hl, <- app_assoc. split; [reflexivity |].
      right. cbn [app]. eauto.
    + destruct Hpr as [Hpr | [Hnone Hpr]]; [left; exact Hpr |].
      right. exists key. repeat split; auto.
    + right. exact Hrk.
  - cbn [snd]. rewrite Hj, Hp, Hk. repeat split; auto.
    eexists. split; [reflexivity |]. right. eauto.
Qed.

End PollingLoop.

(** X11. One pass over a day directory downloads at most one file. The
    file is the last name of the sorted listing, that is the greatest name
    in the directory; the extension filter plays no part in choosing it. *)
Theorem day_fetches_last_listed (V : Services) (S : Settings)
    (day : string) (st : Loop) :
  let files := list_files_in_record (ftp_dir V) day in
  let st' := snd (process_day V S day st) in
  (exists later,
      journal st' = journal st ++ later /\
      (List.filter is_fetch later = [] \/
       exists complete rest,
         later = Fetched day (List.last files "") complete :: rest /\
         List.filter is_fetch rest = [])) /\
  (forall name, In name files -> String.le name (List.last files "")).
Proof.
  intros files st'. split; [apply process_day_effect |].
  subst files. unfold list_files_in_record.
  destruct (ftp_dir V (record_path day)) as [listing |]; [| contradiction].
  apply sorted_last_greatest.
Qed.

(** A listing whose greatest name fails the filter: that file is the one
    downloaded, converted and sent, under the key of another file. *)
Example unfiltered_file_is_sent :
  let V := {| ftp_dir := fun path =>
                if String.eqb path "/20240115/record/"
                then Some ["b.265"; "notes.txt"; "a.265"] else None;
              retr := fun _ _ => (true, Some Scenario.footage);
              media := Scenario.tools None false None None
                         (0%Z, Some Scenario.encoded) (0%Z, None) true;
              post := fun _ => Some 200%Z |} in
  let S := {| bot_token := "T"; chat_id := "42"; TARGET_FPS := None;
              delete_after := true; workdir := "/tmp/ftp_250_x" |} in
  let st := {| remote_key := None; processed := ∅;
               world := {| fs := ∅; trace := [] |}; journal := [] |} in
  accepted "notes.txt" = false /\
  fst (process_day V S "20240115" st) = None /\
  journal (snd (process_day V S "20240115" st)) =
    [Fetched "20240115" "notes.txt" true;
     Converted "/tmp/ftp_250_x/notes.txt" "/tmp/ftp_250_x/notes.mp4" true;
     Sent "/tmp/ftp_250_x/notes.mp4" true;
     DeleteCalled "20240115" "notes.txt"] /\
  processed (snd (process_day V S "20240115" st)) = {[ "20240115/record/b.265" ]}.
Proof. vm_compute. repeat split; reflexivity. Qed.

(** X12. Every key the loop ever records names a file that passes the
    extension filter: starting from such keys (in particular from the empty
    set with [remote_key] unbound), after any number of day directories
    [processed] has only grown and still holds only keys of the form
    [day/record/name] with an allowed extension. *)
Theorem recorded_keys_are_accepted (V : Services) (S : Settings)
    (days : list string) (st : Loop)
    (Hprocessed : forall k, k ∈ processed st -> key_of_accepted k)
    (Hbound : forall k, remote_key st = Some k -> key_of_accepted k) :
  let st' := snd (process_days V S days st) in
  processed st ⊆ processed st' /\
  (forall k, k ∈ processed st' -> key_of_accepted k).
Proof.
  cbv zeta. revert st Hprocessed Hbound.
  induction days as [| day days IH]; intros st Hp Hb; cbn [process_days snd];
    [split; [reflexivity | exact Hp] |].
  destruct (process_day_effect V S day st) as (_ & Hpr & Hrk). cbv zeta in *.
  destruct (process_day V S day st) as [[e |] st1]; cbn [fst snd] in *.
  - destruct Hpr as [-> | (key & _ & _ & Hnone & _)]; [| discriminate].
    split; [reflexivity | exact Hp].
  - assert (Hb1 : forall k, remote_key st1 = Some k -> key_of_accepted k).
    { intros k Hk. destruct Hrk as [Hrk | Hrk]; rewrite Hrk in Hk; [now apply Hb |].
      eapply scan_files_key_shape; [exact Hb | exact Hk]. }
    assert (Hp1 : forall k, k ∈ processed st1 -> key_of_accepted k).
    { intros k Hk. destruct Hpr as [Hpr | (key & Hscan & _ & _ & Hpr)];
        rewrite Hpr in Hk; [now apply Hp |].
      apply elem_of_union in Hk as [Hk | Hk]; [| now apply Hp].
      apply elem_of_singleton in Hk as ->.
      eapply scan_files_key_shape; [exact Hb | exact Hscan]. }
    destruct (IH st1 Hp1 Hb1) as [Hsub Hall]. split; [| exact Hall].
    etrans; [| exact Hsub].
    destruct Hpr as [Hpr | (key & _ & _ & _ & Hpr)]; rewrite Hpr;
      [reflexivity | apply union_subseteq_r].
Qed.

Lemma recorded_keys_are_accepted_witness :
  let V := {| ftp_dir := fun path =>
                if String.eqb path "/20240115/record/"
                then Some ["b.265"; "notes.txt"; "a.265"] else None;
              retr := fun _ _ => (true, Some Scenario.footage);
              media := Scenario.tools None false None None
                         (0%Z, Some Scenario.encoded) (0%Z, None) true;
              post := fun _ => Some 200%Z |} in
  let S := {| bot_token := "T"; chat_id := "42"; TARGET_FPS := None;
              delete_after := false; workdir := "/tmp/ftp_250_x" |} in
  let st := {| remote_key := None; processed := ∅;
               world := {| fs := ∅; trace := [] |}; journal := [] |} in
  "20240115/record/b.265" ∈ processed (snd (process_days V S ["20240115"] st)) /\
  key_of_accepted "20240115/record/b.265".
Proof.
  intros V S st.
  assert (Hin : "20240115/record/b.265"
                ∈ processed (snd (process_days V S ["20240115"] st))).
  { assert (E : processed (snd (process_days V S ["20240115"] st))
                = {[ "20240115/record/b.265" ]}) by (vm_compute; reflexivity).
    rewrite E. apply elem_of_singleton. reflexivity. }
  split; [exact Hin |].
  refine (proj2 (recorded_keys_are_accepted V S ["20240115"] st _ _) _ Hin).
  - intros k Hk. cbn in Hk. now apply not_elem_of_empty in Hk.
  - intros k Hk. discriminate.
Defined.

(** X13. While no file with an allowed extension has been seen,
    [remote_key] is unbound: a day directory whose listing is not empty but
    holds no such file makes the loop raise [UnboundLocalError] before
    anything is downloaded. *)
Theorem unbound_remote_key_raises (V : Services) (S : Settings)
    (day : string) (st : Loop) (listing : list string)
    (Hunbound : remote_key st = None)
    (Hlisting : ftp_dir V (record_path day) = Some listing)
    (Hnonempty : listing <> [])
    (Hnone : forall name, In name listing -> accepted name = false) :
  process_day V S day st = (Some UnboundLocalError, st).
Proof.
  unfold process_day, list_files_in_record. rewrite Hlisting.
  destruct (sorted listing) as [| f0 files] eqn:Hsorted.
  - exfalso. apply Hnonempty.
    apply Permutation_nil. rewrite <- Hsorted. unfold sorted. apply merge_sort_Permutation.
  - rewrite scan_files_none_accepted, Hunbound; [reflexivity |].
    intros f Hf. apply Hnone. apply sorted_content. now rewrite Hsorted.
Qed.

Lemma unbound_remote_key_raises_witness :
  let V := {| ftp_dir := fun _ => Some ["readme.txt"];
              retr := fun _ _ => (true, Some Scenario.footage);
              media := Scenario.tools None false None None
                         (0%Z, Some Scenario.encoded) (0%Z, None) true;
              post := fun _ => Some 200%Z |} in
  let S := {| bot_token := "T"; chat_id := "42"; TARGET_FPS := None;
              delete_after := false; workdir := "/tmp/ftp_250_x" |} in
  let st := {| remote_key := None; processed := ∅;
               world := {| fs := ∅; trace := [] |}; journal := [] |} in
  process_day V S "20240115" st = (Some UnboundLocalError, st).
Proof.
  intros V S st.
  refine (unbound_remote_key_raises V S "20240115" st ["readme.txt"]
            eq_refl eq_refl ltac:(discriminate) _).
  intros name [<- | []]. vm_compute. reflexivity.
Defined.

(** X14. Once the key of a day's last accepted file is in [processed],
    going over the same listing again does nothing at all: no download, no
    conversion, no upload, and the loop state stays as it is. *)
Theorem delivered_day_is_skipped (V : Services) (S : Settings)
    (day : string) (st st1 : Loop) (key : string)
    (Hfirst : process_day V S day st = (None, st1))
    (Hkey : scan_files day (list_files_in_record (ftp_dir V) day) (remote_key st)
            = Some key)
    (Hrecorded : key ∈ processed st1) :
  process_day V S day st1 = (None, st1).
Proof.
  destruct (process_day_effect V S day st) as (_ & _ & Hrk). cbv zeta in Hrk.
  rewrite Hfirst in Hrk. cbn [snd] in Hrk.
  assert (Hst1 : remote_key st1 = Some key).
  { revert Hfirst. unfold process_day.
    destruct (list_files_in_record (ftp_dir V) day) as [| f0 files] eqn:Hfiles.
    - cbn in Hkey. intros [= <-]. exact Hkey.
    - rewrite Hkey. destruct (bool_decide _); [now intros [= <-] |].
      set (st0 := {| remote_key := Some key; processed := processed st;
                     world := world st; journal := journal st |}).
      destruct (download_journal V S day (List.last (f0 :: files) "") st0)
        as (_ & _ & Hk).
      destruct (download V S day (List.last (f0 :: files) "") st0) as [complete st2].
      cbn [snd] in Hk. destruct complete; cbn [negb]; [| now intros [= <-]].
      destruct (convert_and_send_effect V S day (List.last (f0 :: files) "") key st2)
        as (_ & Hrk2 & _). cbv zeta in Hrk2.
      intros H. rewrite H in Hrk2. cbn [snd] in Hrk2. now rewrite Hrk2, Hk. }
  unfold process_day.
  destruct (list_files_in_record (ftp_dir V) day) as [| f0 files] eqn:Hfiles;
    [reflexivity |].
  assert (Hagain : scan_files day (f0 :: files) (remote_key st1) = Some key).
  { rewrite Hst1, <- Hkey. apply scan_files_idempotent. }
  rewrite Hagain, (bool_decide_eq_true_2 _ Hrecorded).
  destruct st1 as [rk pr wo jo]. cbn in Hst1 |- *. now rewrite Hst1.
Qed.

Lemma delivered_day_is_skipped_witness :
  let V := {| ftp_dir := fun path =>
                if String.eqb path "/20240115/record/"
                then Some ["b.265"; "a.265"] else None;
              retr := fun _ _ => (true, Some Scenario.footage);
              media := Scenario.tools None false None None
                         (0%Z, Some Scenario.encoded) (0%Z, None) true;
              post := fun _ => Some 200%Z |} in
  let S := {| bot_token := "T"; chat_id := "42"; TARGET_FPS := None;
              delete_after := false; workdir := "/tmp/ftp_250_x" |} in
  let st := {| remote_key := None; processed := ∅;
               world := {| fs := ∅; trace := [] |}; journal := [] |} in
  let st1 := snd (process_day V S "20240115" st) in
  processed st1 = {[ "20240115/record/b.265" ]} /\
  process_day V S "20240115" st1 = (None, st1).
Proof.
  intros V S st st1. split; [vm_compute; reflexivity |].
  refine (delivered_day_is_skipped V S "20240115" st st1 "20240115/record/b.265" _ _ _).
  - vm_compute. reflexivity.
  - vm_compute. reflexivity.
  - vm_compute. reflexivity.
Defined.

(** X15. A pass over the day directories downloads at most one file per
    directory, however it ends. *)
Theorem one_fetch_per_day (V : Services) (S : Settings)
    (days : list string) (st : Loop) :
  (fetches st <= fetches (snd (process_days V S days st))
   <= fetches st + List.length days)%nat.
Proof.
  revert st. induction days as [| day days IH]; intros st;
    cbn [process_days snd List.length]; [lia |].
  destruct (process_day_effect V S day st) as ((later & Hl & Hf) & _). cbv zeta in *.
  assert (Hstep : (fetches st <= fetches (snd (process_day V S day st))
                   <= 1 + fetches st)%nat).
  { unfold fetches. rewrite Hl, List.filter_app, length_app.
    destruct Hf as [-> | (c & rest & -> & Hrest)]; cbn [List.filter is_fetch];
      [cbn; lia |].
    rewrite Hrest. cbn. lia. }
  destruct (process_day V S day st) as [[e |] st1]; cbn [snd] in *; [lia |].
  specialize (IH st1). lia.
Qed.

(** * Paths of the working directory *)

Lemma append_cons (c : ascii) (a b : string) :
  String c a +:+ b = String c (a +:+ b).
Proof. reflexivity. Qed.

Lemma append_assoc' (a b c : string) : (a +:+ b) +:+ c = a +:+ (b +:+ c).
Proof.
  induction a as [| x a IH]; [reflexivity |]. rewrite !append_cons. now f_equal.
Qed.

Lemma substring_skip (p b : string) (m k : nat) :
  substring (String.length p + m) k (p +:+ b) = substring m k b.
Proof.
  induction p as [| x p IH]; [reflexivity |]. rewrite append_cons. exact IH.
Qed.

Lemma endswith_append (p b e : string) :
  (String.length e <= String.length b)%nat ->
  endswith (p +:+ b) e = endswith b e.
Proof.
  intros Hle. unfold endswith. rewrite length_append.
  replace (String.length p + String.length b - String.length e)%nat
    with (String.length p + (String.length b - String.length e))%nat by lia.
  rewrite substring_skip. f_equal.
  destruct (Nat.leb_spec (String.length e) (String.length b)) as [_ | H]; [| lia].
  apply Nat.leb_le. lia.
Qed.

Lemma endswith_self (p e : string) : endswith (p +:+ e) e = true.
Proof.
  rewrite endswith_append by lia. unfold endswith.
  rewrite Nat.leb_refl, Nat.sub_diag. cbn [andb].
  apply String.eqb_eq. induction e as [| x e IH]; cbn; [reflexivity | now f_equal].
Qed.

Lemma lower_append (a b : string) : lower (a +:+ b) = lower a +:+ lower b.
Proof.
  induction a as [| x a IH]; [reflexivity |].
  rewrite append_cons. cbn [lower]. rewrite append_cons. now f_equal.
Qed.

Lemma lower_length (s : string) : String.length (lower s) = String.length s.
Proof. induction s as [| x s IH]; cbn; [reflexivity | now rewrite IH]. Qed.

(** [os.path.join] keeps its second argument as the end of the result. *)
Lemma join_suffix (a b : string) : exists p, Path.join a b = p +:+ b.
Proof.
  unfold Path.join. destruct (String.prefix "/" b); [now exists "" |].
  destruct (_ || _); [now exists a |].
  exists (a +:+ "/"). symmetry. apply append_assoc'.
Qed.

Lemma local_mp4_is_mp4 (S : Settings) (fname : string) :
  endswith (lower (local_mp4 S fname)) ".mp4" = true.
Proof.
  unfold local_mp4.
  destruct (join_suffix (workdir S) (fst (Path.splitext fname) +:+ ".mp4")) as [p ->].
  rewrite <- append_assoc', lower_append. apply endswith_self.
Qed.

Lemma endswith_length (s e : string) :
  endswith s e = true -> (String.length e <= String.length s)%nat.
Proof. unfold endswith. intros H. apply andb_true_iff in H as [H _]. now apply Nat.leb_le. Qed.

Lemma endswith_same_length (s e1 e2 : string) :
  String.length e1 = String.length e2 ->
  endswith s e1 = true -> endswith s e2 = true -> e1 = e2.
Proof.
  unfold endswith. intros Hlen H1 H2.
  apply andb_true_iff in H1 as [_ H1]. apply andb_true_iff in H2 as [_ H2].
  apply String.eqb_eq in H1, H2. rewrite Hlen in H1. congruence.
Qed.

Lemma local_src_endswith (S : Settings) (fname e : string) :
  (String.length e <= String.length fname)%nat ->
  endswith (lower (local_src S fname)) e = endswith (lower fname) e.
Proof.
  intros Hle. unfold local_src. destruct (join_suffix (workdir S) fname) as [p ->].
  rewrite lower_append. apply endswith_append. now rewrite lower_length.
Qed.

Lemma accepted_is_not_mp4 (S : Settings) (fname : string) :
  accepted fname = true -> endswith (lower (local_src S fname)) ".mp4" = false.
Proof.
  unfold accepted, ALLOWED_EXTS. cbn [existsb]. rewrite orb_false_r. intros Hacc.
  assert (Hlen : (4 <= String.length fname)%nat).
  { rewrite <- lower_length.
    apply orb_true_iff in Hacc as [H | H]; apply endswith_length in H; exact H. }
  rewrite local_src_endswith by exact Hlen.
  destruct (endswith (lower fname) ".mp4") eqn:Hmp4; [| reflexivity].
  apply orb_true_iff in Hacc as [H | H].
  - now pose proof (endswith_same_length (lower fname) ".250" ".mp4" eq_refl H Hmp4).
  - now pose proof (endswith_same_length (lower fname) ".265" ".mp4" eq_refl H Hmp4).
Qed.

Lemma tmp_fixed_is_mp4 (path : string) : endswith (lower (tmp_fixed path)) ".mp4" = true.
Proof.
  unfold tmp_fixed. change ".fixed.mp4" with (".fixed" +:+ ".mp4").
  rewrite <- append_assoc', lower_append. apply endswith_self.
Qed.

Section LoopFootprint.

Variables (V : Services) (S : Settings).

Lemma download_elsewhere (day fname : string) (st : Loop) (path : string) :
  path <> local_src S fname ->
  fs (world (snd (download V S day fname st))) !! path = fs (world st) !! path.
Proof.
  intros Hp. unfold download. destruct (retr V day fname) as [complete [c |]];
    cbn [snd world fs]; [| reflexivity].
  now rewrite lookup_insert_ne by congruence.
Qed.

Lemma convert_and_send_world (day fname key : string) (st : Loop) :
  world (snd (convert_and_send V S day fname key st))
  = snd (convert_250_to_mp4 (media V) (TARGET_FPS S)
           (local_src S fname) (local_mp4 S fname) (world st)).
Proof.
  unfold convert_and_send.
  destruct (convert_250_to_mp4 _ _ _ _ _) as [[e | [[] ha]] w]; cbn [snd negb world];
    [reflexivity | | reflexivity].
  now destruct (send_file_telegram _ _ _ _ _ _).
Qed.

(** One day touches at most three local paths. *)
Lemma process_day_elsewhere (day : string) (st : Loop) (path : string) :
  let fname := List.last (list_files_in_record (ftp_dir V) day) "" in
  path <> local_src S fname ->
  path <> local_mp4 S fname ->
  path <> tmp_fixed (local_mp4 S fname) ->
  fs (world (snd (process_day V S day st))) !! path = fs (world st) !! path.
Proof.
  cbv zeta. intros Hsrc Hdst Htmp. unfold process_day.
  destruct (list_files_in_record (ftp_dir V) day) as [| f0 files]; [reflexivity |].
  destruct (scan_files day (f0 :: files) (remote_key st)) as [key |]; [| reflexivity].
  destruct (bool_decide _); [reflexivity |].
  set (st1 := {| remote_key := Some key; processed := processed st;
                 world := world st; journal := journal st |}).
  pose proof (download_elsewhere day (List.last (f0 :: files) "") st1 path Hsrc) as Hd.
  destruct (download V S day (List.last (f0 :: files) "") st1) as [complete st2].
  cbn [snd] in Hd. change (world st1) with (world st) in Hd.
  destruct complete; cbn [negb]; [| exact Hd].
  rewrite convert_and_send_world, <- Hd. now apply convert_elsewhere.
Qed.

End LoopFootprint.

(** * Entries of the working directory *)

Lemma has_slash_append (a b : string) :
  has_slash (a +:+ b) = has_slash a || has_slash b.
Proof. unfold has_slash. now rewrite chars_append, existsb_app. Qed.

Lemma has_slash_substring (s : string) (n m : nat) :
  has_slash s = false -> has_slash (substring n m s) = false.
Proof.
  unfold has_slash. revert n m.
  induction s as [| c s IH]; intros n m; cbn [list_ascii_of_string existsb].
  - now destruct n, m.
  - intros H. apply orb_false_iff in H as [Hc Hs].
    destruct n as [| n]; [destruct m as [| m] |]; cbn [substring];
      [reflexivity | | now apply IH].
    cbn [list_ascii_of_string existsb]. rewrite Hc. now apply IH.
Qed.

Lemma eqb_length (a b : string) :
  String.length a <> String.length b -> String.eqb a b = false.
Proof. intros H. apply String.eqb_neq. congruence. Qed.

(** A name of three characters or more without a slash is plain. *)
Lemma long_name_plain (name : string) :
  has_slash name = false -> (3 <= String.length name)%nat -> plain_name name = true.
Proof.
  intros Hs Hl. unfold plain_name.
  rewrite Hs, !eqb_length by (cbn [String.length]; lia). reflexivity.
Qed.

Lemma plain_name_no_slash (name : string) :
  plain_name name = true -> has_slash name = false.
Proof.
  unfold plain_name. intros H.
  apply andb_true_iff in H as [H _]. apply andb_true_iff in H as [H _].
  apply andb_true_iff in H as [_ H]. now apply negb_true_iff.
Qed.

Lemma plain_name_head (name : string) :
  plain_name name = true ->
  exists c rest, name = String c rest /\ c <> "/"%char.
Proof.
  intros H. pose proof (plain_name_no_slash name H) as Hs.
  destruct name as [| c name]; [discriminate |].
  exists c, name. split; [reflexivity |]. unfold has_slash in Hs.
  cbn [list_ascii_of_string existsb] in Hs. apply orb_false_iff in Hs as [Hc _].
  apply Ascii.eqb_neq in Hc. congruence.
Qed.

Lemma plain_name_relative (name : string) :
  plain_name name = true -> String.prefix "/" name = false.
Proof.
  intros H. destruct (plain_name_head name H) as (c & rest & -> & Hc).
  cbn [String.prefix]. destruct (ascii_dec "/" c); [congruence | reflexivity].
Qed.

Lemma plain_name_relative_append (name suffix : string) :
  plain_name name = true -> String.prefix "/" (name +:+ suffix) = false.
Proof.
  intros H. destruct (plain_name_head name H) as (c & rest & -> & Hc).
  rewrite append_cons. cbn [String.prefix].
  destruct (ascii_dec "/" c); [congruence | reflexivity].
Qed.

Lemma plain_name_suffixed (name suffix : string) :
  has_slash name = false -> has_slash suffix = false ->
  (3 <= String.length suffix)%nat -> plain_name (name +:+ suffix) = true.
Proof.
  intros Hn Hs Hl. apply long_name_plain.
  - now rewrite has_slash_append, Hn, Hs.
  - rewrite length_append. lia.
Qed.

Lemma splitext_no_slash (fname : string) :
  has_slash fname = false -> has_slash (fst (Path.splitext fname)) = false.
Proof.
  intros H. unfold Path.splitext. destruct (_ && _); cbn [fst]; [| exact H].
  now apply has_slash_substring.
Qed.

(** Joining, then appending to the name, is joining the longer name. *)
Lemma join_append (dir name suffix : string) :
  plain_name name = true ->
  Path.join dir name +:+ suffix = Path.join dir (name +:+ suffix).
Proof.
  intros H. unfold Path.join.
  rewrite (plain_name_relative_append name suffix H), (plain_name_relative name H).
  destruct (_ || _); now rewrite !append_assoc'.
Qed.

Section Entries.

Variables (S : Settings) (fname : string).
Hypothesis Hplain : plain_name fname = true.

Lemma local_src_entry : entry_of (workdir S) (local_src S fname).
Proof. now exists fname. Qed.

Lemma mp4_name_plain : plain_name (fst (Path.splitext fname) +:+ ".mp4") = true.
Proof.
  apply plain_name_suffixed; [| reflexivity | cbn; lia].
  apply splitext_no_slash. now apply plain_name_no_slash.
Qed.

Lemma local_mp4_entry : entry_of (workdir S) (local_mp4 S fname).
Proof. eexists. split; [exact mp4_name_plain | reflexivity]. Qed.

Lemma tmp_fixed_entry : entry_of (workdir S) (tmp_fixed (local_mp4 S fname)).
Proof.
  exists ((fst (Path.splitext fname) +:+ ".mp4") +:+ ".fixed.mp4"). split.
  - apply plain_name_suffixed; [| reflexivity | cbn; lia].
    apply plain_name_no_slash, mp4_name_plain.
  - unfold tmp_fixed, local_mp4. apply join_append, mp4_name_plain.
Qed.

End Entries.

Section Touching.

Variable T : Tools.

(** The second pass hands only the output path and its temporary sibling
    to the encoder and to [os.replace]. *)
Lemma fix_timestamps_touches (dst_path : string) (m rate : float) (w w' : World) :
  fix_timestamps T dst_path m rate w = inr w' ->
  exists later,
    trace w' = trace w ++ later /\
    forall e path, In e later -> In path (touched e) ->
                   path = dst_path \/ path = tmp_fixed dst_path.
Proof.
  unfold fix_timestamps. destruct (format_fps_value (Some rate)) as [x | s];
    [discriminate |]. cbn [exc_bind].
  pose proof (run_ffmpeg_trace T (cmd_fix dst_path m s (tmp_fixed dst_path)) w) as Hrun.
  destruct (run_ffmpeg T _ w) as [rc w2]. cbn [fst snd] in Hrun.
  destruct (_ && _); intros [= <-].
  - rewrite os_replace_trace, Hrun, <- app_assoc. eexists. split; [reflexivity |].
    intros e path [<- | [<- | []]] Hp.
    + cbn [touched] in Hp. rewrite cmd_fix_output in Hp.
      destruct Hp as [<- | []]. now right.
    + destruct (fst (os_replace _ _ _ _)); cbn [touched] in Hp;
        destruct Hp as [<- | [<- | []]]; auto.
  - rewrite Hrun. eexists. split; [reflexivity |].
    intros e path [<- | []] Hp. cbn [touched] in Hp. rewrite cmd_fix_output in Hp.
    destruct Hp as [<- | []]. now right.
Qed.

Lemma convert_touches (TARGET_FPS : option Z) (src_path dst_path : string)
    (w : World) :
  exists later,
    trace (snd (convert_250_to_mp4 T TARGET_FPS src_path dst_path w))
    = trace w ++ later /\
    forall e path, In e later -> In path (touched e) ->
                   path = dst_path \/ path = tmp_fixed dst_path.
Proof.
  assert (Hnone : exists later : list event,
             trace w = trace w ++ later /\
             forall e path, In e later -> In path (touched e) ->
                            path = dst_path \/ path = tmp_fixed dst_path).
  { exists []. rewrite app_nil_r. split; [reflexivity |]. intros e path []. }
  unfold convert_250_to_mp4.
  destruct (resolve_fps _ _) as [x | [lbl pf]]; [exact Hnone |].
  destruct (format_fps_value _) as [x | s]; [exact Hnone |].
  pose proof (run_ffmpeg_trace T
                (cmd_recode src_path dst_path s (probe_has_audio T src_path (fs w))) w)
    as Hrun.
  assert (Hfirst : forall e path,
             In e [Ran (cmd_recode src_path dst_path s
                          (probe_has_audio T src_path (fs w)))
                     (fst (run_ffmpeg T
                             (cmd_recode src_path dst_path s
                                (probe_has_audio T src_path (fs w))) w))] ->
             In path (touched e) -> path = dst_path \/ path = tmp_fixed dst_path).
  { intros e path [<- | []] Hp. cbn [touched] in Hp. rewrite cmd_recode_output in Hp.
    destruct Hp as [<- | []]. now left. }
  destruct (run_ffmpeg T _ w) as [rc w1]. cbn [fst snd] in Hrun, Hfirst.
  assert (Hone : exists later : list event,
             trace w1 = trace w ++ later /\
             forall e path, In e later -> In path (touched e) ->
                            path = dst_path \/ path = tmp_fixed dst_path)
    by eauto.
  destruct (negb _); [exact Hone |].
  destruct (check_duration _ _ _) as [x | [| x | x m []]]; try exact Hone.
  destruct (fix_timestamps T dst_path m pf w1) as [x' | w3] eqn:Hfix; [exact Hone |].
  destruct (fix_timestamps_touches dst_path m pf w1 w3 Hfix) as (later & Hl & Hp).
  cbn [snd]. rewrite Hl, Hrun, <- app_assoc. eexists. split; [reflexivity |].
  intros e path Hin. apply in_app_or in Hin as [Hin | Hin]; eauto.
Qed.

End Touching.

Section LoopEntries.

Variables (V : Services) (S : Settings).

Local Abbreviation in_workdir := (entry_of (workdir S)).

(** What one day hands to the encoder and to [os.replace], and where it
    changes the local files. *)
Lemma process_day_entries (day : string) (st : Loop) :
  (forall name, In name (list_files_in_record (ftp_dir V) day) ->
                plain_name name = true) ->
  (exists later,
      trace (world (snd (process_day V S day st))) = trace (world st) ++ later /\
      forall e path, In e later -> In path (touched e) -> in_workdir path) /\
  (forall path,
      fs (world (snd (process_day V S day st))) !! path <> fs (world st) !! path ->
      in_workdir path).
Proof.
  intros Hnames.
  assert (Hnone : exists later : list event,
             trace (world st) = trace (world st) ++ later /\
             forall e path, In e later -> In path (touched e) -> in_workdir path).
  { exists []. rewrite app_nil_r. split; [reflexivity |]. intros e path []. }
  destruct (list_files_in_record (ftp_dir V) day) as [| f0 files] eqn:Hfiles.
  { unfold process_day. rewrite Hfiles.
    split; [exact Hnone | intros path H; now contradiction H]. }
  assert (Hplain : plain_name (List.last (f0 :: files) "") = true)
    by (apply Hnames, last_in; discriminate).
  split.
  - unfold process_day. rewrite Hfiles.
    destruct (scan_files day (f0 :: files) (remote_key st)) as [key |]; [| exact Hnone].
    destruct (bool_decide _); [exact Hnone |].
    set (fname := List.last (f0 :: files) "") in *.
    set (st1 := {| remote_key := Some key; processed := processed st;
                   world := world st; journal := journal st |}).
    assert (Hd : trace (world (snd (download V S day fname st1))) = trace (world st))
      by (unfold download; now destruct (retr V day fname)).
    destruct (download V S day fname st1) as [complete st2]. cbn [snd] in Hd.
    destruct complete; cbn [negb snd]; [| rewrite Hd; exact Hnone].
    rewrite convert_and_send_world.
    destruct (convert_touches (media V) (TARGET_FPS S) (local_src S fname)
                (local_mp4 S fname) (world st2)) as (later & Hl & Hp).
    rewrite Hl, Hd. exists later. split; [reflexivity |].
    intros e path Hin Hpath. destruct (Hp e path Hin Hpath) as [-> | ->].
    + now apply local_mp4_entry.
    + now apply tmp_fixed_entry.
  - intros path Hchanged.
    pose proof (process_day_elsewhere V S day st path) as Hkeep.
    cbv zeta in Hkeep. rewrite Hfiles in Hkeep.
    destruct (decide (path = local_src S (List.last (f0 :: files) ""))) as [-> | H1];
      [now apply local_src_entry |].
    destruct (decide (path = local_mp4 S (List.last (f0 :: files) ""))) as [-> | H2];
      [now apply local_mp4_entry |].
    destruct (decide (path = tmp_fixed (local_mp4 S (List.last (f0 :: files) ""))))
      as [-> | H3]; [now apply tmp_fixed_entry |].
    now specialize (Hkeep H1 H2 H3).
Qed.

End LoopEntries.

(** X16. As long as every name the server lists in a record directory is a
    plain file name (not empty, no slash, neither [.] nor [..]), a pass
    over the day directories works on entries of the working directory
    only: every path it hands to the encoder as output or to [os.replace],
    and every path at which the local files differ afterwards, is
    [os.path.join(workdir, name)] for a plain file name. *)
Theorem loop_writes_under_workdir (V : Services) (S : Settings)
    (days : list string) (st : Loop)
    (Hnames : forall day name,
        In day days -> In name (list_files_in_record (ftp_dir V) day) ->
        plain_name name = true) :
  let st' := snd (process_days V S days st) in
  (exists later,
      trace (world st') = trace (world st) ++ later /\
      forall e path, In e later -> In path (touched e) ->
                     entry_of (workdir S) path) /\
  (forall path,
      fs (world st') !! path <> fs (world st) !! path ->
      entry_of (workdir S) path).
Proof.
  cbv zeta. revert st. induction days as [| day days IH]; intros st;
    cbn [process_days snd].
  { split; [| intros path H; now contradiction H]. exists []. rewrite app_nil_r.
    split; [reflexivity |]. intros e path []. }
  destruct (process_day_entries V S day st) as ((l1 & Ht1 & Hl1) & Hfs1).
  { intros name. apply Hnames. now left. }
  destruct (process_day V S day st) as [[e |] st1]; cbn [snd] in *; [eauto |].
  destruct (IH (fun d n Hd => Hnames d n (or_intror Hd)) st1)
    as ((l2 & Ht2 & Hl2) & Hfs2).
  split.
  - exists (l1 ++ l2). rewrite Ht2, Ht1, <- app_assoc. split; [reflexivity |].
    intros ev path Hin. apply in_app_or in Hin as [Hin | Hin]; eauto.
  - intros path Hchanged.
    assert (Hdec : forall a b : option (list byte), {a = b} + {a <> b})
      by (decide equality; apply List.list_eq_dec, byte_eq_dec).
    destruct (Hdec (fs (world st1) !! path) (fs (world st) !! path)) as [Heq | Hne];
      [| now apply Hfs1].
    apply Hfs2. now rewrite Heq.
Qed.

Lemma loop_writes_under_workdir_witness :
  let V := {| ftp_dir := fun path =>
                if String.eqb path "/20240115/record/"
                then Some ["b.265"; "a.265"] else None;
              retr := fun _ _ => (true, Some Scenario.footage);
              media := Scenario.tools None false (Some 750%Z) (Some 36.0%float)
                         (0%Z, Some Scenario.encoded) (0%Z, Some Scenario.retimed) true;
              post := fun _ => Some 200%Z |} in
  let S := {| bot_token := "T"; chat_id := "42"; TARGET_FPS := None;
              delete_after := false; workdir := "/tmp/ftp_250_x" |} in
  let st := {| remote_key := None; processed := ∅;
               world := {| fs := ∅; trace := [] |}; journal := [] |} in
  fs (world (snd (process_days V S ["20240115"] st))) !! "/tmp/ftp_250_x/b.mp4"
  = Some Scenario.retimed /\
  entry_of "/tmp/ftp_250_x" "/tmp/ftp_250_x/b.mp4".
Proof.
  intros V S st.
  assert (Hfile : fs (world (snd (process_days V S ["20240115"] st)))
                    !! "/tmp/ftp_250_x/b.mp4" = Some Scenario.retimed)
    by (vm_compute; reflexivity).
  split; [exact Hfile |].
  refine (proj2 (loop_writes_under_workdir V S ["20240115"] st _)
            "/tmp/ftp_250_x/b.mp4" _).
  - intros day name [<- | []] Hname. vm_compute in Hname.
    destruct Hname as [<- | [<- | []]]; reflexivity.
  - rewrite Hfile. discriminate.
Defined.

(** A listed name with a slash leaves the working directory: an absolute
    one replaces it, and one that climbs with [..] is written above it. *)
Example slash_name_escapes_workdir :
  let serving := fun name : string =>
    {| ftp_dir := fun path =>
         if String.eqb path "/20240115/record/" then Some [name] else None;
       retr := fun _ _ => (true, Some Scenario.footage);
       media := Scenario.tools None false None None
                  (0%Z, Some Scenario.encoded) (0%Z, None) true;
       post := fun _ => Some 200%Z |} in
  let S := {| bot_token := "T"; chat_id := "42"; TARGET_FPS := None;
              delete_after := false; workdir := "/tmp/ftp_250_x" |} in
  let st := {| remote_key := None; processed := ∅;
               world := {| fs := ∅; trace := [] |}; journal := [] |} in
  let absolute := snd (process_days (serving "/srv/cam/a.265") S ["20240115"] st) in
  let climbing := snd (process_days (serving "../../etc/a.265") S ["20240115"] st) in
  fs (world absolute) !! "/srv/cam/a.265" = Some Scenario.footage /\
  fs (world absolute) !! "/srv/cam/a.mp4" = Some Scenario.encoded /\
  fs (world climbing) !! "/tmp/ftp_250_x/../../etc/a.265" = Some Scenario.footage /\
  fs (world climbing) !! "/tmp/ftp_250_x/../../etc/a.mp4" = Some Scenario.encoded.
Proof. vm_compute. repeat split; reflexivity. Qed.


(** X18. For a name that passes the extension filter, the download, the
    output of the conversion and the temporary file of the second pass are
    three different paths, so converting never overwrites the download:
    the downloaded bytes are still there after conversion and upload. *)
Theorem accepted_download_survives (V : Services) (S : Settings)
    (day fname key : string) (st : Loop)
    (Haccepted : accepted fname = true) :
  local_mp4 S fname <> local_src S fname /\
  tmp_fixed (local_mp4 S fname) <> local_src S fname /\
  fs (world (snd (convert_and_send V S day fname key st))) !! local_src S fname
  = fs (world st) !! local_src S fname.
Proof.
  pose proof (accepted_is_not_mp4 S fname Haccepted) as Hsrc.
  assert (H1 : local_mp4 S fname <> local_src S fname).
  { intros H. rewrite <- H, local_mp4_is_mp4 in Hsrc. discriminate. }
  assert (H2 : tmp_fixed (local_mp4 S fname) <> local_src S fname).
  { intros H. rewrite <- H, tmp_fixed_is_mp4 in Hsrc. discriminate. }
  repeat split; [exact H1 | exact H2 |].
  rewrite convert_and_send_world. apply convert_elsewhere; congruence.
Qed.

Lemma accepted_download_survives_witness :
  let V := {| ftp_dir := fun _ => None;
              retr := fun _ _ => (true, Some Scenario.footage);
              media := Scenario.tools None false (Some 750%Z) (Some 36.0%float)
                         (0%Z, Some Scenario.encoded) (0%Z, Some Scenario.retimed) true;
              post := fun _ => Some 200%Z |} in
  let S := {| bot_token := "T"; chat_id := "42"; TARGET_FPS := None;
              delete_after := false; workdir := "/tmp/ftp_250_x" |} in
  let st := {| remote_key := None; processed := ∅;
               world := Scenario.start "/tmp/ftp_250_x/a.265"; journal := [] |} in
  fs (world (snd (convert_and_send V S "20240115" "a.265" "20240115/record/a.265" st)))
    !! "/tmp/ftp_250_x/a.265"
  = Some Scenario.footage.
Proof.
  intros V S st.
  exact (proj2 (proj2 (accepted_download_survives V S "20240115" "a.265"
                         "20240115/record/a.265" st eq_refl))).
Defined.

(** A name that already ends in [.mp4] is converted onto itself. *)
Example mp4_name_is_converted_in_place (S : Settings) :
  local_mp4 S "clip.mp4" = local_src S "clip.mp4".
Proof. reflexivity. Qed.

(** * Delivery and configuration *)

Lemma send_file_telegram_delivered (post : Request -> option Z)
    (token chat file_path : string) (caption : option string)
    (files : gmap string (list byte)) :
  send_file_telegram post token chat file_path caption files = true <->
  exists content status_code,
    files !! file_path = Some content /\
    post (telegram_request token chat file_path caption content) = Some status_code /\
    (status_code < 400 \/ 600 <= status_code)%Z.
Proof.
  unfold send_file_telegram. split.
  - destruct (files !! file_path) as [content |]; [| discriminate].
    destruct (post _) as [status_code |] eqn:Hpost; [| discriminate].
    intros H. exists content, status_code. repeat split; auto.
    apply negb_true_iff, andb_false_iff in H as [H | H]; [left | right]; lia.
  - intros (content & status_code & -> & -> & H).
    apply negb_true_iff, andb_false_iff. destruct H; [left | right]; lia.
Qed.

(** X19. A key enters [processed] only after a delivered upload: if one
    day's pass enlarges the set, then the converted file exists locally,
    Telegram answered the upload of exactly that file with a status outside
    400-599, and the journal records the delivery. A failed download, a
    failed conversion, an exception or a rejected upload records nothing. *)
Theorem key_recorded_only_after_delivery (V : Services) (S : Settings)
    (day : string) (st : Loop)
    (Hgrew : processed (snd (process_day V S day st)) <> processed st) :
  let fname := List.last (list_files_in_record (ftp_dir V) day) "" in
  let st' := snd (process_day V S day st) in
  exists content status_code,
    fs (world st') !! local_mp4 S fname = Some content /\
    post V (telegram_request (bot_token S) (chat_id S) (local_mp4 S fname)
              (Some "") content) = Some status_code /\
    (status_code < 400 \/ 600 <= status_code)%Z /\
    In (Sent (local_mp4 S fname) true) (journal st').
Proof.
  cbv zeta. revert Hgrew. unfold process_day.
  destruct (list_files_in_record (ftp_dir V) day) as [| f0 files];
    [intros H; now contradiction H |].
  destruct (scan_files day (f0 :: files) (remote_key st)) as [key |];
    [| intros H; now contradiction H].
  destruct (bool_decide _); [intros H; now contradiction H |].
  set (fname := List.last (f0 :: files) "").
  set (st1 := {| remote_key := Some key; processed := processed st;
                 world := world st; journal := journal st |}).
  destruct (download_journal V S day fname st1) as (_ & Hp & _).
  destruct (download V S day fname st1) as [complete st2]. cbn [snd] in Hp.
  change (processed st1) with (processed st) in Hp.
  destruct complete; cbn [negb snd]; [| intros H; now contradiction H].
  unfold convert_and_send.
  destruct (convert_250_to_mp4 _ _ _ _ _) as [[e | [[] ha]] w];
    cbn [negb snd processed]; try (intros H; now contradiction H).
  destruct (send_file_telegram _ _ _ _ _ _) eqn:Hsent;
    cbn [snd processed world journal]; [| intros H; now contradiction H].
  intros _. apply send_file_telegram_delivered in Hsent
    as (content & status_code & Hfile & Hpost & Hcode).
  exists content, status_code. repeat split; auto.
  apply in_or_app. right. now left.
Qed.

Lemma key_recorded_only_after_delivery_witness :
  let V := {| ftp_dir := fun path =>
                if String.eqb path "/20240115/record/"
                then Some ["b.265"; "a.265"] else None;
              retr := fun _ _ => (true, Some Scenario.footage);
              media := Scenario.tools None false None None
                         (0%Z, Some Scenario.encoded) (0%Z, None) true;
              post := fun _ => Some 200%Z |} in
  let S := {| bot_token := "T"; chat_id := "42"; TARGET_FPS := None;
              delete_after := false; workdir := "/tmp/ftp_250_x" |} in
  let st := {| remote_key := None; processed := ∅;
               world := {| fs := ∅; trace := [] |}; journal := [] |} in
  exists content status_code,
    fs (world (snd (process_day V S "20240115" st))) !! "/tmp/ftp_250_x/b.mp4"
    = Some content /\
    post V (telegram_request "T" "42" "/tmp/ftp_250_x/b.mp4" (Some "") content)
    = Some status_code /\
    (status_code < 400 \/ 600 <= status_code)%Z /\
    In (Sent "/tmp/ftp_250_x/b.mp4" true) (journal (snd (process_day V S "20240115" st))).
Proof.
  intros V S st.
  refine (key_recorded_only_after_delivery V S "20240115" st _).
  assert (E : processed (snd (process_day V S "20240115" st))
              = {[ "20240115/record/b.265" ]}) by (vm_compute; reflexivity).
  intros H.
  assert (Hin : "20240115/record/b.265" ∈ processed st).
  { rewrite <- H, E. apply elem_of_singleton. reflexivity. }
  now apply not_elem_of_empty in Hin.
Defined.

Lemma get_env_required (environ : gmap string string) (name : string) :
  match get_env environ name true None with
  | inl code => code = 2%Z /\ (environ !! name = None \/ environ !! name = Some "")
  | inr val => exists v, environ !! name = Some v /\ v <> "" /\ val = Some v
  end.
Proof.
  unfold get_env. destruct (environ !! name) as [v |]; cbn [andb]; [| auto].
  destruct (String.eqb_spec v ""); [subst; auto | eauto].
Qed.

(** X20. Start-up either stops with exit status 2 or yields a
    configuration: it stops exactly when one of FTP_HOST, FTP_USER,
    FTP_PASS, BOT_TOKEN, CHAT_ID is unset or empty. Nothing else stops it:
    a missing FTP_PORT, and a TARGET_FPS that is unset, empty or not an
    integer (the rate is then determined automatically), are accepted. *)
Theorem start_up_requirements (py_int : string -> option Z)
    (environ : gmap string string) :
  match read_config py_int environ with
  | inl code =>
      code = 2%Z /\
      exists name, In name required_names /\
                   (environ !! name = None \/ environ !! name = Some "")
  | inr c =>
      (forall name, In name required_names ->
                    exists v, environ !! name = Some v /\ v <> "") /\
      ftp_host c = environ !! "FTP_HOST" /\
      ftp_user c = environ !! "FTP_USER" /\
      ftp_pass c = environ !! "FTP_PASS" /\
      cfg_bot_token c = environ !! "BOT_TOKEN" /\
      cfg_chat_id c = environ !! "CHAT_ID" /\
      ftp_port c = environ !! "FTP_PORT" /\
      (cfg_target_fps c = None \/
       exists raw, environ !! "TARGET_FPS" = Some raw /\ raw <> "" /\
                   cfg_target_fps c = py_int raw)
  end.
Proof.
  unfold read_config, required_names.
  pose proof (get_env_required environ "FTP_HOST") as H1.
  pose proof (get_env_required environ "FTP_USER") as H2.
  pose proof (get_env_required environ "FTP_PASS") as H3.
  pose proof (get_env_required environ "BOT_TOKEN") as H4.
  pose proof (get_env_required environ "CHAT_ID") as H5.
  destruct (get_env environ "FTP_HOST" true None) as [c1 | v1];
    [destruct H1 as [-> H1]; split; [reflexivity |]; eexists; split; [| exact H1];
     cbn; auto |].
  destruct (get_env environ "FTP_USER" true None) as [c2 | v2];
    [destruct H2 as [-> H2]; split; [reflexivity |]; eexists; split; [| exact H2];
     cbn; auto |].
  destruct (get_env environ "FTP_PASS" true None) as [c3 | v3];
    [destruct H3 as [-> H3]; split; [reflexivity |]; eexists; split; [| exact H3];
     cbn; auto |].
  destruct (get_env environ "BOT_TOKEN" true None) as [c4 | v4];
    [destruct H4 as [-> H4]; split; [reflexivity |]; eexists; split; [| exact H4];
     cbn; auto |].
  destruct (get_env environ "CHAT_ID" true None) as [c5 | v5];
    [destruct H5 as [-> H5]; split; [reflexivity |]; eexists; split; [| exact H5];
     cbn; auto 6 |].
  destruct H1 as (w1 & E1 & N1 & ->), H2 as (w2 & E2 & N2 & ->),
           H3 as (w3 & E3 & N3 & ->), H4 as (w4 & E4 & N4 & ->),
           H5 as (w5 & E5 & N5 & ->).
  cbn [ftp_host ftp_user ftp_pass ftp_port cfg_bot_token cfg_chat_id cfg_target_fps].
  repeat split; auto.
  - intros name [<- | [<- | [<- | [<- | [<- | []]]]]]; eauto.
  - unfold read_target_fps. destruct (environ !! "TARGET_FPS") as [raw |]; [| auto].
    destruct (String.eqb_spec raw ""); [auto |]. right. eauto.
Qed.

(** * Configured rates *)

Lemma digits2_pos_lower (p : positive) :
  (2 ^ (Z.pos (digits2_pos p) - 1) <= Z.pos p)%Z.
Proof.
  induction p as [p IH | p IH |]; cbn [digits2_pos]; [| | reflexivity].
  - rewrite Pos2Z.inj_succ.
    replace (Z.succ (Z.pos (digits2_pos p)) - 1)%Z
      with (Z.succ (Z.pos (digits2_pos p) - 1)) by lia.
    rewrite Z.pow_succ_r by lia.
    set (P := (2 ^ (Z.pos (digits2_pos p) - 1))%Z) in *. lia.
  - rewrite Pos2Z.inj_succ.
    replace (Z.succ (Z.pos (digits2_pos p)) - 1)%Z
      with (Z.succ (Z.pos (digits2_pos p) - 1)) by lia.
    rewrite Z.pow_succ_r by lia.
    set (P := (2 ^ (Z.pos (digits2_pos p) - 1))%Z) in *. lia.
Qed.

Lemma iter_xO_digits (p k : positive) :
  digits2_pos (Pos.iter xO p k) = (digits2_pos p + k)%positive.
Proof.
  induction k as [| k IH] using Pos.peano_ind.
  - cbn. lia.
  - rewrite Pos.iter_succ. cbn [digits2_pos]. rewrite IH. lia.
Qed.

Lemma iter_xO_value (p k : positive) :
  Z.pos (Pos.iter xO p k) = (Z.pos p * 2 ^ Z.pos k)%Z.
Proof.
  induction k as [| k IH] using Pos.peano_ind.
  - cbn. lia.
  - rewrite Pos.iter_succ, Pos2Z.inj_succ, Z.pow_succ_r by lia.
    set (P := (2 ^ Z.pos k)%Z) in *. lia.
Qed.

(** A mantissa of full width at an exponent in range is stored as it is. *)
Lemma binary_round_aux_canonical (m : positive) (e : Z) :
  Z.pos (digits2_pos m) = 53%Z -> (-1074 <= e <= 971)%Z ->
  binary_round_aux prec emax false (Z.pos m) e loc_Exact = S754_finite false m e.
Proof.
  intros Hd He.
  assert (Hshift : (fexp prec emax (53 + e) - e = 0)%Z).
  { unfold fexp, SpecFloat.emin. change prec with 53%Z. change emax with 1024%Z. lia. }
  unfold binary_round_aux, shr_fexp. cbn [Zdigits2]. rewrite Hd, Hshift.
  cbn [shr shr_record_of_loc shr_m loc_of_shr_record round_nearest_even Zdigits2].
  rewrite Hd, Hshift. cbn [shr shr_m].
  change prec with 53%Z. change emax with 1024%Z.
  destruct (Z.leb_spec e (1024 - 53)); [reflexivity | lia].
Qed.

(** [float(n)] for [0 < n < 2^53] is exact: the mantissa is [n] shifted to
    full width. *)
Lemma float_of_small_int (p : positive) :
  (Z.pos p < 2 ^ 53)%Z ->
  exists m e,
    Py.float_of_int (Z.pos p) = inr (SF2Prim (S754_finite false m e)) /\
    Prim2SF (SF2Prim (S754_finite false m e)) = S754_finite false m e /\
    (-52 <= e <= 0)%Z /\ Z.pos m = (Z.pos p * 2 ^ (- e))%Z.
Proof.
  intros Hp.
  pose proof (digits2_pos_lower p) as Hlow.
  assert (Hd : (Z.pos (digits2_pos p) <= 53)%Z).
  { destruct (Z.le_gt_cases (Z.pos (digits2_pos p)) 53) as [H | H]; [exact H |].
    assert (2 ^ 53 <= 2 ^ (Z.pos (digits2_pos p) - 1))%Z
      by (apply Z.pow_le_mono_r; lia). lia. }
  unfold Py.float_of_int.
  assert (Hfit : (Z.abs (Z.pos p) <? Py.float_overflow_bound)%Z = true).
  { apply Z.ltb_lt. cbn [Z.abs]. eapply Z.lt_trans; [exact Hp |]. reflexivity. }
  rewrite Hfit. cbn [binary_normalize]. unfold binary_round.
  assert (Hfexp : fexp prec emax (Z.pos (digits2_pos p) + 0)
                  = (Z.pos (digits2_pos p) - 53)%Z).
  { unfold fexp, SpecFloat.emin. change prec with 53%Z. change emax with 1024%Z. lia. }
  rewrite Hfexp. unfold shl_align.
  destruct (Z.pos (digits2_pos p) - 53 - 0)%Z as [| k | k] eqn:Hk; [| lia |].
  - exists p, 0%Z.
    assert (Hcan : binary_round_aux prec emax false (Z.pos p) 0 loc_Exact
                   = S754_finite false p 0)
      by (apply binary_round_aux_canonical; lia).
    rewrite Hcan. repeat split; try lia.
    apply Prim2SF_SF2Prim. cbn [valid_binary]. unfold bounded, canonical_mantissa.
    replace (Z.pos (digits2_pos p)) with 53%Z by lia. reflexivity.
  - set (e := (Z.pos (digits2_pos p) - 53)%Z).
    assert (Hdig : Z.pos (digits2_pos (Pos.iter xO p k)) = 53%Z)
      by (rewrite iter_xO_digits; lia).
    exists (Pos.iter xO p k), e.
    assert (Hcan : binary_round_aux prec emax false (Z.pos (Pos.iter xO p k)) e loc_Exact
                   = S754_finite false (Pos.iter xO p k) e)
      by (apply binary_round_aux_canonical; [exact Hdig | lia]).
    rewrite Hcan. repeat split; try lia.
    + apply Prim2SF_SF2Prim. cbn [valid_binary]. unfold bounded, canonical_mantissa.
      rewrite Hdig. unfold fexp, SpecFloat.emin.
      change prec with 53%Z. change emax with 1024%Z.
      apply andb_true_iff. split; [apply Z.eqb_eq | apply Z.leb_le]; lia.
    + rewrite iter_xO_value. f_equal. f_equal. lia.
Qed.

Lemma div_half_even_exact (q d : Z) :
  (0 < d)%Z -> Py.div_half_even (q * d) d = q.
Proof.
  intros Hd. unfold Py.div_half_even.
  rewrite Z.div_mul, Z.mod_mul by lia. cbn [Z.mul].
  now destruct d.
Qed.

(** Rounding the float of a small positive integer gives the integer back. *)
Lemma round_float_of_small_int (p : positive) :
  (Z.pos p < 2 ^ 53)%Z ->
  exists f s m e,
    Py.float_of_int (Z.pos p) = inr f /\ Prim2SF f = S754_finite s m e /\
    Py.round f = inr (Z.pos p).
Proof.
  intros Hp. destruct (float_of_small_int p Hp) as (m & e & Hf & Hsf & He & Hm).
  exists (SF2Prim (S754_finite false m e)), false, m, e.
  repeat split; [exact Hf | exact Hsf |].
  unfold Py.round. rewrite Hsf. f_equal. unfold Py.scaled_magnitude.
  destruct (Z.leb_spec 0 e) as [H0 | H0].
  - assert (e = 0%Z) as -> by lia. cbn [Z.opp] in Hm. rewrite Hm.
    change (2 ^ 0)%Z with 1%Z. lia.
  - rewrite Z.mul_1_r, Hm. apply div_half_even_exact. apply Z.pow_pos_nonneg; lia.
Qed.

(** A finite float is at distance zero from itself. *)
Lemma finite_self_distance (f : float) (s : bool) (m : positive) (e : Z) :
  Prim2SF f = S754_finite s m e -> (abs (f - f) <? 0.001)%float = true.
Proof.
  intros Hf. rewrite FloatAxioms.ltb_spec, abs_spec, sub_spec, Hf.
  unfold SF64sub, SFsub. rewrite Z.sub_diag. reflexivity.
Qed.

(** X21. A configured rate [c] with [0 < c < 2^53] reaches the encoder
    verbatim: whatever the probe detects, the rate is resolved as
    configured, rendered as the decimal text of [c], and the first command
    the conversion runs is [cmd_recode] with that text. *)
Theorem configured_rate_verbatim (T : Tools) (c : Z)
    (src_path dst_path : string) (w : World)
    (Hpos : (0 < c)%Z) (Hsmall : (c < 2 ^ 53)%Z) :
  exists f rc later,
    resolve_fps (Some c) (probe_fps T src_path (fs w)) = inr ("konfiguriert", f) /\
    format_fps_value (Some f) = inr (Py.str_of_int c) /\
    trace (snd (convert_250_to_mp4 T (Some c) src_path dst_path w)) =
    trace w ++ Ran (cmd_recode src_path dst_path (Py.str_of_int c)
                      (probe_has_audio T src_path (fs w))) rc :: later.
Proof.
  destruct c as [| p | p]; try lia.
  destruct (round_float_of_small_int p Hsmall) as (f & s & m & e & Hf & Hsf & Hr).
  assert (Hresolve : resolve_fps (Some (Z.pos p)) (probe_fps T src_path (fs w))
                     = inr ("konfiguriert", f)).
  { unfold resolve_fps. cbn [Z.eqb Z.ltb Z.compare negb andb]. now rewrite Hf. }
  assert (Hformat : format_fps_value (Some f) = inr (Py.str_of_int (Z.pos p))).
  { unfold format_fps_value. rewrite Hr. cbn [exc_bind]. rewrite Hf. cbn [exc_bind].
    now rewrite (finite_self_distance f s m e Hsf). }
  destruct (convert_runs_cmd_recode T (Some (Z.pos p)) src_path dst_path w
              "konfiguriert" f (Py.str_of_int (Z.pos p)) Hresolve Hformat)
    as [later Hlater].
  eauto 10.
Qed.

Lemma configured_rate_verbatim_witness :
  let T := Scenario.tools (Some 12.5%float) false None None
             (0%Z, Some Scenario.encoded) (0%Z, None) true in
  exists f rc later,
    resolve_fps (Some 30%Z) (probe_fps T "cam/rec.265" (fs (Scenario.start "cam/rec.265")))
    = inr ("konfiguriert", f) /\
    format_fps_value (Some f) = inr "30" /\
    trace (snd (convert_250_to_mp4 T (Some 30%Z) "cam/rec.265" "cam/rec.mp4"
                  (Scenario.start "cam/rec.265"))) =
    trace (Scenario.start "cam/rec.265") ++
    Ran (cmd_recode "cam/rec.265" "cam/rec.mp4" "30"
           (probe_has_audio T "cam/rec.265" (fs (Scenario.start "cam/rec.265")))) rc
    :: later.
Proof.
  intros T.
  exact (configured_rate_verbatim T 30 "cam/rec.265" "cam/rec.mp4"
           (Scenario.start "cam/rec.265") eq_refl eq_refl).
Defined.

(** * Deleting on the server *)

Section Deleting.

Variables (V : Services) (S : Settings).

Lemma deletions_justified_nil : deletions_justified S [].
Proof. intros before day fname after H. now destruct before. Qed.

(** A stretch without a deletion has nothing to justify. *)
Lemma deletions_justified_none (later : list action) :
  (forall day fname, ~ In (DeleteCalled day fname) later) ->
  deletions_justified S later.
Proof.
  intros Hnone before day fname after ->. exfalso.
  apply (Hnone day fname), in_or_app. right. now left.
Qed.

Lemma deletions_justified_app (a b : list action) :
  deletions_justified S a -> deletions_justified S b ->
  deletions_justified S (a ++ b).
Proof.
  intros Ha Hb before day fname after Heq.
  apply app_eq_app in Heq as [l [[-> Hrest] | [-> Hrest]]].
  - destruct l as [| x l].
    + cbn [app] in Hrest.
      destruct (Hb [] day fname after (eq_sym Hrest)) as [_ [earlier He]].
      now destruct earlier.
    + cbn [app] in Hrest. injection Hrest as <- ->.
      exact (Ha before day fname l eq_refl).
  - destruct (Hb l day fname after Hrest) as [Hset [earlier ->]].
    split; [exact Hset |]. exists (a ++ earlier). now rewrite app_assoc.
Qed.

(** The journal of one file, from its completed download on. *)
Lemma convert_and_send_deletions (day fname key : string) (st : Loop) :
  exists later,
    journal (snd (convert_and_send V S day fname key st)) = journal st ++ later /\
    deletions_justified S (Fetched day fname true :: later).
Proof.
  unfold convert_and_send.
  destruct (convert_250_to_mp4 _ _ _ _ _) as [[e | [[] ha]] w]; cbn [negb snd journal].
  - exists []. rewrite app_nil_r. split; [reflexivity |].
    apply deletions_justified_none. intros d f [H | []]. discriminate.
  - destruct (send_file_telegram _ _ _ _ _ _); cbn [snd journal];
      rewrite <- app_assoc; eexists; (split; [reflexivity |]).
    + destruct (delete_after S) eqn:Hdel; cbn [app].
      * intros before d f after Heq.
        destruct before as [| a1 [| a2 [| a3 [| a4 before]]]]; cbn [app] in Heq;
          try discriminate.
        -- inversion Heq; subst. split; [exact Hdel |]. now exists [].
        -- exfalso. apply (f_equal (@List.length action)) in Heq.
           cbn [List.length] in Heq. rewrite length_app in Heq.
           cbn [List.length] in Heq. lia.
      * apply deletions_justified_none.
        intros d f [H | [H | [H | []]]]; discriminate.
    + apply deletions_justified_none.
      intros d f [H | [H | [H | []]]]; discriminate.
  - eexists. split; [reflexivity |].
    apply deletions_justified_none. intros d f [H | [H | []]]; discriminate.
Qed.

Lemma process_day_deletions (day : string) (st : Loop) :
  exists later,
    journal (snd (process_day V S day st)) = journal st ++ later /\
    deletions_justified S later.
Proof.
  pose proof deletions_justified_nil as Hnil.
  unfold process_day.
  destruct (list_files_in_record (ftp_dir V) day) as [| f0 files];
    [exists []; now rewrite app_nil_r |].
  destruct (scan_files day (f0 :: files) (remote_key st)) as [key |];
    [| exists []; now rewrite app_nil_r].
  destruct (bool_decide _); [exists []; cbn; now rewrite app_nil_r |].
  set (fname := List.last (f0 :: files) "").
  set (st1 := {| remote_key := Some key; processed := processed st;
                 world := world st; journal := journal st |}).
  destruct (download_journal V S day fname st1) as (Hj & _ & _).
  destruct (download V S day fname st1) as [complete st2]. cbn [fst snd] in Hj.
  change (journal st1) with (journal st) in Hj.
  destruct complete; cbn [negb snd].
  - destruct (convert_and_send_deletions day fname key st2) as (later & Hl & Hok).
    rewrite Hl, Hj, <- app_assoc. eexists. split; [reflexivity | exact Hok].
  - eexists. split; [exact Hj |].
    apply deletions_justified_none. intros d f [H | []]. discriminate.
Qed.

Lemma process_days_deletions (days : list string) (st : Loop) :
  exists later,
    journal (snd (process_days V S days st)) = journal st ++ later /\
    deletions_justified S later.
Proof.
  revert st. induction days as [| day days IH]; intros st; cbn [process_days].
  - exists []. rewrite app_nil_r. split; [reflexivity | apply deletions_justified_nil].
  - destruct (process_day_deletions day st) as (l1 & H1 & Hok1).
    destruct (process_day V S day st) as [[e |] st1]; cbn [snd] in *; [eauto |].
    destruct (IH st1) as (l2 & H2 & Hok2).
    rewrite H2, H1, <- app_assoc. eexists. split; [reflexivity |].
    now apply deletions_justified_app.
Qed.

End Deleting.

(** X22. The loop asks the server to delete a file only when deleting is
    switched on and only straight after it has handled that very file of
    that day to the end: in what a pass over the day directories adds to
    the journal, every deletion is directly preceded by the completed
    download of the file, its successful conversion and the delivered
    upload of the converted file, in this order. *)
Theorem deletion_only_after_delivery (V : Services) (S : Settings)
    (days : list string) (st : Loop) :
  exists later,
    journal (snd (process_days V S days st)) = journal st ++ later /\
    forall before day fname after,
      later = before ++ DeleteCalled day fname :: after ->
      delete_after S = true /\
      exists earlier,
        before = earlier ++ [Fetched day fname true;
                             Converted (local_src S fname) (local_mp4 S fname) true;
                             Sent (local_mp4 S fname) true].
Proof. exact (process_days_deletions V S days st). Qed.

(** With deleting switched on, a delivered file is deleted next. *)
Example delivered_file_is_deleted :
  let V := {| ftp_dir := fun path =>
                if String.eqb path "/20240115/record/"
                then Some ["b.265"; "a.265"] else None;
              retr := fun _ _ => (true, Some Scenario.footage);
              media := Scenario.tools None false None None
                         (0%Z, Some Scenario.encoded) (0%Z, None) true;
              post := fun _ => Some 200%Z |} in
  let S := {| bot_token := "T"; chat_id := "42"; TARGET_FPS := None;
              delete_after := true; workdir := "/tmp/ftp_250_x" |} in
  let st := {| remote_key := None; processed := ∅;
               world := {| fs := ∅; trace := [] |}; journal := [] |} in
  journal (snd (process_days V S ["20240115"] st))
  = [Fetched "20240115" "b.265" true;
     Converted "/tmp/ftp_250_x/b.265" "/tmp/ftp_250_x/b.mp4" true;
     Sent "/tmp/ftp_250_x/b.mp4" true;
     DeleteCalled "20240115" "b.265"].
Proof. vm_compute. reflexivity. Qed.
